(** * Rent in Addis: a shallow embedding of [app.py]

    The Flask application keeps three SQLite tables (users, apartments,
    tenants) and serves a handful of request handlers over them.  This
    development embeds the tables, the SQL statements the handlers issue,
    the Python conversions [int()] and [float()] they rely on, and the
    handlers themselves, written in a small state-and-exception monad that
    follows the control flow of the Python code ([try] / [except] /
    [finally], early [return]s, [conn.close()]). *)

From Stdlib Require Import String Ascii ZArith QArith Qabs Qround List Lia Bool Sorted.
Import ListNotations.

Local Open Scope string_scope.
Local Open Scope Q_scope.
Local Open Scope Z_scope.

(* ================================================================== *)
(** * Python builtins used by the handlers *)

Module Py.

(** Characters as byte codes.  A string is the UTF-8 text of a Python
    [str]; the conversions of this module are those of CPython on a [str]
    of ASCII characters only.  What [int()] and [float()] make of other
    text depends on the interpreter's Unicode tables and is a parameter of
    the handlers further down. *)
Definition code (c : ascii) : Z := Z.of_N (N_of_ascii c).

(** [s.isascii()] *)
Definition ascii_only (s : string) : bool :=
  forallb (fun c => code c <? 128) (list_ascii_of_string s).

(** The blanks [int()] and [float()] skip around an ASCII literal
    ([Py_ISSPACE]): TAB, LF, VT, FF, CR and the space. *)
Definition is_space (c : ascii) : bool :=
  let n := code c in
  ((9 <=? n) && (n <=? 13)) || (n =? 32).

Definition is_digit (c : ascii) : bool :=
  let n := code c in (48 <=? n) && (n <=? 57).

Definition digit_val (c : ascii) : Z := code c - 48.

Definition is_underscore (c : ascii) : bool := code c =? 95.

(** ASCII lower-casing, for the case-insensitive [inf] / [nan] spellings. *)
Definition lower (c : ascii) : ascii :=
  let n := code c in
  if (65 <=? n) && (n <=? 90) then ascii_of_N (Z.to_N (n + 32)) else c.

Fixpoint drop_while {A} (p : A -> bool) (l : list A) : list A :=
  match l with
  | [] => []
  | x :: l' => if p x then drop_while p l' else l
  end.

Fixpoint take_while {A} (p : A -> bool) (l : list A) : list A :=
  match l with
  | [] => []
  | x :: l' => if p x then x :: take_while p l' else []
  end.

(** [s.strip()] *)
Definition strip (l : list ascii) : list ascii :=
  rev (drop_while is_space (rev (drop_while is_space l))).

(** A digit part of a numeric literal: digits, with single underscores
    allowed between two digits only. *)
Fixpoint digits_ok (prev_digit : bool) (l : list ascii) : bool :=
  match l with
  | [] => prev_digit
  | c :: l' =>
      if is_digit c then digits_ok true l'
      else if is_underscore c then prev_digit && digits_ok false l'
      else false
  end.

Definition digits_value (l : list ascii) : Z :=
  fold_left (fun acc c => if is_digit c then 10 * acc + digit_val c else acc) l 0.

Definition digits_count (l : list ascii) : Z :=
  Z.of_nat (length (filter is_digit l)).

Definition digit_or_us (c : ascii) : bool := is_digit c || is_underscore c.

(** Splits a leading digit part off [l]: its value, its number of digits and
    the rest of the input. *)
Definition digitpart (l : list ascii) : option (Z * Z * list ascii) :=
  let d := take_while digit_or_us l in
  if digits_ok false d
  then Some (digits_value d, digits_count d, drop_while digit_or_us l)
  else None.

(** An optional sign: [true] for a minus. *)
Definition sign (l : list ascii) : bool * list ascii :=
  match l with
  | c :: l' =>
      if code c =? 45 then (true, l')
      else if code c =? 43 then (false, l')
      else (false, l)
  | [] => (false, l)
  end.

(** The interpreter's default limit on the digits of a decimal literal
    ([sys.int_info.default_max_str_digits]). *)
Definition max_str_digits : Z := 4300.

(** [int(s)] for an ASCII [str], base 10; [None] stands for the
    [ValueError] Python raises, which it also does for a literal of more
    than [max_str_digits] digits.  Python integers are unbounded. *)
Definition int (s : string) : option Z :=
  let '(neg, l) := sign (strip (list_ascii_of_string s)) in
  match digitpart l with
  | Some (v, k, []) =>
      if k <=? max_str_digits then Some (if neg then - v else v) else None
  | _ => None
  end.

(** ** Floats

    A Python float is an IEEE binary64 value.  Every finite one is a
    rational number, and it is kept as that number (the two zeros are not
    told apart: they compare equal). *)
Inductive real : Type :=
| RInf (neg : bool)
| RFin (q : Q).

Inductive float : Type :=
| FNan
| FReal (r : real).

Definition Qpow2 (e : Z) : Q := Qpower (2 # 1) e.

(** Round to the nearest integer, ties to even. *)
Definition round_half_even (q : Q) : Z :=
  let f := Qfloor q in
  let r := (q - inject_Z f)%Q in
  match (r ?= 1 # 2)%Q with
  | Lt => f
  | Gt => f + 1
  | Eq => if Z.even f then f else f + 1
  end.

(** The binary exponent [e] with [2^e <= q < 2^(e+1)], for [q > 0]. *)
Definition ilog2 (q : Q) : Z :=
  let e0 := Z.log2 (Qnum q) - Z.log2 (Zpos (Qden q)) in
  if Qle_bool (Qpow2 e0) q then e0 else e0 - 1.

(** Correct rounding of a rational to binary64: 53 significant bits,
    exponents from -1022 (subnormals below) to 1023, overflow to infinity. *)
Definition round64 (q : Q) : real :=
  match Qnum q with
  | 0 => RFin 0
  | _ =>
      let a := Qabs q in
      let e := Z.max (ilog2 a) (-1022) in
      let ulp := Qpow2 (e - 52) in
      let m := (inject_Z (round_half_even (a / ulp)) * ulp)%Q in
      if Qle_bool (Qpow2 1024) m then RInf (Qnum q <? 0)
      else RFin (Qred (if Qnum q <? 0 then (- m)%Q else m))
  end.

Definition pow10 (e : Z) : Q :=
  if e <? 0 then 1 # Z.to_pos (10 ^ (- e)) else inject_Z (10 ^ e).

Definition lowered (l : list ascii) : string :=
  string_of_list_ascii (map lower l).

(** The optional exponent of a decimal literal. *)
Definition exponent (l : list ascii) : option (Z * list ascii) :=
  match l with
  | [] => Some (0, [])
  | c :: l' =>
      if code (lower c) =? 101 then
        let '(neg, l'') := sign l' in
        match digitpart l'' with
        | Some (v, _, rest) => Some (if neg then - v else v, rest)
        | None => None
        end
      else None
  end.

(** The unsigned decimal literals [float()] accepts: [12], [12.], [12.5],
    [.5], each with an optional exponent. *)
Definition decimal (l : list ascii) : option Q :=
  let finish (m k : Z) (rest : list ascii) :=
    match exponent rest with
    | Some (e, []) => Some (inject_Z m * pow10 (e - k))%Q
    | _ => None
    end in
  match l with
  | c :: l' =>
      if code c =? 46 then
        match digitpart l' with
        | Some (f, k, rest) => finish f k rest
        | None => None
        end
      else
        match digitpart l with
        | Some (i, _, d :: rest) =>
            if code d =? 46 then
              match digitpart rest with
              | Some (f, k, rest') => finish (i * 10 ^ k + f) k rest'
              | None => finish i 0 rest
              end
            else finish i 0 (d :: rest)
        | Some (i, _, []) => finish i 0 []
        | None => None
        end
  | [] => None
  end.

(** [float(s)] for an ASCII [str]; [None] stands for [ValueError]. *)
Definition float_of (s : string) : option float :=
  let '(neg, l) := sign (strip (list_ascii_of_string s)) in
  let w := lowered l in
  if String.eqb w "inf" || String.eqb w "infinity" then Some (FReal (RInf neg))
  else if String.eqb w "nan" then Some FNan
  else
    match decimal l with
    | Some q => Some (FReal (round64 (if neg then (- q)%Q else q)))
    | None => None
    end.

(** [x <= 0] on floats: false for NaN. *)
Definition float_le0 (x : float) : bool :=
  match x with
  | FNan => false
  | FReal (RInf neg) => neg
  | FReal (RFin q) => Qle_bool q 0
  end.

(** Truthiness of an optional string ([None] and the empty string are
    falsy), as [all([...])] and [if x] test it. *)
Definition truthy (o : option string) : bool :=
  match o with
  | Some s => negb (String.eqb s "")
  | None => false
  end.

End Py.

Arguments Py.int : simpl never.
Arguments Py.float_of : simpl never.

(* ================================================================== *)
(** * The store: three tables *)

(** Table [users]. *)
Record User : Type := mkUser {
  u_id : Z;
  u_fullName : string;
  u_email : string;
  u_phone : string;
  u_password : string
}.

(** Table [apartments].  [rent REAL] is nullable, and a NaN bound to it is
    stored as NULL. *)
Record Apartment : Type := mkApartment {
  a_id : Z;
  a_name : string;
  a_bedrooms : Z;
  a_bathrooms : Z;
  a_location : string;
  a_rent : option Py.real
}.

(** Table [tenants]; [email] and [apartment_id] are nullable. *)
Record Tenant : Type := mkTenant {
  t_id : Z;
  t_fullName : string;
  t_phone : string;
  t_email : option string;
  t_apartment_id : option Z;
  t_lease_start : string
}.

(** The database file.  The [_seq] fields are the [sqlite_sequence] entries
    of the AUTOINCREMENT keys: the largest id ever handed out per table. *)
Record DB : Type := mkDB {
  users : list User;
  users_seq : Z;
  apartments : list Apartment;
  apartments_seq : Z;
  tenants : list Tenant;
  tenants_seq : Z
}.

Definition empty_db : DB := mkDB [] 0 [] 0 [] 0.

(** Exceptions the handlers can meet. *)
Inductive value_error : Type :=
| InvalidInt (s : string)        (* invalid literal for int() with base 10 *)
| InvalidFloat (s : string)      (* could not convert string to float *)
| Raised (msg : string).         (* raise ValueError(msg) *)

Inductive exn : Type :=
| ValueError (v : value_error)
| OverflowError                  (* Python int too large to convert to SQLite INTEGER *)
| IntegrityError                 (* UNIQUE or FOREIGN KEY constraint failed *)
| ProgrammingError               (* operation on a closed connection *)
| BadRequestKeyError (key : string)
| KeyError (key : string).

(** The class tests of the [except] clauses.  Every exception above,
    werkzeug's [BadRequestKeyError] included, derives from [Exception]. *)
Definition is_ValueError (e : exn) : bool :=
  match e with ValueError _ => true | _ => false end.

Definition is_IntegrityError (e : exn) : bool :=
  match e with IntegrityError => true | _ => false end.

Definition is_Exception (e : exn) : bool := true.

Module Sql.

(** Binding a Python int as a statement parameter: SQLite integers are
    64-bit, and the driver raises [OverflowError] beyond. *)
Definition fits_int64 (n : Z) : bool :=
  (- 2 ^ 63 <=? n) && (n <=? 2 ^ 63 - 1).

Definition bind_int (n : Z) : option exn :=
  if fits_int64 n then None else Some OverflowError.

Definition bind_opt_int (n : option Z) : option exn :=
  match n with Some n => bind_int n | None => None end.

(** Binding a Python float: NaN becomes NULL. *)
Definition bind_float (x : Py.float) : option Py.real :=
  match x with Py.FNan => None | Py.FReal r => Some r end.

(** [a.id = t.apartment_id]: never true on NULL. *)
Definition id_is (o : option Z) (id : Z) : bool :=
  match o with Some x => x =? id | None => false end.

Definition is_null {A} (o : option A) : bool :=
  match o with Some _ => false | None => true end.

(** [la LEFT JOIN lb ON on]: every left row, once per matching right row,
    or once with a NULL right side when nothing matches. *)
Definition left_join {A B} (on : A -> B -> bool) (la : list A) (lb : list B)
  : list (A * option B) :=
  flat_map (fun a =>
    match filter (on a) lb with
    | [] => [(a, None)]
    | m => map (fun b => (a, Some b)) m
    end) la.

(** [apartments a LEFT JOIN tenants t ON a.id = t.apartment_id] *)
Definition apartments_join_tenants (db : DB) : list (Apartment * option Tenant) :=
  left_join (fun a t => id_is (t_apartment_id t) (a_id a)) (apartments db) (tenants db).

(** Column [t.apartment_id] of a joined row. *)
Definition joined_apartment_id (r : Apartment * option Tenant) : option Z :=
  match snd r with Some t => t_apartment_id t | None => None end.

(** ORDER BY, as a stable insertion sort on a "comes no later" test. *)
Fixpoint insert_by {A} (le : A -> A -> bool) (x : A) (l : list A) : list A :=
  match l with
  | [] => [x]
  | y :: l' => if le x y then x :: l else y :: insert_by le x l'
  end.

Definition order_by {A} (le : A -> A -> bool) (l : list A) : list A :=
  fold_right (insert_by le) [] l.

(** SQLite's order on a REAL column: NULL first, then -Inf, the finite
    values, +Inf. *)
Definition real_leb (x y : option Py.real) : bool :=
  match x, y with
  | None, _ => true
  | Some _, None => false
  | Some (Py.RInf true), Some _ => true
  | Some (Py.RFin _), Some (Py.RInf n) => negb n
  | Some (Py.RFin p), Some (Py.RFin q) => Qle_bool p q
  | Some (Py.RInf false), Some (Py.RInf false) => true
  | Some (Py.RInf false), Some _ => false
  end.

(** [ORDER BY a.rent DESC] *)
Definition rent_desc (a b : Apartment) : bool := real_leb (a_rent b) (a_rent a).

(** [ORDER BY a.name], BINARY collation. *)
Definition name_asc (a b : Apartment) : bool := String.leb (a_name a) (a_name b).

(** [SELECT a.* ... WHERE t.apartment_id IS NULL ORDER BY a.rent DESC] *)
Definition select_available_by_rent (db : DB) : list Apartment :=
  map fst
    (order_by (fun r s => rent_desc (fst r) (fst s))
       (filter (fun r => is_null (joined_apartment_id r)) (apartments_join_tenants db))).

(** [SELECT a.id, a.name ... WHERE t.apartment_id IS NULL ORDER BY a.name] *)
Definition select_available_by_name (db : DB) : list (Z * string) :=
  map (fun r => (a_id (fst r), a_name (fst r)))
    (order_by (fun r s => name_asc (fst r) (fst s))
       (filter (fun r => is_null (joined_apartment_id r)) (apartments_join_tenants db))).

(** [... WHERE t.apartment_id IS NULL OR a.id = ? ORDER BY a.name] *)
Definition select_available_or_own (own : option Z) (db : DB) : list (Z * string) :=
  map (fun r => (a_id (fst r), a_name (fst r)))
    (order_by (fun r s => name_asc (fst r) (fst s))
       (filter (fun r => is_null (joined_apartment_id r) || id_is own (a_id (fst r)))
          (apartments_join_tenants db))).

(** [SELECT a.*, COUNT(t.id) AS tenant_count ... GROUP BY a.id ORDER BY a.name] *)
Definition select_apartments_with_count (db : DB) : list (Apartment * Z) :=
  order_by (fun r s => name_asc (fst r) (fst s))
    (map (fun a =>
        (a, Z.of_nat (length (filter (fun t => id_is (t_apartment_id t) (a_id a)) (tenants db)))))
       (apartments db)).

(** [SELECT t.id, ..., a.name AS apartment_name FROM tenants t LEFT JOIN
    apartments a ON t.apartment_id = a.id ORDER BY t.fullName] *)
Definition select_tenants_with_apartment (db : DB) : list (Tenant * option string) :=
  order_by (fun r s => String.leb (t_fullName (fst r)) (t_fullName (fst s)))
    (map (fun r => (fst r, option_map a_name (snd r)))
       (left_join (fun t a => id_is (t_apartment_id t) (a_id a)) (tenants db) (apartments db))).

(** [SELECT a.*, t.fullName AS tenant_name, t.id AS tenant_id ... WHERE a.id = ?],
    first row. *)
Definition select_apartment_with_tenant (id : Z) (db : DB)
  : option (Apartment * option (string * Z)) :=
  match filter (fun r => a_id (fst r) =? id) (apartments_join_tenants db) with
  | r :: _ => Some (fst r, option_map (fun t => (t_fullName t, t_id t)) (snd r))
  | [] => None
  end.

(** [SELECT * FROM users WHERE email = ?], first row. *)
Definition select_user_by_email (email : string) (db : DB) : option User :=
  find (fun u => String.eqb (u_email u) email) (users db).

(** [SELECT name FROM apartments WHERE id = ?] and [SELECT * FROM tenants
    WHERE id = ?], first row. *)
Definition select_apartment (id : Z) (db : DB) : option Apartment :=
  find (fun a => a_id a =? id) (apartments db).

Definition select_tenant (id : Z) (db : DB) : option Tenant :=
  find (fun t => t_id t =? id) (tenants db).

(** [SELECT COUNT(id) FROM apartments] *)
Definition count_apartments (db : DB) : Z := Z.of_nat (length (apartments db)).

(** The non-NULL [apartment_id] values of [tenants], in row order. *)
Fixpoint assigned_ids (l : list Tenant) : list Z :=
  match l with
  | [] => []
  | t :: l' =>
      match t_apartment_id t with
      | Some a => a :: assigned_ids l'
      | None => assigned_ids l'
      end
  end.

(** [SELECT COUNT(DISTINCT apartment_id) FROM tenants WHERE apartment_id IS NOT NULL] *)
Definition count_occupied (db : DB) : Z :=
  Z.of_nat (length (nodup Z.eq_dec (assigned_ids (tenants db)))).

(** [SELECT COUNT(id) FROM tenants] *)
Definition count_tenants (db : DB) : Z := Z.of_nat (length (tenants db)).

(** The parent-key test of the foreign key [tenants.apartment_id]. *)
Definition fk_ok (o : option Z) (db : DB) : bool :=
  match o with
  | Some a => existsb (fun x => a_id x =? a) (apartments db)
  | None => true
  end.

(** [INSERT INTO users (fullName, email, phone, password)]: [email] is UNIQUE. *)
Definition insert_user (fullName email phone password : string) (db : DB)
  : exn + DB :=
  if existsb (fun u => String.eqb (u_email u) email) (users db)
  then inl IntegrityError
  else
    let id := users_seq db + 1 in
    inr (mkDB (users db ++ [mkUser id fullName email phone password]) id
              (apartments db) (apartments_seq db) (tenants db) (tenants_seq db)).

(** [INSERT INTO apartments (name, location, bedrooms, bathrooms, rent)] *)
Definition insert_apartment (name location : string) (bedrooms bathrooms : Z)
    (rent : Py.float) (db : DB) : exn + DB :=
  match bind_int bedrooms, bind_int bathrooms with
  | Some e, _ | None, Some e => inl e
  | None, None =>
      let id := apartments_seq db + 1 in
      inr (mkDB (users db) (users_seq db)
                (apartments db ++
                   [mkApartment id name bedrooms bathrooms location (bind_float rent)])
                id (tenants db) (tenants_seq db))
  end.

(** [UPDATE apartments SET name, location, bedrooms, bathrooms, rent WHERE id = ?] *)
Definition update_apartment (name location : string) (bedrooms bathrooms : Z)
    (rent : Py.float) (id : Z) (db : DB) : exn + DB :=
  match bind_int bedrooms, bind_int bathrooms, bind_int id with
  | Some e, _, _ | None, Some e, _ | None, None, Some e => inl e
  | None, None, None =>
      inr (mkDB (users db) (users_seq db)
                (map (fun a =>
                        if a_id a =? id
                        then mkApartment (a_id a) name bedrooms bathrooms location
                                         (bind_float rent)
                        else a) (apartments db))
                (apartments_seq db) (tenants db) (tenants_seq db))
  end.

(** The action [ON DELETE SET NULL] takes on one child row. *)
Definition set_null (id : Z) (t : Tenant) : Tenant :=
  if id_is (t_apartment_id t) id
  then mkTenant (t_id t) (t_fullName t) (t_phone t) (t_email t) None (t_lease_start t)
  else t.

(** [DELETE FROM apartments WHERE id = ?], foreign keys enforced: the child
    rows of a deleted apartment get a NULL [apartment_id]. *)
Definition delete_apartment (id : Z) (db : DB) : exn + DB :=
  match bind_int id with
  | Some e => inl e
  | None =>
      inr (mkDB (users db) (users_seq db)
                (filter (fun a => negb (a_id a =? id)) (apartments db))
                (apartments_seq db)
                (if existsb (fun a => a_id a =? id) (apartments db)
                 then map (set_null id) (tenants db)
                 else tenants db)
                (tenants_seq db))
  end.

(** [INSERT INTO tenants (fullName, phone, email, apartment_id, lease_start)] *)
Definition insert_tenant (fullName phone : string) (email : option string)
    (apartment_id : option Z) (lease_start : string) (db : DB) : exn + DB :=
  match bind_opt_int apartment_id with
  | Some e => inl e
  | None =>
      if fk_ok apartment_id db then
        let id := tenants_seq db + 1 in
        inr (mkDB (users db) (users_seq db) (apartments db) (apartments_seq db)
                  (tenants db ++
                     [mkTenant id fullName phone email apartment_id lease_start])
                  id)
      else inl IntegrityError
  end.

(** [UPDATE tenants SET fullName, phone, email, apartment_id, lease_start
    WHERE id = ?]: the parent key is checked for the rows it changes. *)
Definition update_tenant (fullName phone : string) (email : option string)
    (apartment_id : option Z) (lease_start : string) (id : Z) (db : DB)
  : exn + DB :=
  match bind_opt_int apartment_id, bind_int id with
  | Some e, _ | None, Some e => inl e
  | None, None =>
      if negb (existsb (fun t => t_id t =? id) (tenants db)) || fk_ok apartment_id db
      then
        inr (mkDB (users db) (users_seq db) (apartments db) (apartments_seq db)
                  (map (fun t =>
                          if t_id t =? id
                          then mkTenant (t_id t) fullName phone email apartment_id
                                        lease_start
                          else t) (tenants db))
                  (tenants_seq db))
      else inl IntegrityError
  end.

(** [DELETE FROM tenants WHERE id = ?] *)
Definition delete_tenant (id : Z) (db : DB) : exn + DB :=
  match bind_int id with
  | Some e => inl e
  | None =>
      inr (mkDB (users db) (users_seq db) (apartments db) (apartments_seq db)
                (filter (fun t => negb (t_id t =? id)) (tenants db))
                (tenants_seq db))
  end.

End Sql.

(* ================================================================== *)
(** * Requests, responses and the handler monad *)

Inductive http_method : Type := GET | POST.

(** [request.form]: the submitted fields, first value of a key wins. *)
Definition Form : Type := list (string * string).

Record Request : Type := mkRequest {
  method : http_method;
  form : Form;
  entropy : string       (* the random salt drawn by [generate_password_hash] *)
}.

(** The Flask session: the three keys [login] sets. *)
Record Session : Type := mkSession {
  logged_in : option bool;
  user_id : option Z;
  user_name : option string
}.

Definition empty_session : Session := mkSession None None None.

(** A flashed message: constant text (with the interpolated names already
    in it), or a prefix followed by the text of an exception. *)
Inductive message : Type :=
| Text (s : string)
| TextExn (prefix : string) (e : exn).

Definition flash_entry : Type := (message * string)%type.

(** [url_for] targets. *)
Inductive endpoint : Type :=
| ep_home
| ep_dashboard
| ep_manage_apartments
| ep_edit_apartment (id : Z)
| ep_manage_tenants
| ep_edit_tenant (id : Z).

(** What a handler returns: a redirect, or a template with its context. *)
Inductive response : Type :=
| Redirect (target : endpoint)
| IndexPage (apartments : list Apartment)
| DashboardPage (user_name : string)
    (total_apartments available_apartments total_tenants : Z)
| AddApartmentPage (form_data : option Form)
| ManageApartmentsPage (apartments : list (Apartment * Z))
| EditApartmentPage (apartment : Apartment * option (string * Z))
| AddTenantPage (available_apartments : list (Z * string)) (form_data : option Form)
| ManageTenantsPage (tenants : list (Tenant * option string))
| EditTenantPage (tenant : Tenant) (available_apartments : list (Z * string)).

(** The connection a handler holds.  An open connection sees its own
    uncommitted writes; closing it drops them. *)
Inductive connection : Type :=
| NoConn
| Open (tx : DB)
| Closed.

(** The state a handler runs in. *)
Record world : Type := mkWorld {
  store : DB;                    (* the committed database *)
  conn : connection;
  flashes : list flash_entry;
  session : Session
}.

Definition enter (db : DB) (s : Session) : world := mkWorld db NoConn [] s.

Inductive result (A : Type) : Type :=
| Val (a : A)
| Exc (e : exn).
Arguments Val {A} a.
Arguments Exc {A} e.

(** Computations: a result or an exception, and the state either way. *)
Definition M (A : Type) : Type := world -> result A * world.

Definition ret {A} (a : A) : M A := fun w => (Val a, w).

Definition bind {A B} (m : M A) (k : A -> M B) : M B :=
  fun w =>
    match m w with
    | (Val a, w') => k a w'
    | (Exc e, w') => (Exc e, w')
    end.

Definition raise {A} (e : exn) : M A := fun w => (Exc e, w).

Declare Scope handler_scope.
Delimit Scope handler_scope with handler.
Notation "x <- m ;; k" := (bind m (fun x => k))
  (at level 100, m at next level, right associativity) : handler_scope.
Notation "' p <- m ;; k" := (bind m (fun x => let 'p := x in k))
  (at level 100, p pattern, m at next level, right associativity) : handler_scope.
Notation "m ;; k" := (bind m (fun _ => k))
  (at level 100, right associativity) : handler_scope.
Local Open Scope handler_scope.

(** [try: body except cls as e: handler e] *)
Definition try_except {A} (body : M A) (cls : exn -> bool) (handler : exn -> M A)
  : M A :=
  fun w =>
    match body w with
    | (Exc e, w') => if cls e then handler e w' else (Exc e, w')
    | r => r
    end.

(** [try: body finally: fin] *)
Definition finally {A} (body : M A) (fin : M unit) : M A :=
  fun w =>
    match body w with
    | (r, w') =>
        match fin w' with
        | (Val _, w'') => (r, w'')
        | (Exc e, w'') => (Exc e, w'')
        end
    end.

Definition flash (m : message) (category : string) : M unit :=
  fun w => (Val tt, mkWorld (store w) (conn w) (flashes w ++ [(m, category)]) (session w)).

Definition get_session : M Session := fun w => (Val (session w), w).

Definition set_session (s : Session) : M unit :=
  fun w => (Val tt, mkWorld (store w) (conn w) (flashes w) s).

(** [get_db_connection()]: a fresh connection, foreign keys on. *)
Definition get_db_connection : M unit :=
  fun w => (Val tt, mkWorld (store w) (Open (store w)) (flashes w) (session w)).

(** [conn.execute(SELECT ...)] *)
Definition query {A} (q : DB -> A) : M A :=
  fun w =>
    match conn w with
    | Open tx => (Val (q tx), w)
    | _ => (Exc ProgrammingError, w)
    end.

(** A SELECT with one integer parameter. *)
Definition query_by_id {A} (id : Z) (q : Z -> DB -> A) : M A :=
  fun w =>
    match conn w with
    | Open tx =>
        match Sql.bind_int id with
        | Some e => (Exc e, w)
        | None => (Val (q id tx), w)
        end
    | _ => (Exc ProgrammingError, w)
    end.

(** [conn.execute(INSERT / UPDATE / DELETE ...)]: a failing statement
    changes nothing. *)
Definition execute (stmt : DB -> exn + DB) : M unit :=
  fun w =>
    match conn w with
    | Open tx =>
        match stmt tx with
        | inr tx' => (Val tt, mkWorld (store w) (Open tx') (flashes w) (session w))
        | inl e => (Exc e, w)
        end
    | _ => (Exc ProgrammingError, w)
    end.

(** [conn.commit()] *)
Definition commit : M unit :=
  fun w =>
    match conn w with
    | Open tx => (Val tt, mkWorld tx (Open tx) (flashes w) (session w))
    | _ => (Exc ProgrammingError, w)
    end.

(** [conn.close()]; closing twice is allowed. *)
Definition close : M unit :=
  fun w => (Val tt, mkWorld (store w) Closed (flashes w) (session w)).

(** [request.form.get(k)] and [request.form[k]]. *)
Fixpoint form_get (f : Form) (k : string) : option string :=
  match f with
  | [] => None
  | (k', v) :: f' => if String.eqb k' k then Some v else form_get f' k
  end.

Definition form_item (f : Form) (k : string) : M string :=
  match form_get f k with
  | Some v => ret v
  | None => raise (BadRequestKeyError k)
  end.

(** A conversion that refuses every text it is asked about: an instance of
    the parameters below, for runs on concrete requests. *)
Definition refuse_int (s : string) : option Z := None.
Definition refuse_float (s : string) : option Py.float := None.

(** From here on the development is parametric in what the interpreter
    makes of text that is not ASCII: [int()] and [float()] accept the
    decimal digits and blanks of every script its Unicode tables know, and
    those tables come with the Python version.  [None] stands for the
    [ValueError]. *)
Section Interpreter.

Variable int_non_ascii : string -> option Z.
Variable float_non_ascii : string -> option Py.float.

(** [int(s)] and [float(s)] on any [str]. *)
Definition int_of_str (s : string) : option Z :=
  if Py.ascii_only s then Py.int s else int_non_ascii s.

Definition float_of_str (s : string) : option Py.float :=
  if Py.ascii_only s then Py.float_of s else float_non_ascii s.

(** [int(s)] and [float(s)] with their [ValueError]. *)
Definition py_int (s : string) : M Z :=
  match int_of_str s with
  | Some n => ret n
  | None => raise (ValueError (InvalidInt s))
  end.

Definition py_float (s : string) : M Py.float :=
  match float_of_str s with
  | Some x => ret x
  | None => raise (ValueError (InvalidFloat s))
  end.

(** The string held by a variable already tested truthy. *)
Definition the (o : option string) : string :=
  match o with Some s => s | None => "" end.

(** [@login_required] *)
Definition login_required (f : M response) : M response :=
  s <- get_session ;;
  match logged_in s with
  | Some true => f
  | _ =>
      flash (Text "You must be logged in to view this page.") "error" ;;
      ret (Redirect ep_home)
  end.

(* ================================================================== *)
(** * The handlers *)

(** [init_db()]: the tables exist from the start in the model, so only the
    seeding of an empty [apartments] table is left. *)
Definition init_db : M unit :=
  get_db_connection ;;
  n <- query Sql.count_apartments ;;
  (if n =? 0 then
     execute (Sql.insert_apartment "Goro Deluxe Apt" "Goro" 3 2
                (Py.FReal (Py.RFin 15000))) ;;
     execute (Sql.insert_apartment "Kazanchis Studio" "Kazanchis" 1 1
                (Py.FReal (Py.RFin 8000))) ;;
     execute (Sql.insert_apartment "Bole Road Family Home" "Bole" 4 3
                (Py.FReal (Py.RFin 25000))) ;;
     execute (Sql.insert_tenant "Abebe Kebede" "0911223344"
                (Some "abebek@example.com") (Some 1) "2024-01-01")
   else ret tt) ;;
  commit ;;
  close.

(** [GET /] *)
Definition home : M response :=
  get_db_connection ;;
  apartments <- query Sql.select_available_by_rent ;;
  close ;;
  ret (IndexPage apartments).

(** [GET /logout] *)
Definition logout : M response :=
  set_session empty_session ;;
  flash (Text "You have been logged out successfully.") "success" ;;
  ret (Redirect ep_home).

(** [GET /dashboard] *)
Definition dashboard : M response :=
  login_required (
    get_db_connection ;;
    total_apartments <- query Sql.count_apartments ;;
    occupied_units <- query Sql.count_occupied ;;
    total_tenants <- query Sql.count_tenants ;;
    close ;;
    let available_apartments := total_apartments - occupied_units in
    s <- get_session ;;
    match user_name s with
    | Some name =>
        ret (DashboardPage name total_apartments available_apartments total_tenants)
    | None => raise (KeyError "user_name")
    end).

(** The type and value validation shared by the two apartment forms. *)
Definition apartment_numbers (f : Form) : M (Z * Z * Py.float) :=
  sb <- form_item f "bedrooms" ;;
  bedrooms <- py_int sb ;;
  sa <- form_item f "bathrooms" ;;
  bathrooms <- py_int sa ;;
  sr <- form_item f "rent" ;;
  rent <- py_float sr ;;
  if (bedrooms <=? 0) || (bathrooms <=? 0) || Py.float_le0 rent
  then raise (ValueError (Raised "Bedrooms, Bathrooms, and Rent must be positive numbers."))
  else ret (bedrooms, bathrooms, rent).

(** [GET, POST /add_apartment] *)
Definition add_apartment (rq : Request) : M response :=
  login_required (
    match method rq with
    | POST =>
        let name := form_get (form rq) "name" in
        let location := form_get (form rq) "location" in
        if negb (forallb Py.truthy
                   [name; location; form_get (form rq) "bedrooms";
                    form_get (form rq) "bathrooms"; form_get (form rq) "rent"])
        then
          flash (Text "All fields are required.") "error" ;;
          ret (AddApartmentPage (Some (form rq)))
        else
          checked <- try_except
            (v <- apartment_numbers (form rq) ;; ret (inr v))
            is_ValueError
            (fun e =>
               flash (TextExn "Data error: " e) "error" ;;
               ret (inl (AddApartmentPage (Some (form rq))))) ;;
          match checked with
          | inl page => ret page
          | inr (bedrooms, bathrooms, rent) =>
              get_db_connection ;;
              execute (Sql.insert_apartment (the name) (the location)
                         bedrooms bathrooms rent) ;;
              commit ;;
              close ;;
              flash (Text ("Apartment '" ++ the name ++ "' added successfully!"))
                    "success" ;;
              ret (Redirect ep_manage_apartments)
          end
    | GET => ret (AddApartmentPage None)
    end).

(** [GET /manage_apartments] *)
Definition manage_apartments : M response :=
  login_required (
    get_db_connection ;;
    apartments <- query Sql.select_apartments_with_count ;;
    close ;;
    ret (ManageApartmentsPage apartments)).

(** [GET, POST /edit_apartment/<int:id>] *)
Definition edit_apartment (id : Z) (rq : Request) : M response :=
  login_required (
    get_db_connection ;;
    apartment <- query_by_id id Sql.select_apartment_with_tenant ;;
    match apartment with
    | None =>
        close ;;
        flash (Text "Apartment not found.") "error" ;;
        ret (Redirect ep_manage_apartments)
    | Some row =>
        match method rq with
        | POST =>
            name <- form_item (form rq) "name" ;;
            location <- form_item (form rq) "location" ;;
            checked <- try_except
              (v <- apartment_numbers (form rq) ;; ret (inr v))
              is_ValueError
              (fun e =>
                 flash (TextExn "Data error: " e) "error" ;;
                 close ;;
                 ret (inl (Redirect (ep_edit_apartment id)))) ;;
            match checked with
            | inl page => ret page
            | inr (bedrooms, bathrooms, rent) =>
                execute (Sql.update_apartment name location bedrooms bathrooms rent id) ;;
                commit ;;
                close ;;
                flash (Text ("Apartment '" ++ name ++ "' updated successfully!"))
                      "success" ;;
                ret (Redirect ep_manage_apartments)
            end
        | GET =>
            close ;;
            ret (EditApartmentPage row)
        end
    end).

(** [POST /delete_apartment/<int:id>] *)
Definition delete_apartment (id : Z) : M response :=
  login_required (
    get_db_connection ;;
    apartment <- query_by_id id Sql.select_apartment ;;
    execute (Sql.delete_apartment id) ;;
    commit ;;
    close ;;
    match apartment with
    | Some a =>
        flash (Text ("Apartment '" ++ a_name a ++
                     "' deleted successfully. Any linked tenants are now unassigned."))
              "success"
    | None => flash (Text "Apartment deleted successfully.") "success"
    end ;;
    ret (Redirect ep_manage_apartments)).

(** [GET, POST /add_tenant].  The [try] block either returns (a [Some]) or
    falls through to the final [render_template] (a [None]). *)
Definition add_tenant (rq : Request) : M response :=
  login_required (
    get_db_connection ;;
    available_apartments <- query Sql.select_available_by_name ;;
    match method rq with
    | POST =>
        let fullName := form_get (form rq) "fullName" in
        let phone := form_get (form rq) "phone" in
        let email := form_get (form rq) "email" in
        let apartment_id := form_get (form rq) "apartment_id" in
        let lease_start := form_get (form rq) "lease_start" in
        if negb (forallb Py.truthy [fullName; phone; lease_start]) then
          flash (Text "Tenant's Full Name, Phone, and Lease Start Date are required.")
                "error" ;;
          close ;;
          ret (AddTenantPage available_apartments (Some (form rq)))
        else
          checked <-
            (if Py.truthy apartment_id && negb (String.eqb (the apartment_id) "None")
             then
               try_except
                 (n <- py_int (the apartment_id) ;; ret (inr (Some n)))
                 is_ValueError
                 (fun _ =>
                    flash (Text "Invalid apartment selection. The apartment ID must be a number.")
                          "error" ;;
                    close ;;
                    ret (inl (AddTenantPage available_apartments (Some (form rq)))))
             else ret (inr None)) ;;
          match checked with
          | inl page => ret page
          | inr apt_id_for_db =>
              returned <- finally
                (try_except
                   (execute (Sql.insert_tenant (the fullName) (the phone) email
                               apt_id_for_db (the lease_start)) ;;
                    commit ;;
                    flash (Text ("Tenant '" ++ the fullName ++ "' added successfully!"))
                          "success" ;;
                    close ;;
                    ret (Some (Redirect ep_manage_tenants)))
                   is_Exception
                   (fun e =>
                      flash (TextExn
                               "An unexpected database error occurred while adding the tenant: "
                               e) "error" ;;
                      ret None))
                close ;;
              match returned with
              | Some page => ret page
              | None => ret (AddTenantPage available_apartments None)
              end
          end
    | GET => ret (AddTenantPage available_apartments None)
    end).

(** [GET /manage_tenants] *)
Definition manage_tenants : M response :=
  login_required (
    get_db_connection ;;
    tenants <- query Sql.select_tenants_with_apartment ;;
    close ;;
    ret (ManageTenantsPage tenants)).

(** [GET, POST /edit_tenant/<int:id>] *)
Definition edit_tenant (id : Z) (rq : Request) : M response :=
  login_required (
    get_db_connection ;;
    tenant <- query_by_id id Sql.select_tenant ;;
    match tenant with
    | None =>
        close ;;
        flash (Text "Tenant not found.") "error" ;;
        ret (Redirect ep_manage_tenants)
    | Some tenant =>
        available_apartments <-
          query (Sql.select_available_or_own (t_apartment_id tenant)) ;;
        returned <-
        (match method rq with
         | POST =>
             let fullName := form_get (form rq) "fullName" in
             let phone := form_get (form rq) "phone" in
             let email := form_get (form rq) "email" in
             let apartment_id := form_get (form rq) "apartment_id" in
             let lease_start := form_get (form rq) "lease_start" in
             if negb (forallb Py.truthy [fullName; phone; lease_start]) then
               flash (Text "Tenant's Full Name, Phone, and Lease Start Date are required.")
                     "error" ;;
               close ;;
               ret (Some (Redirect (ep_edit_tenant id)))
             else
               apt_id_for_db <-
                 (if Py.truthy apartment_id && negb (String.eqb (the apartment_id) "None")
                  then n <- py_int (the apartment_id) ;; ret (Some n)
                  else ret None) ;;
               finally
                 (try_except
                    (execute (Sql.update_tenant (the fullName) (the phone) email
                                apt_id_for_db (the lease_start) id) ;;
                     commit ;;
                     flash (Text ("Tenant '" ++ the fullName ++ "' updated successfully!"))
                           "success" ;;
                     close ;;
                     ret (Some (Redirect ep_manage_tenants)))
                    is_Exception
                    (fun e =>
                       flash (TextExn "An error occurred while updating the tenant: " e)
                             "error" ;;
                       ret None))
                 close
         | GET => ret None
         end) ;;
        match returned with
        | Some page => ret page
        | None =>
            close ;;
            ret (EditTenantPage tenant available_apartments)
        end
    end).

(** [POST /delete_tenant/<int:id>] *)
Definition delete_tenant (id : Z) : M response :=
  login_required (
    get_db_connection ;;
    tenant <- query_by_id id Sql.select_tenant ;;
    match tenant with
    | Some t =>
        finally
          (try_except
             (execute (Sql.delete_tenant id) ;;
              commit ;;
              flash (Text ("Tenant '" ++ t_fullName t ++ "' deleted successfully."))
                    "success")
             is_Exception
             (fun e => flash (TextExn "Error deleting tenant: " e) "error"))
          close
    | None => flash (Text "Tenant not found.") "error"
    end ;;
    ret (Redirect ep_manage_tenants)).

(** Authentication.  werkzeug's two password functions are taken as they
    come: [generate_password_hash] from the salt it draws and the password,
    [check_password_hash] from a stored hash and a candidate password. *)
Section Authentication.

Variable generate_password_hash : string -> string -> string.
Variable check_password_hash : string -> string -> bool.

(** [POST /register] *)
Definition register (rq : Request) : M response :=
  fullName <- form_item (form rq) "fullName" ;;
  email <- form_item (form rq) "email" ;;
  phone <- form_item (form rq) "phone" ;;
  password <- form_item (form rq) "password" ;;
  if negb (forallb Py.truthy [Some fullName; Some email; Some phone; Some password])
  then
    flash (Text "All fields are required for registration.") "error" ;;
    ret (Redirect ep_home)
  else
    let hashed_password := generate_password_hash (entropy rq) password in
    get_db_connection ;;
    finally
      (try_except
         (execute (Sql.insert_user fullName email phone hashed_password) ;;
          commit ;;
          flash (Text "Registration successful! Please log in.") "success")
         is_IntegrityError
         (fun _ => flash (Text "Registration failed. That email is already in use.")
                         "error"))
      close ;;
    ret (Redirect ep_home).

(** [POST /login] *)
Definition login (rq : Request) : M response :=
  let email := form_get (form rq) "loginEmail" in
  let password := form_get (form rq) "loginPassword" in
  if negb (Py.truthy email) || negb (Py.truthy password) then
    flash (Text "Please provide both email and password.") "error" ;;
    ret (Redirect ep_home)
  else
    get_db_connection ;;
    user <- query (Sql.select_user_by_email (the email)) ;;
    close ;;
    match user with
    | Some u =>
        if check_password_hash (u_password u) (the password) then
          set_session (mkSession (Some true) (Some (u_id u)) (Some (u_fullName u))) ;;
          flash (Text ("Welcome back, " ++ u_fullName u ++ "!")) "success" ;;
          ret (Redirect ep_dashboard)
        else
          flash (Text "Invalid email or password") "error" ;;
          ret (Redirect ep_home)
    | None =>
        flash (Text "Invalid email or password") "error" ;;
        ret (Redirect ep_home)
    end.

(** The routes of the application. *)
Inductive route : Type :=
| r_home
| r_register
| r_login
| r_logout
| r_dashboard
| r_add_apartment
| r_manage_apartments
| r_edit_apartment (id : Z)
| r_delete_apartment (id : Z)
| r_add_tenant
| r_manage_tenants
| r_edit_tenant (id : Z)
| r_delete_tenant (id : Z).

Definition dispatch (r : route) (rq : Request) : M response :=
  match r with
  | r_home => home
  | r_register => register rq
  | r_login => login rq
  | r_logout => logout
  | r_dashboard => dashboard
  | r_add_apartment => add_apartment rq
  | r_manage_apartments => manage_apartments
  | r_edit_apartment id => edit_apartment id rq
  | r_delete_apartment id => delete_apartment id
  | r_add_tenant => add_tenant rq
  | r_manage_tenants => manage_tenants
  | r_edit_tenant id => edit_tenant id rq
  | r_delete_tenant id => delete_tenant id
  end.

(** The database a request leaves behind, whatever session it came with. *)
Definition serve (r : route) (rq : Request) (s : Session) (db : DB) : DB :=
  store (snd (dispatch r rq (enter db s))).

(** The databases the application can be in: the process starts with
    [init_db] (on a new file at first, on the current one at a restart) and
    then serves requests. *)
Inductive reachable : DB -> Prop :=
| reach_start : reachable (store (snd (init_db (enter empty_db empty_session))))
| reach_restart db :
    reachable db -> reachable (store (snd (init_db (enter db empty_session))))
| reach_serve db r rq s :
    reachable db -> reachable (serve r rq s db).

End Authentication.

(** The seeded database of a first start, and a logged-in session. *)
Definition seeded : DB := store (snd (init_db (enter empty_db empty_session))).

Definition manager : Session := mkSession (Some true) (Some 1) (Some "Marta").

(** A toy pair of password functions for sample runs. *)
Definition toy_hash (salt password : string) : string := salt ++ "$" ++ password.
Definition toy_check (hash password : string) : bool :=
  match index 0 "$" hash with
  | Some n => String.eqb (substring (S n) (String.length hash - S n) hash) password
  | None => false
  end.

Definition marta_form : Form :=
  [("fullName", "Marta T"); ("email", "marta@example.com");
   ("phone", "0911000000"); ("password", "s3cret")].

Definition with_marta : DB :=
  store (snd (register toy_hash (mkRequest POST marta_form "salt")
                (enter seeded empty_session))).

(** A literal of [n] digits. *)
Definition nines (n : nat) : string := string_of_list_ascii (repeat "9"%char n).

Definition abel_form : Form :=
  [("fullName", "Abel K"); ("email", "abel@example.com");
   ("phone", "0922000000"); ("password", "pa55word")].

(** The seeded database after two registrations through the dispatcher. *)
Definition two_users : DB :=
  serve toy_hash toy_check r_register (mkRequest POST abel_form "pepper")
    empty_session
    (serve toy_hash toy_check r_register (mkRequest POST marta_form "salt")
       empty_session seeded).

(** Sample requests. *)
Definition zero_bedrooms : Request :=
  mkRequest POST
    [("name", "Goro Deluxe Apt"); ("location", "Goro"); ("bedrooms", "0");
     ("bathrooms", "2"); ("rent", "15000")] "".

Definition huge_bedrooms : Request :=
  mkRequest POST
    [("name", "Goro Deluxe Apt"); ("location", "Goro");
     ("bedrooms", "9223372036854775808"); ("bathrooms", "2"); ("rent", "15000")] "".

Definition bad_apartment_id : Request :=
  mkRequest POST
    [("fullName", "Abebe Kebede"); ("phone", "0911223344");
     ("lease_start", "2024-01-01"); ("apartment_id", "abc")] "".

(* ================================================================== *)
(** * Notions the properties are stated with *)

(** Availability, in the specification's words: no tenant row carries the
    apartment's id. *)
Definition available (db : DB) (a : Apartment) : Prop :=
  forall t, In t (tenants db) -> t_apartment_id t <> Some (a_id a).

(** The stored rent [x] is at least the stored rent [y], as numbers: a
    finite rent against a finite rent by the order of the rationals, plus
    infinity above and minus infinity below every finite rent, and a NULL
    rent below everything, which is where a descending listing puts it. *)
Definition rent_at_least (x y : option Py.real) : Prop :=
  match x, y with
  | _, None => True
  | None, Some _ => False
  | Some (Py.RFin p), Some (Py.RFin q) => (q <= p)%Q
  | Some (Py.RInf false), Some _ => True
  | Some _, Some (Py.RInf true) => True
  | Some (Py.RFin _), Some (Py.RInf false) => False
  | Some (Py.RInf true), Some (Py.RFin _) => False
  | Some (Py.RInf true), Some (Py.RInf false) => False
  end.

(** [x] comes no later than [y] in a listing by rent, highest first. *)
Definition rent_ge (x y : Apartment) : Prop :=
  rent_at_least (a_rent x) (a_rent y).

(** The apartment ids some tenant row refers to. *)
Definition referenced (db : DB) (id : Z) : Prop :=
  exists t, In t (tenants db) /\ t_apartment_id t = Some id.

(** Referential integrity of [tenants.apartment_id]. *)
Definition fk_valid (db : DB) : Prop :=
  forall t id, In t (tenants db) -> t_apartment_id t = Some id ->
    exists a, In a (apartments db) /\ a_id a = id.

(** A statement keeps the foreign key valid. *)
Definition keeps_fk (stmt : DB -> exn + DB) : Prop :=
  forall db db', fk_valid db -> stmt db = inr db' -> fk_valid db'.

(** Integrity of the committed database and of an open connection's view. *)
Definition world_ok (w : world) : Prop :=
  fk_valid (store w) /\
  match conn w with Open tx => fk_valid tx | _ => True end.

Definition preserves {A} (m : M A) : Prop :=
  forall w, world_ok w -> world_ok (snd (m w)).

(** The [form_data] a rendered page hands back to the template, if any. *)
Definition form_data_of (r : response) : option Form :=
  match r with
  | AddApartmentPage fd => fd
  | AddTenantPage _ fd => fd
  | _ => None
  end.

(** A float that is zero or negative, as a number.  NaN is neither this
    nor positive. *)
Definition zero_or_negative (x : Py.float) : Prop :=
  match x with
  | Py.FReal (Py.RFin q) => (q <= 0)%Q
  | Py.FReal (Py.RInf neg) => neg = true
  | Py.FNan => False
  end.

(** A field that fails the numeric rules of the apartment forms: the text
    is no number, or the number is zero or negative. *)
Definition int_refused (s : string) : Prop :=
  match int_of_str s with Some n => n <= 0 | None => True end.

Definition float_refused (s : string) : Prop :=
  match float_of_str s with Some x => zero_or_negative x | None => True end.

(** A tenant row with its apartment reference cleared. *)
Definition unassigned (t : Tenant) : Tenant :=
  mkTenant (t_id t) (t_fullName t) (t_phone t) (t_email t) None (t_lease_start t).

(* ================================================================== *)
(** * The writes of the application, and the shape of well-kept tables *)

(** The value rule of the two apartment forms, on the parsed numbers. *)
Definition numbers_ok (bedrooms bathrooms : Z) (rent : Py.float) : Prop :=
  0 < bedrooms /\ 0 < bathrooms /\ Py.float_le0 rent = false.

(** One committed write of a handler: the statement it ran and what its
    validation had established about the values. *)
Inductive mutation : DB -> DB -> Prop :=
| mut_register fullName email phone hash db db' :
    fullName <> "" -> email <> "" -> phone <> "" ->
    Sql.insert_user fullName email phone hash db = inr db' ->
    mutation db db'
| mut_add_apartment name location bedrooms bathrooms rent db db' :
    numbers_ok bedrooms bathrooms rent ->
    Sql.insert_apartment name location bedrooms bathrooms rent db = inr db' ->
    mutation db db'
| mut_edit_apartment name location bedrooms bathrooms rent id db db' :
    numbers_ok bedrooms bathrooms rent ->
    Sql.update_apartment name location bedrooms bathrooms rent id db = inr db' ->
    mutation db db'
| mut_delete_apartment id db db' :
    Sql.delete_apartment id db = inr db' ->
    mutation db db'
| mut_add_tenant fullName phone email apartment_id lease_start db db' :
    fullName <> "" -> phone <> "" -> lease_start <> "" ->
    Sql.insert_tenant fullName phone email apartment_id lease_start db = inr db' ->
    mutation db db'
| mut_edit_tenant fullName phone email apartment_id lease_start id db db' :
    fullName <> "" -> phone <> "" -> lease_start <> "" ->
    Sql.update_tenant fullName phone email apartment_id lease_start id db = inr db' ->
    mutation db db'
| mut_delete_tenant id db db' :
    Sql.delete_tenant id db = inr db' ->
    mutation db db'.

(** The write a given route can commit. *)
Inductive commits : route -> DB -> DB -> Prop :=
| com_register fullName email phone hash db db' :
    fullName <> "" -> email <> "" -> phone <> "" ->
    Sql.insert_user fullName email phone hash db = inr db' ->
    commits r_register db db'
| com_add_apartment name location bedrooms bathrooms rent db db' :
    numbers_ok bedrooms bathrooms rent ->
    Sql.insert_apartment name location bedrooms bathrooms rent db = inr db' ->
    commits r_add_apartment db db'
| com_edit_apartment name location bedrooms bathrooms rent id db db' :
    numbers_ok bedrooms bathrooms rent ->
    Sql.update_apartment name location bedrooms bathrooms rent id db = inr db' ->
    commits (r_edit_apartment id) db db'
| com_delete_apartment id db db' :
    Sql.delete_apartment id db = inr db' ->
    commits (r_delete_apartment id) db db'
| com_add_tenant fullName phone email apartment_id lease_start db db' :
    fullName <> "" -> phone <> "" -> lease_start <> "" ->
    Sql.insert_tenant fullName phone email apartment_id lease_start db = inr db' ->
    commits r_add_tenant db db'
| com_edit_tenant fullName phone email apartment_id lease_start id db db' :
    fullName <> "" -> phone <> "" -> lease_start <> "" ->
    Sql.update_tenant fullName phone email apartment_id lease_start id db = inr db' ->
    commits (r_edit_tenant id) db db'
| com_delete_tenant id db db' :
    Sql.delete_tenant id db = inr db' ->
    commits (r_delete_tenant id) db db'.

(** A request either leaves the database as it was or commits one write. *)
Definition writes (db db' : DB) : Prop := db' = db \/ mutation db db'.

(** The tables a route can change. *)
Definition writes_users (r : route) : bool :=
  match r with r_register => true | _ => false end.

Definition writes_apartments (r : route) : bool :=
  match r with
  | r_add_apartment | r_edit_apartment _ | r_delete_apartment _ => true
  | _ => false
  end.

Definition writes_tenants (r : route) : bool :=
  match r with
  | r_add_tenant | r_edit_tenant _ | r_delete_tenant _ | r_delete_apartment _ => true
  | _ => false
  end.

(** Primary keys: ids are distinct and none exceeds the table's sequence. *)
Definition keys_ok {A} (key : A -> Z) (rows : list A) (seq : Z) : Prop :=
  NoDup (map key rows) /\ forall r, In r rows -> key r <= seq.

Definition primary_keys (db : DB) : Prop :=
  keys_ok u_id (users db) (users_seq db) /\
  keys_ok a_id (apartments db) (apartments_seq db) /\
  keys_ok t_id (tenants db) (tenants_seq db).

(** The UNIQUE constraint on [users.email]. *)
Definition emails_unique (db : DB) : Prop := NoDup (map u_email (users db)).

(** The value rule on a stored apartment: a NULL rent is what a NaN left. *)
Definition apartment_positive (a : Apartment) : Prop :=
  0 < a_bedrooms a /\ 0 < a_bathrooms a /\
  match a_rent a with
  | Some r => Py.float_le0 (Py.FReal r) = false
  | None => True
  end.

(** The required fields of a stored tenant and of a stored user. *)
Definition tenant_filled (t : Tenant) : Prop :=
  t_fullName t <> "" /\ t_phone t <> "" /\ t_lease_start t <> "".

Definition user_filled (u : User) : Prop :=
  u_fullName u <> "" /\ u_email u <> "" /\ u_phone u <> "".

Definition required_filled (db : DB) : Prop :=
  Forall user_filled (users db) /\ Forall tenant_filled (tenants db).

(** The routes behind [@login_required]. *)
Definition protected (r : route) : bool :=
  match r with
  | r_home | r_register | r_login | r_logout => false
  | _ => true
  end.

(** The routes that read only, whatever the method. *)
Definition read_only (r : route) : bool :=
  match r with
  | r_home | r_login | r_logout | r_dashboard | r_manage_apartments
  | r_manage_tenants => true
  | _ => false
  end.

(** The routes with a form, which a GET only displays. *)
Definition form_route (r : route) : bool :=
  match r with
  | r_add_apartment | r_edit_apartment _ | r_add_tenant | r_edit_tenant _ => true
  | _ => false
  end.

(** The database after an accepted [add_apartment]. *)
Definition with_apartment (db : DB) (a : Apartment) : DB :=
  mkDB (users db) (users_seq db) (apartments db ++ [a]) (a_id a)
       (tenants db) (tenants_seq db).

(** The submitted [apartment_id] values that mean "no apartment": the
    field left out, left empty, or the sentinel of the dropdown. *)
Definition no_apartment (o : option string) : Prop :=
  o = None \/ o = Some "" \/ o = Some "None".

(** The test behind "occupied": some tenant row refers to the apartment. *)
Definition occupied_b (db : DB) (a : Apartment) : bool :=
  existsb (fun t => Sql.id_is (t_apartment_id t) (a_id a)) (tenants db).

(** The seeded database after a manager deleted the three apartments. *)
Definition emptied : DB :=
  serve toy_hash toy_check (r_delete_apartment 3) zero_bedrooms manager
    (serve toy_hash toy_check (r_delete_apartment 2) zero_bedrooms manager
       (serve toy_hash toy_check (r_delete_apartment 1) zero_bedrooms manager seeded)).

(** A computation that leaves the session alone. *)
Definition keeps_session {A} (m : M A) : Prop :=
  forall w, session (snd (m w)) = session w.

(** The number of tenant rows that refer to an apartment id. *)
Definition tenant_count (db : DB) (id : Z) : Z :=
  Z.of_nat (length (filter (fun t => Sql.id_is (t_apartment_id t) id) (tenants db))).

(* ================================================================== *)
(** ** Sample runs *)

Example int_plain : Py.int " 12 " = Some 12. Proof. reflexivity. Qed.
Example int_signed : Py.int "-1_000" = Some (-1000). Proof. reflexivity. Qed.
Example int_bad : Py.int "1__0" = None /\ Py.int "abc" = None /\ Py.int "" = None
  /\ Py.int "1.5" = None /\ Py.int "_1" = None /\ Py.int "1_" = None.
Proof. repeat split; reflexivity. Qed.
Example int_blanks :
  Py.int (String (ascii_of_nat 11) "3") = Some 3 /\
  Py.int (String (ascii_of_nat 28) "3") = None /\
  Py.float_of (String "1" (String (ascii_of_nat 31) "")) = None.
Proof. vm_compute. repeat split; reflexivity. Qed.
Example int_digit_limit :
  Py.int (nines 4300) <> None /\ Py.int (nines 4301) = None.
Proof. vm_compute. split; [discriminate | reflexivity]. Qed.
Example float_plain : Py.float_of "8000" = Some (Py.FReal (Py.RFin 8000)).
Proof. vm_compute. reflexivity. Qed.
Example float_half : Py.float_of " 2.5e-1" = Some (Py.FReal (Py.RFin (1 # 4))).
Proof. vm_compute. reflexivity. Qed.
Example float_tenth :
  Py.float_of "0.1" = Some (Py.FReal (Py.RFin (3602879701896397 # 36028797018963968))).
Proof. vm_compute. reflexivity. Qed.
Example float_forms :
  Py.float_of "1." = Some (Py.FReal (Py.RFin 1)) /\
  Py.float_of ".5" = Some (Py.FReal (Py.RFin (1 # 2))) /\
  Py.float_of "-Infinity" = Some (Py.FReal (Py.RInf true)) /\
  Py.float_of "NaN" = Some Py.FNan /\
  Py.float_of "." = None /\ Py.float_of "1e" = None /\ Py.float_of "0x10" = None.
Proof. vm_compute. repeat split; reflexivity. Qed.
Example float_underflow : Py.float_of "1e-400" = Some (Py.FReal (Py.RFin 0)).
Proof. vm_compute. reflexivity. Qed.
Example float_overflow : Py.float_of "1e400" = Some (Py.FReal (Py.RInf false)).
Proof. vm_compute. reflexivity. Qed.


Example seeded_home :
  fst (home (enter seeded empty_session)) =
  Val (IndexPage
         [mkApartment 3 "Bole Road Family Home" 4 3 "Bole" (Some (Py.RFin 25000));
          mkApartment 2 "Kazanchis Studio" 1 1 "Kazanchis" (Some (Py.RFin 8000))]).
Proof. reflexivity. Qed.

Example seeded_dashboard :
  fst (dashboard (enter seeded manager)) = Val (DashboardPage "Marta" 3 2 1).
Proof. reflexivity. Qed.

Example dashboard_needs_login :
  dashboard (enter seeded empty_session) =
  (Val (Redirect ep_home),
   mkWorld seeded NoConn [(Text "You must be logged in to view this page.", "error")]
           empty_session).
Proof. reflexivity. Qed.

(* ================================================================== *)
(** * Listings: joins and ORDER BY *)

Section OrderBy.

Context {A : Type} (le : A -> A -> bool).

Lemma in_insert_by (x y : A) (l : list A) :
  In y (Sql.insert_by le x l) <-> y = x \/ In y l.
Proof.
  induction l as [|z l IH]; simpl.
  - intuition congruence.
  - destruct (le x z); simpl; rewrite ?IH; intuition congruence.
Qed.

Lemma in_order_by (y : A) (l : list A) : In y (Sql.order_by le l) <-> In y l.
Proof.
  induction l as [|x l IH]; simpl; [tauto|].
  rewrite in_insert_by, IH. intuition congruence.
Qed.

Hypothesis le_total : forall x y, le x y = true \/ le y x = true.
Hypothesis le_trans : forall x y z, le x y = true -> le y z = true -> le x z = true.

Lemma insert_by_sorted (x : A) (l : list A) :
  StronglySorted (fun a b => le a b = true) l ->
  StronglySorted (fun a b => le a b = true) (Sql.insert_by le x l).
Proof.
  induction 1 as [|z l Hs IH Hz]; simpl.
  - repeat constructor.
  - destruct (le x z) eqn:E.
    + constructor; [now constructor|].
      constructor; [exact E|].
      rewrite Forall_forall in *. eauto.
    + constructor; [exact IH|].
      rewrite Forall_forall in *. intros y Hy.
      apply in_insert_by in Hy. destruct Hy as [->|Hy]; [|auto].
      destruct (le_total x z); congruence.
Qed.

Lemma order_by_sorted (l : list A) :
  StronglySorted (fun a b => le a b = true) (Sql.order_by le l).
Proof.
  induction l; simpl; [constructor | now apply insert_by_sorted].
Qed.

End OrderBy.

Lemma StronglySorted_map {A B} (f : A -> B) (R : B -> B -> Prop) (l : list A) :
  StronglySorted (fun x y => R (f x) (f y)) l -> StronglySorted R (map f l).
Proof.
  induction 1 as [|x l Hs IH Hx]; simpl; constructor; auto.
  rewrite Forall_forall in *. intros y Hy.
  apply in_map_iff in Hy. destruct Hy as (z & <- & Hz). auto.
Qed.

Lemma real_leb_total (x y : option Py.real) :
  Sql.real_leb x y = true \/ Sql.real_leb y x = true.
Proof.
  destruct x as [[[]|p]|], y as [[[]|q]|]; simpl; auto.
  rewrite !Qle_bool_iff. destruct (Qlt_le_dec p q); auto using Qlt_le_weak.
Qed.

Lemma real_leb_trans (x y z : option Py.real) :
  Sql.real_leb x y = true -> Sql.real_leb y z = true -> Sql.real_leb x z = true.
Proof.
  destruct x as [[[]|p]|], y as [[[]|q]|], z as [[[]|r]|]; simpl;
    try congruence; auto.
  rewrite !Qle_bool_iff. apply Qle_trans.
Qed.

Lemma in_left_join {A B} (on : A -> B -> bool) (la : list A) (lb : list B)
    (a : A) (ob : option B) :
  In (a, ob) (Sql.left_join on la lb) <->
  In a la /\
  match ob with
  | Some b => In b lb /\ on a b = true
  | None => forall b, In b lb -> on a b = false
  end.
Proof.
  unfold Sql.left_join. rewrite in_flat_map. split.
  - intros (x & Hx & Hin).
    destruct (filter (on x) lb) as [|b0 m] eqn:E.
    + destruct Hin as [[= <- <-]|[]]. split; [assumption|].
      intros b Hb. destruct (on x b) eqn:Eb; [|reflexivity].
      assert (In b (filter (on x) lb)) by (apply filter_In; auto).
      rewrite E in *. contradiction.
    + apply in_map_iff in Hin. destruct Hin as (b & [= <- <-] & Hb).
      split; [assumption|]. rewrite <- E in Hb. now apply filter_In in Hb.
  - intros [Ha Hob]. exists a. split; [assumption|].
    destruct ob as [b|].
    + assert (Hb : In b (filter (on a) lb)) by now apply filter_In.
      destruct (filter (on a) lb); [contradiction|].
      apply in_map_iff. eauto.
    + destruct (filter (on a) lb) as [|b0 m] eqn:E; [now left|].
      assert (Hb : In b0 (filter (on a) lb)) by (rewrite E; now left).
      apply filter_In in Hb. destruct Hb as [Hb Hon].
      rewrite (Hob _ Hb) in Hon. discriminate.
Qed.

Lemma id_is_true (o : option Z) (id : Z) : Sql.id_is o id = true <-> o = Some id.
Proof.
  destruct o as [x|]; simpl; [|split; discriminate].
  rewrite Z.eqb_eq. split; congruence.
Qed.

Lemma id_is_false (o : option Z) (id : Z) : Sql.id_is o id = false <-> o <> Some id.
Proof.
  rewrite <- id_is_true. destruct (Sql.id_is o id); split; congruence.
Qed.

(** The rows the "available" predicate of the listings keeps. *)
Lemma in_available_rows (db : DB) (a : Apartment) :
  (exists ot, In (a, ot)
     (filter (fun r => Sql.is_null (Sql.joined_apartment_id r))
        (Sql.apartments_join_tenants db))) <->
  In a (apartments db) /\ available db a.
Proof.
  unfold Sql.apartments_join_tenants, available. split.
  - intros (ot & H). apply filter_In in H. destruct H as [H Hnull].
    apply in_left_join in H. destruct H as [Ha H]. split; [assumption|].
    destruct ot as [t|].
    + destruct H as [_ Hon]. apply id_is_true in Hon.
      unfold Sql.joined_apartment_id in Hnull. simpl in Hnull.
      rewrite Hon in Hnull. discriminate.
    + intros t Ht. apply id_is_false. auto.
  - intros [Ha Hav]. exists None. apply filter_In. split; [|reflexivity].
    apply in_left_join. split; [assumption|].
    intros t Ht. apply id_is_false. auto.
Qed.

Lemma in_select_available_by_rent (db : DB) (a : Apartment) :
  In a (Sql.select_available_by_rent db) <-> In a (apartments db) /\ available db a.
Proof.
  unfold Sql.select_available_by_rent.
  rewrite <- in_available_rows, in_map_iff. split.
  - intros ([a' ot] & <- & H). apply in_order_by in H. eauto.
  - intros (ot & H). exists (a, ot). split; [reflexivity|].
    now apply in_order_by.
Qed.

(** The comparison the sort runs with decides the order of the rents. *)
Lemma real_leb_rent_at_least (x y : option Py.real) :
  Sql.real_leb y x = true <-> rent_at_least x y.
Proof.
  destruct x as [[[]|p]|], y as [[[]|q]|]; simpl;
    try (split; [intros _; exact I | reflexivity]);
    try (split; [discriminate | contradiction]).
  apply Qle_bool_iff.
Qed.

Lemma StronglySorted_weaken {A} (R S : A -> A -> Prop) (l : list A) :
  (forall x y, R x y -> S x y) -> StronglySorted R l -> StronglySorted S l.
Proof.
  intros HRS. induction 1 as [|x l Hs IH Hx]; constructor; [assumption|].
  rewrite Forall_forall in *. auto.
Qed.

Lemma select_available_by_rent_sorted (db : DB) :
  StronglySorted rent_ge (Sql.select_available_by_rent db).
Proof.
  unfold Sql.select_available_by_rent.
  apply StronglySorted_map with (R := rent_ge).
  apply StronglySorted_weaken
    with (R := fun r s => Sql.rent_desc (fst r) (fst s) = true).
  - intros x y H. apply real_leb_rent_at_least. exact H.
  - apply (order_by_sorted (fun r s => Sql.rent_desc (fst r) (fst s))).
    + intros x y. apply real_leb_total.
    + intros x y z H1 H2. unfold Sql.rent_desc in *. eapply real_leb_trans; eauto.
Qed.

(** C1.  The public home listing shows exactly the apartments of the table
    that no tenant row refers to, and shows them by rent, highest first (a
    NULL rent last). *)
Theorem home_lists_available_by_rent (db : DB) (s : Session) :
  exists listing,
    home (enter db s) = (Val (IndexPage listing), mkWorld db Closed [] s) /\
    (forall a, In a listing <-> In a (apartments db) /\ available db a) /\
    StronglySorted rent_ge listing.
Proof.
  exists (Sql.select_available_by_rent db). split; [reflexivity|]. split.
  - apply in_select_available_by_rent.
  - apply select_available_by_rent_sorted.
Qed.

(* ================================================================== *)
(** * Dashboard aggregates *)

Lemma in_assigned_ids (l : list Tenant) (id : Z) :
  In id (Sql.assigned_ids l) <-> exists t, In t l /\ t_apartment_id t = Some id.
Proof.
  induction l as [|t l IH]; simpl.
  - split; [contradiction | intros (t & [] & _)].
  - destruct (t_apartment_id t) as [x|] eqn:E; simpl; rewrite IH; split.
    + intros [->|(t' & Ht' & H)]; eauto.
    + intros (t' & [<-|Ht'] & H); [left; congruence | eauto].
    + intros (t' & Ht' & H); eauto.
    + intros (t' & [<-|Ht'] & H); [congruence | eauto].
Qed.

(** What the dashboard computes for a logged-in manager. *)
Lemma dashboard_run (db : DB) (s : Session) (name : string) :
  logged_in s = Some true -> user_name s = Some name ->
  dashboard (enter db s) =
  (Val (DashboardPage name (Sql.count_apartments db)
          (Sql.count_apartments db - Sql.count_occupied db) (Sql.count_tenants db)),
   mkWorld db Closed [] s).
Proof.
  intros Hin Hname. unfold dashboard, login_required, bind, get_session, enter.
  simpl. rewrite Hin. simpl. rewrite Hname. reflexivity.
Qed.

(** C2.  For a logged-in manager the dashboard reports, on any database
    (so on every reachable one): the number of apartment rows as the total,
    the number of tenant rows (assigned or not) as the tenant count, and as
    available count a number that adds up to the total with the number of
    distinct non-NULL [apartment_id] values of the tenant rows. *)
Theorem dashboard_counts_add_up (db : DB) (s : Session) (name : string) :
  logged_in s = Some true -> user_name s = Some name ->
  exists total_apartments available_apartments total_tenants occupied,
    fst (dashboard (enter db s)) =
      Val (DashboardPage name total_apartments available_apartments total_tenants) /\
    NoDup occupied /\
    (forall id, In id occupied <-> referenced db id) /\
    Z.of_nat (length occupied) + available_apartments = total_apartments /\
    total_apartments = Z.of_nat (length (apartments db)) /\
    total_tenants = Z.of_nat (length (tenants db)).
Proof.
  intros Hin Hname.
  exists (Sql.count_apartments db), (Sql.count_apartments db - Sql.count_occupied db),
    (Sql.count_tenants db), (nodup Z.eq_dec (Sql.assigned_ids (tenants db))).
  rewrite (dashboard_run db s name Hin Hname). simpl.
  split; [reflexivity|]. split; [apply NoDup_nodup|]. split.
  - intros id. rewrite nodup_In. apply in_assigned_ids.
  - unfold Sql.count_occupied, Sql.count_apartments, Sql.count_tenants.
    repeat split. lia.
Qed.

(* ================================================================== *)
(** * Deleting apartments and tenants *)

Lemma existsb_apartment (db : DB) (id : Z) :
  existsb (fun a => a_id a =? id) (apartments db) = true <->
  exists a, In a (apartments db) /\ a_id a = id.
Proof.
  rewrite existsb_exists. split; intros (a & Ha & H); exists a;
    (split; [assumption|]); now apply Z.eqb_eq.
Qed.

Lemma filter_none {A} (p : A -> bool) (l : list A) :
  (forall x, In x l -> p x = true) -> filter p l = l.
Proof.
  induction l as [|x l IH]; simpl; intros H; [reflexivity|].
  rewrite (H x) by now left. f_equal. apply IH. intros. apply H. now right.
Qed.

Lemma find_none_id {A} (key : A -> Z) (l : list A) (id : Z) :
  (forall x, In x l -> key x <> id) -> find (fun x => key x =? id) l = None.
Proof.
  induction l as [|x l IH]; simpl; intros H; [reflexivity|].
  destruct (key x =? id) eqn:E.
  - apply Z.eqb_eq in E. exfalso. apply (H x); auto.
  - apply IH. intros. apply H. now right.
Qed.

(** What [delete_apartment] does for a logged-in manager: the statement
    runs and is committed whether or not a row has that id. *)
Lemma delete_apartment_run (db : DB) (s : Session) (id : Z) :
  logged_in s = Some true -> Sql.fits_int64 id = true ->
  exists db' msg,
    Sql.delete_apartment id db = inr db' /\
    delete_apartment id (enter db s) =
      (Val (Redirect ep_manage_apartments),
       mkWorld db' Closed [(Text msg, "success")] s) /\
    (Sql.select_apartment id db = None -> msg = "Apartment deleted successfully.").
Proof.
  intros Hin Hfit.
  unfold delete_apartment, login_required, bind, get_session, enter,
    query_by_id, execute, get_db_connection, Sql.delete_apartment, Sql.bind_int.
  simpl. rewrite Hin. simpl. rewrite Hfit. simpl.
  destruct (Sql.select_apartment id db) as [a|]; simpl;
    eexists; eexists; (split; [reflexivity|]); (split; [reflexivity|]);
    [discriminate | reflexivity].
Qed.

(** C3.  When a logged-in manager deletes an existing apartment, no tenant
    row is deleted (the tenant ids are the same, in the same order), every
    tenant that referred to the apartment is still there with all its other
    columns and a NULL [apartment_id], and no row refers to the deleted id
    any more. *)
Theorem delete_apartment_unassigns_tenants (db : DB) (s : Session) (a : Apartment) :
  logged_in s = Some true ->
  Sql.fits_int64 (a_id a) = true ->
  In a (apartments db) ->
  let db' := store (snd (delete_apartment (a_id a) (enter db s))) in
  map t_id (tenants db') = map t_id (tenants db) /\
  (forall t, In t (tenants db) -> t_apartment_id t = Some (a_id a) ->
     In (unassigned t) (tenants db')) /\
  (forall t, In t (tenants db') -> t_apartment_id t <> Some (a_id a)) /\
  (forall x, In x (apartments db') -> a_id x <> a_id a).
Proof.
  intros Hin Hfit Ha.
  destruct (delete_apartment_run db s (a_id a) Hin Hfit) as (db' & msg & Hdel & Hrun & _).
  rewrite Hrun. simpl.
  unfold Sql.delete_apartment, Sql.bind_int in Hdel. rewrite Hfit in Hdel.
  injection Hdel as <-. simpl.
  assert (E : existsb (fun x => a_id x =? a_id a) (apartments db) = true)
    by (apply existsb_apartment; eauto).
  rewrite E. repeat split.
  - rewrite map_map. apply map_ext. intros t. unfold Sql.set_null.
    now destruct (Sql.id_is (t_apartment_id t) (a_id a)).
  - intros t Ht Href. apply in_map_iff. exists t. split; [|assumption].
    unfold Sql.set_null. apply id_is_true in Href. now rewrite Href.
  - intros t Ht. apply in_map_iff in Ht. destruct Ht as (t0 & <- & _).
    unfold Sql.set_null.
    destruct (Sql.id_is (t_apartment_id t0) (a_id a)) eqn:Eid; simpl.
    + discriminate.
    + now apply id_is_false.
  - intros x Hx. apply filter_In in Hx. destruct Hx as [_ Hx].
    apply negb_true_iff, Z.eqb_neq in Hx. exact Hx.
Qed.

Example delete_apartment_seeded_tenants :
  tenants (store (snd (delete_apartment 1 (enter seeded manager)))) =
  [mkTenant 1 "Abebe Kebede" "0911223344" (Some "abebek@example.com") None "2024-01-01"].
Proof. reflexivity. Qed.

Lemma db_eta (db : DB) :
  mkDB (users db) (users_seq db) (apartments db) (apartments_seq db)
       (tenants db) (tenants_seq db) = db.
Proof. now destruct db. Qed.

(** For a logged-in manager and an id no row has, the id being one SQLite
    can bind: deleting a tenant answers "Tenant not found." as an error and
    deletes nothing, while deleting an apartment answers with the success
    message and the same redirect as a real deletion, the database being
    left as it was. *)
Lemma delete_absent_tenant_vs_apartment (db : DB) (s : Session) (id : Z) :
  logged_in s = Some true ->
  Sql.fits_int64 id = true ->
  ((forall t, In t (tenants db) -> t_id t <> id) ->
   delete_tenant id (enter db s) =
     (Val (Redirect ep_manage_tenants),
      mkWorld db (Open db) [(Text "Tenant not found.", "error")] s)) /\
  ((forall a, In a (apartments db) -> a_id a <> id) ->
   delete_apartment id (enter db s) =
     (Val (Redirect ep_manage_apartments),
      mkWorld db Closed [(Text "Apartment deleted successfully.", "success")] s)).
Proof.
  intros Hin Hfit. split; intros Habs.
  - unfold delete_tenant, login_required, bind, get_session, enter, query_by_id,
      get_db_connection, Sql.bind_int, Sql.select_tenant.
    simpl. rewrite Hin. simpl. rewrite Hfit.
    rewrite (find_none_id t_id _ _ Habs). reflexivity.
  - destruct (delete_apartment_run db s id Hin Hfit) as (db' & msg & Hdel & Hrun & Hmsg).
    rewrite Hrun, Hmsg by (apply (find_none_id a_id); assumption).
    unfold Sql.delete_apartment, Sql.bind_int in Hdel. rewrite Hfit in Hdel.
    injection Hdel as <-.
    replace (existsb (fun a => a_id a =? id) (apartments db)) with false.
    + rewrite filter_none, db_eta; [reflexivity|].
      intros a Ha. apply negb_true_iff, Z.eqb_neq. auto.
    + symmetry. apply not_true_is_false. intros E.
      apply existsb_apartment in E. destruct E as (a & Ha & E).
      exact (Habs a Ha E).
Qed.

(** C8.  An id no row has, but beyond 64 bits: neither delete route gives
    its answer.  The URL converter accepts any run of digits; the driver
    cannot bind the number, so the first SELECT of either handler raises
    [OverflowError], which no [try] surrounds: the exception leaves the
    handler, nothing is flashed, there is no redirect and the connection
    stays open.  No tenant and no apartment of the database has this id. *)
Theorem delete_absent_huge_id_raises :
  (forall t, In t (tenants seeded) -> t_id t <> 9223372036854775808) /\
  (forall a, In a (apartments seeded) -> a_id a <> 9223372036854775808) /\
  delete_tenant 9223372036854775808 (enter seeded manager) =
    (Exc OverflowError, mkWorld seeded (Open seeded) [] manager) /\
  delete_apartment 9223372036854775808 (enter seeded manager) =
    (Exc OverflowError, mkWorld seeded (Open seeded) [] manager).
Proof.
  split; [|split; [|split; vm_compute; reflexivity]];
    simpl; intros x H;
    repeat (destruct H as [<-|H]; [simpl; lia|]); contradiction.
Qed.

(* ================================================================== *)
(** * Authentication *)

Lemma existsb_email (db : DB) (email : string) :
  existsb (fun u => String.eqb (u_email u) email) (users db) = true <->
  exists u, In u (users db) /\ u_email u = email.
Proof.
  rewrite existsb_exists. split; intros (u & Hu & H); exists u;
    (split; [assumption|]); now apply String.eqb_eq.
Qed.

Lemma truthy_some (x : string) : Py.truthy (Some x) = true <-> x <> "".
Proof.
  simpl. rewrite negb_true_iff. split.
  - intros H ->. discriminate.
  - intros H. apply not_true_is_false. intros E. now apply String.eqb_eq in E.
Qed.

(** C4.  A registration whose email is already that of a stored user
    leaves the database exactly as it found it, whatever the other fields
    are; and when its four fields are non-empty it ends with the message
    that the email is in use, under the error category, and a redirect to
    the home page. *)
Theorem register_duplicate_email
    (generate_password_hash : string -> string -> string)
    (rq : Request) (db : DB) (s : Session) (existing : User) :
  In existing (users db) ->
  form_get (form rq) "email" = Some (u_email existing) ->
  store (snd (register generate_password_hash rq (enter db s))) = db /\
  (forall fullName phone password,
     form_get (form rq) "fullName" = Some fullName ->
     form_get (form rq) "phone" = Some phone ->
     form_get (form rq) "password" = Some password ->
     fullName <> "" -> u_email existing <> "" -> phone <> "" -> password <> "" ->
     register generate_password_hash rq (enter db s) =
       (Val (Redirect ep_home),
        mkWorld db Closed
          [(Text "Registration failed. That email is already in use.", "error")] s)).
Proof.
  intros Hin He.
  assert (Hdup : existsb (fun u => String.eqb (u_email u) (u_email existing))
                   (users db) = true) by (apply existsb_email; eauto).
  split.
  - unfold register, form_item, bind, enter. rewrite He.
    destruct (form_get (form rq) "fullName") as [fullName|]; [|reflexivity].
    destruct (form_get (form rq) "phone") as [phone|]; [|reflexivity].
    destruct (form_get (form rq) "password") as [password|]; [|reflexivity].
    simpl.
    destruct (negb _); [reflexivity|].
    unfold finally, try_except, bind, execute, get_db_connection, Sql.insert_user.
    simpl. rewrite Hdup. reflexivity.
  - intros fullName phone password Hf Hp Hw Nf Ne Np Nw.
    unfold register, form_item, bind, enter. rewrite Hf, He, Hp, Hw. simpl.
    apply truthy_some in Nf, Ne, Np, Nw. simpl in Nf, Ne, Np, Nw.
    rewrite Nf, Ne, Np, Nw. simpl.
    unfold finally, try_except, bind, execute, get_db_connection, Sql.insert_user.
    simpl. rewrite Hdup. reflexivity.
Qed.

Example with_marta_users :
  users with_marta =
  [mkUser 1 "Marta T" "marta@example.com" "0911000000" "salt$s3cret"].
Proof. reflexivity. Qed.

Lemma find_email_some (db : DB) (email : string) (u : User) :
  Sql.select_user_by_email email db = Some u -> In u (users db) /\ u_email u = email.
Proof.
  unfold Sql.select_user_by_email. intros H. apply find_some in H.
  destruct H as [Hin H]. now apply String.eqb_eq in H.
Qed.

(** C9.  When every stored user with the submitted email rejects the
    submitted password (in particular when no user has that email), login
    redirects to the home page with one error message, leaves the session as
    it was, and leaves the database as it was. *)
Theorem login_failure_changes_nothing
    (check_password_hash : string -> string -> bool)
    (rq : Request) (db : DB) (s : Session) :
  (forall u email password,
     In u (users db) ->
     form_get (form rq) "loginEmail" = Some email ->
     form_get (form rq) "loginPassword" = Some password ->
     u_email u = email ->
     check_password_hash (u_password u) password = false) ->
  exists msg c,
    login check_password_hash rq (enter db s) =
      (Val (Redirect ep_home), mkWorld db c [(Text msg, "error")] s) /\
    c <> Open db /\
    (msg = "Invalid email or password" \/
     msg = "Please provide both email and password.").
Proof.
  intros Hbad. unfold login.
  destruct (negb (Py.truthy (form_get (form rq) "loginEmail")) ||
            negb (Py.truthy (form_get (form rq) "loginPassword"))) eqn:E.
  - exists "Please provide both email and password.", NoConn.
    split; [reflexivity|]. split; [discriminate | now right].
  - apply orb_false_elim in E. destruct E as [E1 E2].
    destruct (form_get (form rq) "loginEmail") as [email|]; [|discriminate].
    destruct (form_get (form rq) "loginPassword") as [password|]; [|discriminate].
    exists "Invalid email or password", Closed.
    split; [|split; [discriminate | now left]].
    unfold bind, query, get_db_connection, close, enter. simpl.
    destruct (Sql.select_user_by_email email db) as [u|] eqn:Eu; [|reflexivity].
    apply find_email_some in Eu. destruct Eu as [Hin Hmail].
    rewrite (Hbad u email password Hin eq_refl eq_refl Hmail). reflexivity.
Qed.

Example login_success_marta :
  login toy_check
    (mkRequest POST [("loginEmail", "marta@example.com"); ("loginPassword", "s3cret")] "")
    (enter with_marta empty_session) =
  (Val (Redirect ep_dashboard),
   mkWorld with_marta Closed [(Text "Welcome back, Marta T!", "success")]
     (mkSession (Some true) (Some 1) (Some "Marta T"))).
Proof. reflexivity. Qed.

(* ================================================================== *)
(** * Validation of the apartment and tenant forms *)

Lemma select_apartment_with_tenant_some (db : DB) (a : Apartment) :
  In a (apartments db) ->
  exists row, Sql.select_apartment_with_tenant (a_id a) db = Some row.
Proof.
  intros Ha. unfold Sql.select_apartment_with_tenant.
  assert (H : exists ot, In (a, ot) (Sql.apartments_join_tenants db)).
  { unfold Sql.apartments_join_tenants.
    destruct (filter (fun t => Sql.id_is (t_apartment_id t) (a_id a)) (tenants db))
      as [|t m] eqn:E.
    - exists None. apply in_left_join. split; [assumption|].
      intros t Ht. destruct (Sql.id_is (t_apartment_id t) (a_id a)) eqn:Et; [|reflexivity].
      assert (In t []) by (rewrite <- E; apply filter_In; auto). contradiction.
    - exists (Some t). apply in_left_join. split; [assumption|].
      apply (filter_In (fun t => Sql.id_is (t_apartment_id t) (a_id a))).
      rewrite E. now left. }
  destruct H as (ot & H).
  assert (Hf : In (a, ot)
            (filter (fun r => a_id (fst r) =? a_id a) (Sql.apartments_join_tenants db)))
    by (apply filter_In; split; [assumption | apply Z.eqb_refl]).
  destruct (filter _ (Sql.apartments_join_tenants db)); [contradiction | eauto].
Qed.

Lemma zero_or_negative_le0 (x : Py.float) :
  zero_or_negative x -> Py.float_le0 x = true.
Proof.
  destruct x as [|[neg|q]]; simpl; [contradiction | trivial |].
  intros H. apply Qle_bool_iff. exact H.
Qed.

(** The shared validation block raises a [ValueError], and touches nothing,
    as soon as one of the three fields is refused. *)
Lemma apartment_numbers_rejects (f : Form) (sb sa sr : string) (w : world) :
  form_get f "bedrooms" = Some sb ->
  form_get f "bathrooms" = Some sa ->
  form_get f "rent" = Some sr ->
  int_refused sb \/ int_refused sa \/ float_refused sr ->
  exists v, apartment_numbers f w = (Exc (ValueError v), w).
Proof.
  intros Hb Ha Hr Hrej.
  unfold apartment_numbers, form_item, bind, py_int, py_float.
  rewrite Hb, Ha, Hr. simpl.
  unfold int_refused, float_refused in Hrej.
  destruct (int_of_str sb) as [b|]; simpl; [|eexists; reflexivity].
  destruct (int_of_str sa) as [a|]; simpl; [|eexists; reflexivity].
  destruct (float_of_str sr) as [r|]; simpl; [|eexists; reflexivity].
  destruct (b <=? 0) eqn:Eb; simpl; [eexists; reflexivity|].
  destruct (a <=? 0) eqn:Ea; simpl; [eexists; reflexivity|].
  destruct Hrej as [H|[H|H]]; [lia | lia |].
  rewrite (zero_or_negative_le0 r H). eexists. reflexivity.
Qed.

(** C6, as the code has it.  The update form runs the same numeric check
    as the create form on bedrooms, bathrooms and rent.  When one of them
    does not parse as a number, or is a number that is zero or negative,
    the update of an existing apartment flashes the data error and
    redirects to the edit page of that apartment (no page carrying the
    submitted form is rendered), the create form is rendered again with the
    submitted form; neither changes the database.  A rent that parses to
    NaN is not one of these cases. *)
Theorem apartment_forms_reject_bad_numbers
    (rq : Request) (db : DB) (s : Session) (sb sa sr : string) :
  logged_in s = Some true ->
  method rq = POST ->
  form_get (form rq) "bedrooms" = Some sb ->
  form_get (form rq) "bathrooms" = Some sa ->
  form_get (form rq) "rent" = Some sr ->
  int_refused sb \/ int_refused sa \/ float_refused sr ->
  (forall a name location,
     In a (apartments db) -> Sql.fits_int64 (a_id a) = true ->
     form_get (form rq) "name" = Some name ->
     form_get (form rq) "location" = Some location ->
     exists v,
       edit_apartment (a_id a) rq (enter db s) =
         (Val (Redirect (ep_edit_apartment (a_id a))),
          mkWorld db Closed [(TextExn "Data error: " (ValueError v), "error")] s)) /\
  (exists m,
     add_apartment rq (enter db s) =
       (Val (AddApartmentPage (Some (form rq))), mkWorld db NoConn [(m, "error")] s)).
Proof.
  intros Hin Hpost Hb Ha Hr Hrej. split.
  - intros a name location Hina Hfit Hname Hloc.
    destruct (select_apartment_with_tenant_some db a Hina) as (row & Hrow).
    unfold edit_apartment, login_required, bind, get_session, enter, query_by_id,
      get_db_connection, Sql.bind_int, form_item, try_except.
    simpl. rewrite Hin. simpl. rewrite Hfit, Hrow, Hpost, Hname, Hloc.
    unfold ret at 1 2. cbv iota beta.
    match goal with
    | |- context [apartment_numbers (form rq) ?w] =>
        destruct (apartment_numbers_rejects (form rq) sb sa sr w Hb Ha Hr Hrej)
          as (v & ->)
    end.
    exists v. reflexivity.
  - unfold add_apartment, login_required, bind, get_session, enter, try_except.
    simpl. rewrite Hin, Hpost.
    destruct (negb _); [eexists; reflexivity|].
    match goal with
    | |- context [apartment_numbers (form rq) ?w] =>
        destruct (apartment_numbers_rejects (form rq) sb sa sr w Hb Ha Hr Hrej)
          as (v & ->)
    end.
    eexists. reflexivity.
Qed.

Example edit_apartment_accepts :
  apartments (store (snd (edit_apartment 2
    (mkRequest POST
       [("name", "Kazanchis Loft"); ("location", "Kazanchis"); ("bedrooms", "2");
        ("bathrooms", "1"); ("rent", "9500.50")] "")
    (enter seeded manager)))) =
  [mkApartment 1 "Goro Deluxe Apt" 3 2 "Goro" (Some (Py.RFin 15000));
   mkApartment 2 "Kazanchis Loft" 2 1 "Kazanchis" (Some (Py.RFin (19001 # 2)));
   mkApartment 3 "Bole Road Family Home" 4 3 "Bole" (Some (Py.RFin 25000))].
Proof. vm_compute. reflexivity. Qed.

(** C5.  A storage failure in the apartment handlers is not caught: adding
    or updating an apartment with a bedroom count beyond 64 bits makes the
    driver raise [OverflowError] at [conn.execute], the exception leaves the
    handler, no message is flashed and the connection is still open. *)
Theorem apartment_storage_error_escapes :
  add_apartment huge_bedrooms (enter seeded manager) =
    (Exc OverflowError, mkWorld seeded (Open seeded) [] manager) /\
  edit_apartment 1 huge_bedrooms (enter seeded manager) =
    (Exc OverflowError, mkWorld seeded (Open seeded) [] manager).
Proof. split; vm_compute; reflexivity. Qed.

(** The tenant handlers do catch it: the same failure of the INSERT is
    flashed and the connection closed. *)
Example add_tenant_storage_error_caught :
  add_tenant
    (mkRequest POST
       [("fullName", "Sara"); ("phone", "0911"); ("lease_start", "2024-05-01");
        ("apartment_id", "9223372036854775808")] "")
    (enter seeded manager) =
  (Val (AddTenantPage [(3, "Bole Road Family Home"); (2, "Kazanchis Studio")] None),
   mkWorld seeded Closed
     [(TextExn "An unexpected database error occurred while adding the tenant: "
         OverflowError, "error")] manager).
Proof. vm_compute. reflexivity. Qed.

(** C7.  An [apartment_id] that is neither the sentinel nor a number: the
    create form answers with a validation message, but the update form lets
    the [ValueError] of [int()] leave the handler, with the connection still
    open.  The tenant table is unchanged in both. *)
Theorem edit_tenant_bad_apartment_id_raises :
  edit_tenant 1 bad_apartment_id (enter seeded manager) =
    (Exc (ValueError (InvalidInt "abc")), mkWorld seeded (Open seeded) [] manager) /\
  add_tenant bad_apartment_id (enter seeded manager) =
    (Val (AddTenantPage [(3, "Bole Road Family Home"); (2, "Kazanchis Studio")]
            (Some (form bad_apartment_id))),
     mkWorld seeded Closed
       [(Text "Invalid apartment selection. The apartment ID must be a number.",
         "error")] manager).
Proof. split; vm_compute; reflexivity. Qed.

(** The sentinel and the absent field are stored as NULL by both forms. *)
Example tenant_sentinel_is_null :
  tenants (store (snd (add_tenant
    (mkRequest POST
       [("fullName", "Sara"); ("phone", "0911"); ("lease_start", "2024-05-01");
        ("apartment_id", "None")] "")
    (enter seeded manager)))) =
  [mkTenant 1 "Abebe Kebede" "0911223344" (Some "abebek@example.com") (Some 1) "2024-01-01";
   mkTenant 2 "Sara" "0911" None None "2024-05-01"] /\
  tenants (store (snd (edit_tenant 1
    (mkRequest POST
       [("fullName", "Abebe Kebede"); ("phone", "0911223344");
        ("lease_start", "2024-01-01")] "")
    (enter seeded manager)))) =
  [mkTenant 1 "Abebe Kebede" "0911223344" None None "2024-01-01"].
Proof. split; vm_compute; reflexivity. Qed.

(* ================================================================== *)
(** * Referential integrity in every reachable database *)

Lemma fk_ok_sound (o : option Z) (db : DB) (id : Z) :
  Sql.fk_ok o db = true -> o = Some id -> exists a, In a (apartments db) /\ a_id a = id.
Proof.
  intros H ->. simpl in H. now apply existsb_apartment.
Qed.

Lemma insert_user_keeps_fk f e p h : keeps_fk (Sql.insert_user f e p h).
Proof.
  intros db db' Hfk H. unfold Sql.insert_user in H.
  destruct (existsb _ _); [discriminate|]. injection H as <-. exact Hfk.
Qed.

Lemma insert_apartment_keeps_fk n l b ba r : keeps_fk (Sql.insert_apartment n l b ba r).
Proof.
  intros db db' Hfk H. unfold Sql.insert_apartment in H.
  destruct (Sql.bind_int b), (Sql.bind_int ba); try discriminate.
  injection H as <-. intros t id Ht Hid. simpl in *.
  destruct (Hfk t id Ht Hid) as (a & Ha & E). exists a.
  split; [apply in_or_app; now left | exact E].
Qed.

Lemma update_apartment_keeps_fk n l b ba r id : keeps_fk (Sql.update_apartment n l b ba r id).
Proof.
  intros db db' Hfk H. unfold Sql.update_apartment in H.
  destruct (Sql.bind_int b), (Sql.bind_int ba), (Sql.bind_int id); try discriminate.
  injection H as <-. intros t x Ht Hx. simpl in *.
  destruct (Hfk t x Ht Hx) as (a & Ha & E).
  eexists. split; [apply in_map_iff; exists a; split; [reflexivity | exact Ha]|].
  destruct (a_id a =? id); exact E.
Qed.

Lemma delete_apartment_keeps_fk id : keeps_fk (Sql.delete_apartment id).
Proof.
  intros db db' Hfk H. unfold Sql.delete_apartment in H.
  destruct (Sql.bind_int id); [discriminate|].
  injection H as <-. intros t x Ht Hx. simpl in *.
  destruct (existsb (fun a => a_id a =? id) (apartments db)) eqn:E.
  - apply in_map_iff in Ht. destruct Ht as (t0 & <- & Ht0).
    unfold Sql.set_null in Hx.
    destruct (Sql.id_is (t_apartment_id t0) id) eqn:Eid; [discriminate|].
    destruct (Hfk t0 x Ht0 Hx) as (a & Ha & Ea). exists a.
    split; [|exact Ea]. apply filter_In. split; [exact Ha|].
    apply negb_true_iff, Z.eqb_neq. intros E'.
    apply id_is_false in Eid. congruence.
  - destruct (Hfk t x Ht Hx) as (a & Ha & Ea). exists a.
    split; [|exact Ea]. apply filter_In. split; [exact Ha|].
    apply negb_true_iff, Z.eqb_neq. intros E'.
    assert (existsb (fun a0 => a_id a0 =? id) (apartments db) = true)
      by (apply existsb_apartment; eauto).
    congruence.
Qed.

Lemma insert_tenant_keeps_fk f p e o ls : keeps_fk (Sql.insert_tenant f p e o ls).
Proof.
  intros db db' Hfk H. unfold Sql.insert_tenant in H.
  destruct (Sql.bind_opt_int o); [discriminate|].
  destruct (Sql.fk_ok o db) eqn:Eok; [|discriminate].
  injection H as <-. intros t x Ht Hx. simpl in *.
  apply in_app_or in Ht. destruct Ht as [Ht|[<-|[]]].
  - exact (Hfk t x Ht Hx).
  - simpl in Hx. exact (fk_ok_sound o db x Eok Hx).
Qed.

Lemma update_tenant_keeps_fk f p e o ls id : keeps_fk (Sql.update_tenant f p e o ls id).
Proof.
  intros db db' Hfk H. unfold Sql.update_tenant in H.
  destruct (Sql.bind_opt_int o), (Sql.bind_int id); try discriminate.
  destruct (negb _ || Sql.fk_ok o db) eqn:Eok; [|discriminate].
  injection H as <-. intros t x Ht Hx. simpl in *.
  apply in_map_iff in Ht. destruct Ht as (t0 & Et & Ht0).
  destruct (t_id t0 =? id) eqn:Eid.
  - subst t. simpl in Hx.
    apply orb_true_iff in Eok. destruct Eok as [Eno|Eok].
    + apply negb_true_iff in Eno.
      assert (existsb (fun t => t_id t =? id) (tenants db) = true)
        by (apply existsb_exists; eauto).
      congruence.
    + exact (fk_ok_sound o db x Eok Hx).
  - subst t. exact (Hfk t0 x Ht0 Hx).
Qed.

Lemma delete_tenant_keeps_fk id : keeps_fk (Sql.delete_tenant id).
Proof.
  intros db db' Hfk H. unfold Sql.delete_tenant in H.
  destruct (Sql.bind_int id); [discriminate|].
  injection H as <-. intros t x Ht Hx. simpl in *.
  apply filter_In in Ht. exact (Hfk t x (proj1 Ht) Hx).
Qed.

(** The monad's operations keep [world_ok]. *)
Lemma preserves_ret {A} (a : A) : preserves (ret a).
Proof. intros w H. exact H. Qed.

Lemma preserves_raise {A} (e : exn) : preserves (@raise A e).
Proof. intros w H. exact H. Qed.

Lemma preserves_bind {A B} (m : M A) (k : A -> M B) :
  preserves m -> (forall a, preserves (k a)) -> preserves (bind m k).
Proof.
  intros Hm Hk w H. unfold bind. specialize (Hm w H).
  destruct (m w) as [[a|e] w']; simpl in *; [now apply Hk | exact Hm].
Qed.

Lemma preserves_try_except {A} (body : M A) cls (handler : exn -> M A) :
  preserves body -> (forall e, preserves (handler e)) ->
  preserves (try_except body cls handler).
Proof.
  intros Hb Hh w H. unfold try_except. specialize (Hb w H).
  destruct (body w) as [[a|e] w']; simpl in *; [exact Hb|].
  destruct (cls e); [now apply Hh | exact Hb].
Qed.

Lemma preserves_finally {A} (body : M A) (fin : M unit) :
  preserves body -> preserves fin -> preserves (finally body fin).
Proof.
  intros Hb Hf w H. unfold finally. specialize (Hb w H).
  destruct (body w) as [r w']. simpl in Hb. specialize (Hf w' Hb).
  destruct (fin w') as [[u|e] w'']; exact Hf.
Qed.

Lemma preserves_flash m c : preserves (flash m c).
Proof. intros w H. exact H. Qed.

Lemma preserves_get_session : preserves get_session.
Proof. intros w H. exact H. Qed.

Lemma preserves_set_session s : preserves (set_session s).
Proof. intros w H. exact H. Qed.

Lemma preserves_get_db_connection : preserves get_db_connection.
Proof. intros w [H _]. split; exact H. Qed.

Lemma preserves_query {A} (q : DB -> A) : preserves (query q).
Proof. intros w H. unfold query. now destruct (conn w). Qed.

Lemma preserves_query_by_id {A} id (q : Z -> DB -> A) : preserves (query_by_id id q).
Proof.
  intros w H. unfold query_by_id.
  destruct (conn w); try exact H. now destruct (Sql.bind_int id).
Qed.

Lemma preserves_execute stmt : keeps_fk stmt -> preserves (execute stmt).
Proof.
  intros Hs w H. unfold execute. destruct (conn w) as [|tx|] eqn:E; try exact H.
  destruct (stmt tx) as [e|tx'] eqn:Es; [exact H|].
  destruct H as [H1 H2]. rewrite E in H2. split; simpl; [exact H1 | eauto].
Qed.

Lemma preserves_commit : preserves commit.
Proof.
  intros w H. unfold commit. destruct (conn w) as [|tx|] eqn:E; try exact H.
  destruct H as [_ H]. rewrite E in H. split; exact H.
Qed.

Lemma preserves_close : preserves close.
Proof. intros w [H _]. split; [exact H | exact I]. Qed.

Lemma preserves_form_item f k : preserves (form_item f k).
Proof. unfold form_item. destruct (form_get f k); [apply preserves_ret | apply preserves_raise]. Qed.

Lemma preserves_py_int s : preserves (py_int s).
Proof. unfold py_int. destruct (int_of_str s); [apply preserves_ret | apply preserves_raise]. Qed.

Lemma preserves_py_float s : preserves (py_float s).
Proof.
  unfold py_float. destruct (float_of_str s); [apply preserves_ret | apply preserves_raise].
Qed.

Create HintDb preserve.
#[local] Hint Resolve
  insert_user_keeps_fk insert_apartment_keeps_fk update_apartment_keeps_fk
  delete_apartment_keeps_fk insert_tenant_keeps_fk update_tenant_keeps_fk
  delete_tenant_keeps_fk
  preserves_ret preserves_raise preserves_flash preserves_get_session
  preserves_set_session preserves_get_db_connection preserves_query
  preserves_query_by_id preserves_execute preserves_commit preserves_close
  preserves_form_item preserves_py_int preserves_py_float : preserve.

(** Walks down a handler: binds, [try] blocks and the case analyses. *)
Ltac preserve :=
  repeat first
    [ progress intros
    | apply preserves_bind
    | apply preserves_try_except
    | apply preserves_finally
    | solve [auto with preserve]
    | match goal with
      | |- preserves (if ?b then _ else _) => destruct b
      | |- preserves (match ?x with _ => _ end) => destruct x
      | |- preserves (let '_ := ?x in _) => destruct x
      end ].

Lemma preserves_login_required (f : M response) :
  preserves f -> preserves (login_required f).
Proof. intros Hf. unfold login_required. preserve. Qed.

Lemma preserves_init_db : preserves init_db.
Proof. unfold init_db. preserve. Qed.

Lemma preserves_apartment_numbers f : preserves (apartment_numbers f).
Proof. unfold apartment_numbers. preserve. Qed.

#[local] Hint Resolve preserves_apartment_numbers : preserve.

Lemma preserves_dispatch gen chk (r : route) (rq : Request) :
  preserves (dispatch gen chk r rq).
Proof.
  destruct r; simpl;
    try (apply preserves_login_required || unfold home, logout, register, login);
    unfold dashboard, add_apartment, manage_apartments, edit_apartment,
      delete_apartment, add_tenant, manage_tenants, edit_tenant, delete_tenant;
    try apply preserves_login_required; preserve.
Qed.

Lemma enter_ok (db : DB) (s : Session) : fk_valid db -> world_ok (enter db s).
Proof. intros H. split; [exact H | exact I]. Qed.

Lemma reachable_fk_valid gen chk (db : DB) : reachable gen chk db -> fk_valid db.
Proof.
  induction 1 as [|db Hr IH|db r rq s Hr IH].
  - apply (preserves_init_db (enter empty_db empty_session)).
    apply enter_ok. intros t id [].
  - apply (preserves_init_db (enter db empty_session)). now apply enter_ok.
  - apply (preserves_dispatch gen chk r rq (enter db s)). now apply enter_ok.
Qed.

Lemma fk_valid_occupied_le (db : DB) :
  fk_valid db -> Sql.count_occupied db <= Sql.count_apartments db.
Proof.
  intros Hfk. unfold Sql.count_occupied, Sql.count_apartments.
  apply Nat2Z.inj_le. rewrite <- (length_map a_id (apartments db)).
  apply NoDup_incl_length; [apply NoDup_nodup|].
  intros id Hid. apply nodup_In, in_assigned_ids in Hid.
  destruct Hid as (t & Ht & Hid). destruct (Hfk t id Ht Hid) as (a & Ha & <-).
  now apply in_map.
Qed.

(** C10.  In every reachable database the number of occupied units is at
    most the number of apartments, so the available count a logged-in
    manager's dashboard shows is never negative. *)
Theorem reachable_available_nonnegative
    (generate_password_hash : string -> string -> string)
    (check_password_hash : string -> string -> bool)
    (db : DB) (s : Session) (name : string) :
  reachable generate_password_hash check_password_hash db ->
  logged_in s = Some true -> user_name s = Some name ->
  Sql.count_occupied db <= Sql.count_apartments db /\
  exists total_apartments available_apartments total_tenants,
    fst (dashboard (enter db s)) =
      Val (DashboardPage name total_apartments available_apartments total_tenants) /\
    available_apartments = total_apartments - Sql.count_occupied db /\
    0 <= available_apartments.
Proof.
  intros Hreach Hin Hname.
  pose proof (fk_valid_occupied_le db (reachable_fk_valid _ _ db Hreach)) as Hle.
  split; [exact Hle|].
  rewrite (dashboard_run db s name Hin Hname). simpl.
  do 3 eexists. split; [reflexivity|]. split; [reflexivity | lia].
Qed.

(* ================================================================== *)
(** * What a request can write *)

Lemma truthy_the (o : option string) : Py.truthy o = true -> the o <> "".
Proof.
  destruct o as [x|]; [|discriminate]. intros H. now apply truthy_some.
Qed.

Lemma numbers_ok_intro (b a : Z) (r : Py.float) :
  (b <=? 0) || (a <=? 0) || Py.float_le0 r = false -> numbers_ok b a r.
Proof.
  intros H. apply orb_false_elim in H. destruct H as [H Hr].
  apply orb_false_elim in H. destruct H as [Hb Ha].
  apply Z.leb_gt in Hb, Ha. now repeat split.
Qed.

(** The validation block, as a function of the form alone. *)
Lemma apartment_numbers_run (f : Form) (w : world) :
  (exists e, apartment_numbers f w = (Exc e, w)) \/
  (exists b a r, numbers_ok b a r /\ apartment_numbers f w = (Val (b, a, r), w)).
Proof.
  unfold apartment_numbers, form_item, bind, py_int, py_float, ret, raise.
  destruct (form_get f "bedrooms") as [sb|]; [|left; eexists; reflexivity].
  destruct (int_of_str sb) as [b|]; [|left; eexists; reflexivity].
  destruct (form_get f "bathrooms") as [sa|]; [|left; eexists; reflexivity].
  destruct (int_of_str sa) as [a|]; [|left; eexists; reflexivity].
  destruct (form_get f "rent") as [sr|]; [|left; eexists; reflexivity].
  destruct (float_of_str sr) as [r|]; [|left; eexists; reflexivity].
  destruct ((b <=? 0) || (a <=? 0) || Py.float_le0 r) eqn:E.
  - left. eexists. reflexivity.
  - right. exists b, a, r. split; [now apply numbers_ok_intro | reflexivity].
Qed.

Opaque Sql.insert_user Sql.insert_apartment Sql.update_apartment
  Sql.delete_apartment Sql.insert_tenant Sql.update_tenant Sql.delete_tenant.

Ltac unfold_ops :=
  unfold login_required, bind, get_session, set_session, enter, query, query_by_id,
    execute, commit, close, get_db_connection, flash, ret, raise, try_except,
    finally, form_item, py_int.

(** To show [x = db \/ commits r db x], show that every property that holds
    of [db] and of what [r] commits holds of [x]. *)
Lemma by_write (r : route) (db x : DB) :
  (forall Q : DB -> Prop, Q db -> (forall d, commits r db d -> Q d) -> Q x) ->
  x = db \/ commits r db x.
Proof. intros H. apply H; [now left | now right]. Qed.

Ltac by_cases_on_write := apply by_write; intros Q Q0 Qc.

Ltac logged s :=
  unfold_ops; simpl;
  destruct (logged_in s) as [[]|]; simpl; [|assumption ..].

Lemma add_apartment_writes (rq : Request) (db : DB) (s : Session) :
  store (snd (add_apartment rq (enter db s))) = db \/
  commits r_add_apartment db (store (snd (add_apartment rq (enter db s)))).
Proof.
  by_cases_on_write.
  unfold add_apartment. unfold login_required, bind at 1, get_session, enter. simpl.
  destruct (logged_in s) as [[]|]; [|assumption ..].
  destruct (method rq); [assumption|].
  destruct (negb _); [assumption|].
  unfold try_except, bind at 1 2.
  destruct (apartment_numbers_run (form rq) (mkWorld db NoConn [] s))
    as [(e & ->)|(b & a & r & Hok & ->)].
  - destruct (is_ValueError e); assumption.
  - unfold_ops. simpl.
    destruct (Sql.insert_apartment _ _ b a r db) as [e|db'] eqn:E; simpl.
    + assumption.
    + apply Qc. eapply com_add_apartment; eauto.
Qed.

Lemma edit_apartment_writes (id : Z) (rq : Request) (db : DB) (s : Session) :
  store (snd (edit_apartment id rq (enter db s))) = db \/
  commits (r_edit_apartment id) db (store (snd (edit_apartment id rq (enter db s)))).
Proof.
  by_cases_on_write.
  unfold edit_apartment. unfold login_required, bind at 1, get_session, enter. simpl.
  destruct (logged_in s) as [[]|]; [|assumption ..].
  unfold bind at 1 2, get_db_connection, query_by_id. simpl.
  destruct (Sql.bind_int id); [assumption|].
  destruct (Sql.select_apartment_with_tenant id db) as [row|]; [|assumption].
  destruct (method rq); [assumption|].
  unfold form_item, bind at 1.
  destruct (form_get (form rq) "name") as [name|]; [|assumption].
  unfold ret at 1. unfold bind at 1.
  destruct (form_get (form rq) "location") as [location|]; [|assumption].
  unfold ret at 1. unfold try_except, bind at 1 2.
  match goal with
  | |- context [apartment_numbers (form rq) ?w] =>
      destruct (apartment_numbers_run (form rq) w) as [(e & ->)|(b & a & r & Hok & ->)]
  end.
  - destruct (is_ValueError e); assumption.
  - unfold_ops. simpl.
    destruct (Sql.update_apartment name location b a r id db) as [e|db'] eqn:E; simpl.
    + assumption.
    + apply Qc. eapply com_edit_apartment; eauto.
Qed.

Lemma delete_apartment_writes (id : Z) (db : DB) (s : Session) :
  store (snd (delete_apartment id (enter db s))) = db \/
  commits (r_delete_apartment id) db (store (snd (delete_apartment id (enter db s)))).
Proof.
  by_cases_on_write.
  unfold delete_apartment. logged s.
  destruct (Sql.bind_int id) eqn:Eb; simpl; [assumption|].
  destruct (Sql.delete_apartment id db) as [e|db'] eqn:E; simpl; [assumption|].
  apply Qc. destruct (Sql.select_apartment id db); simpl; eapply com_delete_apartment; eauto.
Qed.

Lemma delete_tenant_writes (id : Z) (db : DB) (s : Session) :
  store (snd (delete_tenant id (enter db s))) = db \/
  commits (r_delete_tenant id) db (store (snd (delete_tenant id (enter db s)))).
Proof.
  by_cases_on_write.
  unfold delete_tenant. logged s.
  destruct (Sql.bind_int id) eqn:Eb; simpl; [assumption|].
  destruct (Sql.select_tenant id db) as [t|]; simpl; [|assumption].
  destruct (Sql.delete_tenant id db) as [e|db'] eqn:E; simpl; [assumption|].
  apply Qc. eapply com_delete_tenant; eauto.
Qed.

Lemma required_fields (a b c : option string) :
  negb (forallb Py.truthy [a; b; c]) = false ->
  the a <> "" /\ the b <> "" /\ the c <> "".
Proof.
  intros H. apply negb_false_iff in H. simpl in H.
  rewrite andb_true_r in H.
  apply andb_prop in H. destruct H as [Ha H]. apply andb_prop in H.
  destruct H as [Hb Hc]. auto using truthy_the.
Qed.

Lemma add_tenant_writes (rq : Request) (db : DB) (s : Session) :
  store (snd (add_tenant rq (enter db s))) = db \/
  commits r_add_tenant db (store (snd (add_tenant rq (enter db s)))).
Proof.
  by_cases_on_write.
  unfold add_tenant. logged s.
  destruct (method rq); [assumption|].
  destruct (negb _) eqn:Ereq; simpl; [assumption|].
  apply required_fields in Ereq. destruct Ereq as (Hf & Hp & Hl).
  destruct (Py.truthy (form_get (form rq) "apartment_id") && _); simpl.
  - destruct (int_of_str (the (form_get (form rq) "apartment_id"))) as [n|]; simpl;
      [|assumption].
    destruct (Sql.insert_tenant _ _ _ (Some n) _ db) as [e|db'] eqn:E; simpl;
      [assumption|].
    apply Qc. eapply com_add_tenant; [..|exact E]; assumption.
  - destruct (Sql.insert_tenant _ _ _ None _ db) as [e|db'] eqn:E; simpl;
      [assumption|].
    apply Qc. eapply com_add_tenant; [..|exact E]; assumption.
Qed.

Lemma edit_tenant_writes (id : Z) (rq : Request) (db : DB) (s : Session) :
  store (snd (edit_tenant id rq (enter db s))) = db \/
  commits (r_edit_tenant id) db (store (snd (edit_tenant id rq (enter db s)))).
Proof.
  by_cases_on_write.
  unfold edit_tenant. logged s.
  destruct (Sql.bind_int id) eqn:Eb; simpl; [assumption|].
  destruct (Sql.select_tenant id db) as [t|]; simpl; [|assumption].
  destruct (method rq); simpl; [assumption|].
  destruct (negb _) eqn:Ereq; simpl; [assumption|].
  apply required_fields in Ereq. destruct Ereq as (Hf & Hp & Hl).
  destruct (Py.truthy (form_get (form rq) "apartment_id") && _); simpl.
  - destruct (int_of_str (the (form_get (form rq) "apartment_id"))) as [n|]; simpl;
      [|assumption].
    destruct (Sql.update_tenant _ _ _ (Some n) _ id db) as [e|db'] eqn:E; simpl;
      [assumption|].
    apply Qc. eapply com_edit_tenant; [..|exact E]; assumption.
  - destruct (Sql.update_tenant _ _ _ None _ id db) as [e|db'] eqn:E; simpl;
      [assumption|].
    apply Qc. eapply com_edit_tenant; [..|exact E]; assumption.
Qed.

Lemma register_writes gen (rq : Request) (db : DB) (s : Session) :
  store (snd (register gen rq (enter db s))) = db \/
  commits r_register db (store (snd (register gen rq (enter db s)))).
Proof.
  by_cases_on_write.
  unfold register, form_item, bind at 1 2 3 4, enter.
  destruct (form_get (form rq) "fullName") as [fullName|]; [|assumption].
  destruct (form_get (form rq) "email") as [email|]; [|assumption].
  destruct (form_get (form rq) "phone") as [phone|]; [|assumption].
  destruct (form_get (form rq) "password") as [password|]; [|assumption].
  unfold ret at 1 2 3 4. cbv iota beta.
  destruct (negb _) eqn:Ereq; [assumption|].
  apply negb_false_iff in Ereq. simpl forallb in Ereq.
  apply andb_prop in Ereq. destruct Ereq as [Hf Ereq].
  apply andb_prop in Ereq. destruct Ereq as [He Ereq].
  apply andb_prop in Ereq. destruct Ereq as [Hp _].
  apply truthy_some in Hf, He, Hp.
  unfold_ops. simpl.
  destruct (Sql.insert_user fullName email phone _ db) as [e|db'] eqn:E; simpl.
  - destruct (is_IntegrityError e); assumption.
  - apply Qc. eapply com_register; [..|exact E]; assumption.
Qed.

Lemma login_keeps_db chk (rq : Request) (db : DB) (s : Session) :
  store (snd (login chk rq (enter db s))) = db.
Proof.
  unfold login. destruct (_ || _); [reflexivity|].
  unfold_ops. simpl.
  destruct (Sql.select_user_by_email _ db) as [u|]; [|reflexivity].
  destruct (chk _ _); reflexivity.
Qed.

Lemma dashboard_keeps_db (db : DB) (s : Session) :
  store (snd (dashboard (enter db s))) = db.
Proof.
  unfold dashboard. unfold_ops. simpl.
  destruct (logged_in s) as [[]|]; try reflexivity. simpl.
  destruct (user_name s); reflexivity.
Qed.

Lemma manage_apartments_keeps_db (db : DB) (s : Session) :
  store (snd (manage_apartments (enter db s))) = db.
Proof.
  unfold manage_apartments. unfold_ops. simpl.
  destruct (logged_in s) as [[]|]; reflexivity.
Qed.

Lemma manage_tenants_keeps_db (db : DB) (s : Session) :
  store (snd (manage_tenants (enter db s))) = db.
Proof.
  unfold manage_tenants. unfold_ops. simpl.
  destruct (logged_in s) as [[]|]; reflexivity.
Qed.

Lemma serve_commits gen chk (r : route) (rq : Request) (s : Session) (db : DB) :
  serve gen chk r rq s db = db \/ commits r db (serve gen chk r rq s db).
Proof.
  unfold serve. destruct r; simpl.
  - left. reflexivity.
  - apply register_writes.
  - left. apply login_keeps_db.
  - left. reflexivity.
  - left. apply dashboard_keeps_db.
  - apply add_apartment_writes.
  - left. apply manage_apartments_keeps_db.
  - apply edit_apartment_writes.
  - apply delete_apartment_writes.
  - apply add_tenant_writes.
  - left. apply manage_tenants_keeps_db.
  - apply edit_tenant_writes.
  - apply delete_tenant_writes.
Qed.

Lemma commits_mutation (r : route) (db db' : DB) : commits r db db' -> mutation db db'.
Proof.
  destruct 1 as
    [f e p h db db' Hf He Hp E | n l b ba r db db' Hok E | n l b ba r id db db' Hok E
    | id db db' E | f p e o ls db db' Hf Hp Hl E | f p e o ls id db db' Hf Hp Hl E
    | id db db' E].
  - eapply mut_register; [..|exact E]; assumption.
  - eapply mut_add_apartment; [|exact E]; assumption.
  - eapply mut_edit_apartment; [|exact E]; assumption.
  - eapply mut_delete_apartment; exact E.
  - eapply mut_add_tenant; [..|exact E]; assumption.
  - eapply mut_edit_tenant; [..|exact E]; assumption.
  - eapply mut_delete_tenant; exact E.
Qed.

Lemma serve_writes gen chk (r : route) (rq : Request) (s : Session) (db : DB) :
  writes db (serve gen chk r rq s db).
Proof.
  destruct (serve_commits gen chk r rq s db) as [H|H]; [now left | right].
  eapply commits_mutation, H.
Qed.

(* ================================================================== *)
(** * Invariants of the reachable databases *)

Section Invariant.

Variable P : DB -> Prop.
Hypothesis P_mutation : forall db db', P db -> mutation db db' -> P db'.

Lemma writes_invariant (db db' : DB) : P db -> writes db db' -> P db'.
Proof. intros H [->|Hm]; eauto. Qed.

Lemma init_db_invariant (db : DB) (s : Session) :
  P db -> P (store (snd (init_db (enter db s)))).
Proof.
  intros H. unfold init_db. unfold_ops. simpl.
  destruct (Sql.count_apartments db =? 0); simpl; [|exact H].
  destruct (Sql.insert_apartment "Goro Deluxe Apt" _ _ _ _ db) as [e|d1] eqn:E1; simpl;
    [exact H|].
  destruct (Sql.insert_apartment "Kazanchis Studio" _ _ _ _ d1) as [e|d2] eqn:E2; simpl;
    [exact H|].
  destruct (Sql.insert_apartment "Bole Road Family Home" _ _ _ _ d2) as [e|d3] eqn:E3;
    simpl; [exact H|].
  destruct (Sql.insert_tenant _ _ _ _ _ d3) as [e|d4] eqn:E4; simpl; [exact H|].
  assert (H1 : P d1)
    by (apply (P_mutation db); [exact H|]; eapply mut_add_apartment; [|exact E1];
        repeat split; reflexivity).
  assert (H2 : P d2)
    by (apply (P_mutation d1); [exact H1|]; eapply mut_add_apartment; [|exact E2];
        repeat split; reflexivity).
  assert (H3 : P d3)
    by (apply (P_mutation d2); [exact H2|]; eapply mut_add_apartment; [|exact E3];
        repeat split; reflexivity).
  apply (P_mutation d3); [exact H3|].
  eapply mut_add_tenant; [..|exact E4]; discriminate.
Qed.

Lemma reachable_invariant gen chk (db : DB) :
  P empty_db -> reachable gen chk db -> P db.
Proof.
  intros H0. induction 1 as [|db Hr IH|db r rq s Hr IH].
  - now apply init_db_invariant.
  - now apply init_db_invariant.
  - eapply writes_invariant; [exact IH | apply serve_writes].
Qed.

End Invariant.

Transparent Sql.insert_user Sql.insert_apartment Sql.update_apartment
  Sql.delete_apartment Sql.insert_tenant Sql.update_tenant Sql.delete_tenant.

Section Keys.

Context {A : Type} (key : A -> Z).

Lemma keys_ok_insert (rows : list A) (seq : Z) (x : A) :
  keys_ok key rows seq -> key x = seq + 1 -> keys_ok key (rows ++ [x]) (seq + 1).
Proof.
  intros [Hnd Hle] Hx. split.
  - rewrite map_app. simpl. apply NoDup_app.
    + exact Hnd.
    + repeat constructor. intros [].
    + intros k Hk [<-|[]]. apply in_map_iff in Hk.
      destruct Hk as (r & Hr & Hin). specialize (Hle r Hin). lia.
  - intros r Hr. apply in_app_or in Hr. destruct Hr as [Hr|[<-|[]]].
    + specialize (Hle r Hr). lia.
    + lia.
Qed.

Lemma keys_ok_map (f : A -> A) (rows : list A) (seq : Z) :
  (forall r, key (f r) = key r) -> keys_ok key rows seq -> keys_ok key (map f rows) seq.
Proof.
  intros Hf [Hnd Hle]. split.
  - rewrite map_map. rewrite (map_ext _ key Hf). exact Hnd.
  - intros r Hr. apply in_map_iff in Hr. destruct Hr as (r0 & <- & Hin).
    rewrite Hf. auto.
Qed.

Lemma NoDup_map_filter (p : A -> bool) (rows : list A) :
  NoDup (map key rows) -> NoDup (map key (filter p rows)).
Proof.
  induction rows as [|r rows IH]; simpl; intros H; [exact H|].
  inversion H as [|? ? Hnot Hnd]; subst.
  destruct (p r); simpl; [|auto]. constructor; [|auto].
  intros Hin. apply Hnot. apply in_map_iff in Hin.
  destruct Hin as (x & Hx & Hf). apply filter_In in Hf.
  apply in_map_iff. exists x. tauto.
Qed.

Lemma keys_ok_filter (p : A -> bool) (rows : list A) (seq : Z) :
  keys_ok key rows seq -> keys_ok key (filter p rows) seq.
Proof.
  intros [Hnd Hle]. split; [now apply NoDup_map_filter|].
  intros r Hr. apply filter_In in Hr. now apply Hle.
Qed.

End Keys.

Lemma mutation_primary_keys (db db' : DB) :
  primary_keys db -> mutation db db' -> primary_keys db'.
Proof.
  intros (Hu & Ha & Ht) Hm. destruct Hm as
    [f e p h db db' _ _ _ E | n l b ba r db db' _ E | n l b ba r id db db' _ E
    | id db db' E | f p e o ls db db' _ _ _ E | f p e o ls id db db' _ _ _ E
    | id db db' E].
  - unfold Sql.insert_user in E. destruct (existsb _ _); [discriminate|].
    injection E as <-. split; [|split]; simpl; try assumption.
    now apply (keys_ok_insert u_id).
  - unfold Sql.insert_apartment in E.
    destruct (Sql.bind_int b), (Sql.bind_int ba); try discriminate.
    injection E as <-. split; [|split]; simpl; try assumption.
    now apply (keys_ok_insert a_id).
  - unfold Sql.update_apartment in E.
    destruct (Sql.bind_int b), (Sql.bind_int ba), (Sql.bind_int id); try discriminate.
    injection E as <-. split; [|split]; simpl; try assumption.
    apply (keys_ok_map a_id); [|assumption].
    intros x. now destruct (a_id x =? id).
  - unfold Sql.delete_apartment in E. destruct (Sql.bind_int id); [discriminate|].
    injection E as <-. split; [|split]; simpl; try assumption.
    + now apply (keys_ok_filter a_id).
    + destruct (existsb _ _); [|assumption].
      apply (keys_ok_map t_id); [|assumption].
      intros t. unfold Sql.set_null. now destruct (Sql.id_is _ _).
  - unfold Sql.insert_tenant in E. destruct (Sql.bind_opt_int o); [discriminate|].
    destruct (Sql.fk_ok o db); [|discriminate].
    injection E as <-. split; [|split]; simpl; try assumption.
    now apply (keys_ok_insert t_id).
  - unfold Sql.update_tenant in E.
    destruct (Sql.bind_opt_int o), (Sql.bind_int id); try discriminate.
    destruct (_ || _); [|discriminate].
    injection E as <-. split; [|split]; simpl; try assumption.
    apply (keys_ok_map t_id); [|assumption].
    intros x. now destruct (t_id x =? id).
  - unfold Sql.delete_tenant in E. destruct (Sql.bind_int id); [discriminate|].
    injection E as <-. split; [|split]; simpl; try assumption.
    now apply (keys_ok_filter t_id).
Qed.

Lemma empty_primary_keys : primary_keys empty_db.
Proof.
  split; [|split]; (split; [constructor | intros r []]).
Qed.

(** X1.  In every reachable database the ids of each table are pairwise
    distinct and none exceeds the table's AUTOINCREMENT sequence, so the next
    row gets an id no row ever had. *)
Theorem reachable_primary_keys gen chk (db : DB) :
  reachable gen chk db -> primary_keys db.
Proof.
  apply (reachable_invariant primary_keys mutation_primary_keys).
  exact empty_primary_keys.
Qed.

Lemma mutation_emails_unique (db db' : DB) :
  emails_unique db -> mutation db db' -> emails_unique db'.
Proof.
  unfold emails_unique. intros H Hm. destruct Hm as
    [f e p h db db' _ _ _ E | n l b ba r db db' _ E | n l b ba r id db db' _ E
    | id db db' E | f p e o ls db db' _ _ _ E | f p e o ls id db db' _ _ _ E
    | id db db' E].
  - unfold Sql.insert_user in E. destruct (existsb _ _) eqn:Ex; [discriminate|].
    injection E as <-. simpl. rewrite map_app. simpl.
    apply NoDup_app; [exact H | repeat constructor; intros [] |].
    intros x Hx [<-|[]]. apply in_map_iff in Hx. destruct Hx as (u & Hu & Hin).
    assert (existsb (fun u => String.eqb (u_email u) e) (users db) = true)
      by (apply existsb_email; eauto).
    congruence.
  - unfold Sql.insert_apartment in E.
    destruct (Sql.bind_int b), (Sql.bind_int ba); try discriminate.
    now injection E as <-.
  - unfold Sql.update_apartment in E.
    destruct (Sql.bind_int b), (Sql.bind_int ba), (Sql.bind_int id); try discriminate.
    now injection E as <-.
  - unfold Sql.delete_apartment in E. destruct (Sql.bind_int id); [discriminate|].
    now injection E as <-.
  - unfold Sql.insert_tenant in E. destruct (Sql.bind_opt_int o); [discriminate|].
    destruct (Sql.fk_ok o db); [|discriminate]. now injection E as <-.
  - unfold Sql.update_tenant in E.
    destruct (Sql.bind_opt_int o), (Sql.bind_int id); try discriminate.
    destruct (_ || _); [|discriminate]. now injection E as <-.
  - unfold Sql.delete_tenant in E. destruct (Sql.bind_int id); [discriminate|].
    now injection E as <-.
Qed.

(** X2.  In every reachable database no two users share an email, so the
    lookup by email that login does has at most one candidate. *)
Theorem reachable_emails_unique gen chk (db : DB) :
  reachable gen chk db -> emails_unique db.
Proof.
  apply (reachable_invariant emails_unique mutation_emails_unique). constructor.
Qed.

Lemma numbers_ok_stored (n l : string) (id b ba : Z) (r : Py.float) :
  numbers_ok b ba r -> apartment_positive (mkApartment id n b ba l (Sql.bind_float r)).
Proof.
  intros (Hb & Ha & Hr). repeat split; simpl; try assumption.
  destruct r as [|x]; simpl; [exact I | exact Hr].
Qed.

Lemma mutation_apartments_positive (db db' : DB) :
  Forall apartment_positive (apartments db) -> mutation db db' ->
  Forall apartment_positive (apartments db').
Proof.
  intros H Hm. destruct Hm as
    [f e p h db db' _ _ _ E | n l b ba r db db' Hok E | n l b ba r id db db' Hok E
    | id db db' E | f p e o ls db db' _ _ _ E | f p e o ls id db db' _ _ _ E
    | id db db' E].
  - unfold Sql.insert_user in E. destruct (existsb _ _); [discriminate|].
    now injection E as <-.
  - unfold Sql.insert_apartment in E.
    destruct (Sql.bind_int b), (Sql.bind_int ba); try discriminate.
    injection E as <-. simpl. apply Forall_app. split; [exact H|].
    constructor; [now apply numbers_ok_stored | constructor].
  - unfold Sql.update_apartment in E.
    destruct (Sql.bind_int b), (Sql.bind_int ba), (Sql.bind_int id); try discriminate.
    injection E as <-. simpl. rewrite Forall_forall in *. intros x Hx.
    apply in_map_iff in Hx. destruct Hx as (a & <- & Ha).
    destruct (a_id a =? id); [now apply numbers_ok_stored | auto].
  - unfold Sql.delete_apartment in E. destruct (Sql.bind_int id); [discriminate|].
    injection E as <-. simpl. rewrite Forall_forall in *. intros x Hx.
    apply filter_In in Hx. now apply H.
  - unfold Sql.insert_tenant in E. destruct (Sql.bind_opt_int o); [discriminate|].
    destruct (Sql.fk_ok o db); [|discriminate]. now injection E as <-.
  - unfold Sql.update_tenant in E.
    destruct (Sql.bind_opt_int o), (Sql.bind_int id); try discriminate.
    destruct (_ || _); [|discriminate]. now injection E as <-.
  - unfold Sql.delete_tenant in E. destruct (Sql.bind_int id); [discriminate|].
    now injection E as <-.
Qed.

(** X3.  In every reachable database each apartment has a positive number of
    bedrooms and of bathrooms, and a rent that is NULL (a submitted NaN) or
    greater than zero: the checks of the two forms are all that ever writes
    these columns. *)
Theorem reachable_apartments_positive gen chk (db : DB) :
  reachable gen chk db -> Forall apartment_positive (apartments db).
Proof.
  apply (reachable_invariant (fun db => Forall apartment_positive (apartments db))
           mutation_apartments_positive).
  constructor.
Qed.

(** The NULL rent is really reachable: [float('nan')] passes the check. *)
Example nan_rent_is_stored :
  apartments (store (snd (add_apartment
    (mkRequest POST
       [("name", "Piassa Flat"); ("location", "Piassa"); ("bedrooms", "1");
        ("bathrooms", "1"); ("rent", "nan")] "")
    (enter empty_db manager)))) =
  [mkApartment 1 "Piassa Flat" 1 1 "Piassa" None].
Proof. vm_compute. reflexivity. Qed.

Lemma mutation_required_filled (db db' : DB) :
  required_filled db -> mutation db db' -> required_filled db'.
Proof.
  intros [Hu Ht] Hm. destruct Hm as
    [f e p h db db' Hf He Hp E | n l b ba r db db' _ E | n l b ba r id db db' _ E
    | id db db' E | f p e o ls db db' Hf Hp Hl E | f p e o ls id db db' Hf Hp Hl E
    | id db db' E].
  - unfold Sql.insert_user in E. destruct (existsb _ _); [discriminate|].
    injection E as <-. split; simpl; [|exact Ht].
    apply Forall_app. split; [exact Hu|]. repeat constructor; assumption.
  - unfold Sql.insert_apartment in E.
    destruct (Sql.bind_int b), (Sql.bind_int ba); try discriminate.
    injection E as <-. now split.
  - unfold Sql.update_apartment in E.
    destruct (Sql.bind_int b), (Sql.bind_int ba), (Sql.bind_int id); try discriminate.
    injection E as <-. now split.
  - unfold Sql.delete_apartment in E. destruct (Sql.bind_int id); [discriminate|].
    injection E as <-. split; simpl; [exact Hu|].
    destruct (existsb _ _); [|exact Ht].
    rewrite Forall_forall in *. intros x Hx.
    apply in_map_iff in Hx. destruct Hx as (t & <- & Hin).
    specialize (Ht t Hin). unfold Sql.set_null.
    destruct (Sql.id_is _ _); [exact Ht | exact Ht].
  - unfold Sql.insert_tenant in E. destruct (Sql.bind_opt_int o); [discriminate|].
    destruct (Sql.fk_ok o db); [|discriminate].
    injection E as <-. split; simpl; [exact Hu|].
    apply Forall_app. split; [exact Ht|]. repeat constructor; assumption.
  - unfold Sql.update_tenant in E.
    destruct (Sql.bind_opt_int o), (Sql.bind_int id); try discriminate.
    destruct (_ || _); [|discriminate].
    injection E as <-. split; simpl; [exact Hu|].
    rewrite Forall_forall in *. intros x Hx.
    apply in_map_iff in Hx. destruct Hx as (t & <- & Hin).
    destruct (t_id t =? id); [repeat split; assumption | auto].
  - unfold Sql.delete_tenant in E. destruct (Sql.bind_int id); [discriminate|].
    injection E as <-. split; simpl; [exact Hu|].
    rewrite Forall_forall in *. intros x Hx. apply filter_In in Hx. now apply Ht.
Qed.

(** X4.  In every reachable database each user has a non-empty name, email and
    phone, and each tenant a non-empty name, phone and lease start. *)
Theorem reachable_required_filled gen chk (db : DB) :
  reachable gen chk db -> required_filled db.
Proof.
  apply (reachable_invariant required_filled mutation_required_filled).
  split; constructor.
Qed.

(* ================================================================== *)
(** * What each route may touch *)

(** X5.  Serving a request leaves the database as it was or commits one write,
    the one of its route, with the values its validation let through. *)
Theorem request_commits_own_write gen chk (r : route) (rq : Request) (s : Session)
    (db : DB) :
  serve gen chk r rq s db = db \/ commits r db (serve gen chk r rq s db).
Proof. apply serve_commits. Qed.

Lemma commits_frames (r : route) (db db' : DB) :
  commits r db db' ->
  (writes_users r = false -> users db' = users db /\ users_seq db' = users_seq db) /\
  (writes_apartments r = false ->
     apartments db' = apartments db /\ apartments_seq db' = apartments_seq db) /\
  (writes_tenants r = false ->
     tenants db' = tenants db /\ tenants_seq db' = tenants_seq db).
Proof.
  destruct 1 as
    [f e p h db db' _ _ _ E | n l b ba r db db' _ E | n l b ba r id db db' _ E
    | id db db' E | f p e o ls db db' _ _ _ E | f p e o ls id db db' _ _ _ E
    | id db db' E]; simpl.
  - unfold Sql.insert_user in E. destruct (existsb _ _); [discriminate|].
    injection E as <-. repeat split; discriminate || reflexivity.
  - unfold Sql.insert_apartment in E.
    destruct (Sql.bind_int b), (Sql.bind_int ba); try discriminate.
    injection E as <-. repeat split; discriminate || reflexivity.
  - unfold Sql.update_apartment in E.
    destruct (Sql.bind_int b), (Sql.bind_int ba), (Sql.bind_int id); try discriminate.
    injection E as <-. repeat split; discriminate || reflexivity.
  - unfold Sql.delete_apartment in E. destruct (Sql.bind_int id); [discriminate|].
    injection E as <-. repeat split; discriminate || reflexivity.
  - unfold Sql.insert_tenant in E. destruct (Sql.bind_opt_int o); [discriminate|].
    destruct (Sql.fk_ok o db); [|discriminate].
    injection E as <-. repeat split; discriminate || reflexivity.
  - unfold Sql.update_tenant in E.
    destruct (Sql.bind_opt_int o), (Sql.bind_int id); try discriminate.
    destruct (_ || _); [|discriminate].
    injection E as <-. repeat split; discriminate || reflexivity.
  - unfold Sql.delete_tenant in E. destruct (Sql.bind_int id); [discriminate|].
    injection E as <-. repeat split; discriminate || reflexivity.
Qed.

(** X6.  Only [/register] changes the users table; only the three apartment
    routes change the apartments table; only the three tenant routes and
    the deletion of an apartment change the tenants table. *)
Theorem routes_touch_own_tables gen chk (r : route) (rq : Request) (s : Session)
    (db : DB) :
  (writes_users r = true \/ users (serve gen chk r rq s db) = users db) /\
  (writes_apartments r = true \/
   apartments (serve gen chk r rq s db) = apartments db) /\
  (writes_tenants r = true \/ tenants (serve gen chk r rq s db) = tenants db).
Proof.
  destruct (serve_commits gen chk r rq s db) as [->|H].
  - repeat split; now right.
  - apply commits_frames in H. destruct H as (Hu & Ha & Ht).
    repeat split.
    + destruct (writes_users r); [now left | right; now apply Hu].
    + destruct (writes_apartments r); [now left | right; now apply Ha].
    + destruct (writes_tenants r); [now left | right; now apply Ht].
Qed.

Lemma protected_routes_need_login_aux gen chk (r : route) (rq : Request) (db : DB)
    (s : Session) :
  protected r = true ->
  logged_in s <> Some true ->
  dispatch gen chk r rq (enter db s) =
    (Val (Redirect ep_home),
     mkWorld db NoConn [(Text "You must be logged in to view this page.", "error")] s).
Proof.
  intros Hp Hs.
  assert (Hguard : forall f : M response,
             login_required f (enter db s) =
             (Val (Redirect ep_home),
              mkWorld db NoConn
                [(Text "You must be logged in to view this page.", "error")] s)).
  { intros f. unfold login_required, bind, get_session, enter. simpl.
    destruct (logged_in s) as [[]|]; [congruence | reflexivity | reflexivity]. }
  destruct r; try discriminate; simpl; apply Hguard.
Qed.

(** X7.  The handlers behind [@login_required] do nothing for a visitor who is
    not logged in: they flash the login message, redirect to the home page,
    open no connection and leave database and session as they were. *)
Theorem protected_routes_need_login gen chk (r : route) (rq : Request) (db : DB)
    (s : Session) :
  protected r = true ->
  logged_in s <> Some true ->
  dispatch gen chk r rq (enter db s) =
    (Val (Redirect ep_home),
     mkWorld db NoConn [(Text "You must be logged in to view this page.", "error")] s).
Proof. apply protected_routes_need_login_aux. Qed.

Lemma commits_read_only (r : route) (db db' : DB) :
  read_only r = true -> commits r db db' -> False.
Proof. intros H Hc. destruct Hc; discriminate. Qed.

Lemma get_form_keeps_db gen chk (r : route) (rq : Request) (s : Session) (db : DB) :
  form_route r = true -> method rq = GET -> serve gen chk r rq s db = db.
Proof.
  intros Hr Hget. unfold serve.
  destruct r; try discriminate; simpl;
    unfold add_apartment, edit_apartment, add_tenant, edit_tenant;
    unfold_ops; simpl; destruct (logged_in s) as [[]|]; simpl; try reflexivity;
    rewrite ?Hget; try reflexivity.
  - destruct (Sql.bind_int id); simpl; [reflexivity|].
    destruct (Sql.select_apartment_with_tenant id db); simpl; reflexivity.
  - destruct (Sql.bind_int id); simpl; [reflexivity|].
    destruct (Sql.select_tenant id db); simpl; reflexivity.
Qed.

(** X8.  The listing pages, the dashboard, login and logout never change the
    database, whatever is submitted; and neither does a GET of one of the
    four form pages. *)
Theorem reading_requests_keep_db gen chk (r : route) (rq : Request) (s : Session)
    (db : DB) :
  read_only r = true \/ (form_route r = true /\ method rq = GET) ->
  serve gen chk r rq s db = db.
Proof.
  intros [Hr|[Hr Hget]].
  - destruct (serve_commits gen chk r rq s db) as [H|H]; [exact H|].
    destruct (commits_read_only r _ _ Hr H).
  - now apply get_form_keeps_db.
Qed.

(* ================================================================== *)
(** * Sessions *)

Lemma ks_ret {A} (a : A) : keeps_session (ret a).
Proof. intros w. reflexivity. Qed.

Lemma ks_raise {A} (e : exn) : keeps_session (@raise A e).
Proof. intros w. reflexivity. Qed.

Lemma ks_bind {A B} (m : M A) (k : A -> M B) :
  keeps_session m -> (forall a, keeps_session (k a)) -> keeps_session (bind m k).
Proof.
  intros Hm Hk w. unfold bind. specialize (Hm w).
  destruct (m w) as [[a|e] w']; simpl in *; [|exact Hm].
  rewrite Hk. exact Hm.
Qed.

Lemma ks_try_except {A} (body : M A) cls (handler : exn -> M A) :
  keeps_session body -> (forall e, keeps_session (handler e)) ->
  keeps_session (try_except body cls handler).
Proof.
  intros Hb Hh w. unfold try_except. specialize (Hb w).
  destruct (body w) as [[a|e] w']; simpl in *; [exact Hb|].
  destruct (cls e); [|exact Hb]. rewrite Hh. exact Hb.
Qed.

Lemma ks_finally {A} (body : M A) (fin : M unit) :
  keeps_session body -> keeps_session fin -> keeps_session (finally body fin).
Proof.
  intros Hb Hf w. unfold finally. specialize (Hb w).
  destruct (body w) as [r w']. simpl in Hb. specialize (Hf w').
  destruct (fin w') as [[u|e] w'']; simpl in *; congruence.
Qed.

Lemma ks_flash m c : keeps_session (flash m c).
Proof. intros w. reflexivity. Qed.

Lemma ks_get_session : keeps_session get_session.
Proof. intros w. reflexivity. Qed.

Lemma ks_get_db_connection : keeps_session get_db_connection.
Proof. intros w. reflexivity. Qed.

Lemma ks_query {A} (q : DB -> A) : keeps_session (query q).
Proof. intros w. unfold query. now destruct (conn w). Qed.

Lemma ks_query_by_id {A} id (q : Z -> DB -> A) : keeps_session (query_by_id id q).
Proof.
  intros w. unfold query_by_id. destruct (conn w); try reflexivity.
  now destruct (Sql.bind_int id).
Qed.

Lemma ks_execute stmt : keeps_session (execute stmt).
Proof.
  intros w. unfold execute. destruct (conn w) as [|tx|]; try reflexivity.
  now destruct (stmt tx).
Qed.

Lemma ks_commit : keeps_session commit.
Proof. intros w. unfold commit. now destruct (conn w). Qed.

Lemma ks_close : keeps_session close.
Proof. intros w. reflexivity. Qed.

Lemma ks_form_item f k : keeps_session (form_item f k).
Proof. unfold form_item. destruct (form_get f k); [apply ks_ret | apply ks_raise]. Qed.

Lemma ks_py_int s : keeps_session (py_int s).
Proof. unfold py_int. destruct (int_of_str s); [apply ks_ret | apply ks_raise]. Qed.

Lemma ks_py_float s : keeps_session (py_float s).
Proof. unfold py_float. destruct (float_of_str s); [apply ks_ret | apply ks_raise]. Qed.

Create HintDb session.
#[local] Hint Resolve ks_ret ks_raise ks_flash ks_get_session ks_get_db_connection
  ks_query ks_query_by_id ks_execute ks_commit ks_close ks_form_item ks_py_int
  ks_py_float : session.

Ltac keep_session :=
  repeat first
    [ progress intros
    | apply ks_bind
    | apply ks_try_except
    | apply ks_finally
    | solve [auto with session]
    | match goal with
      | |- keeps_session (if ?b then _ else _) => destruct b
      | |- keeps_session (match ?x with _ => _ end) => destruct x
      | |- keeps_session (let '_ := ?x in _) => destruct x
      end ].

(** X9.  Only login and logout write the session: every other route returns
    it as it came, on every path, exceptions included. *)
Theorem session_changed_only_by_login_logout gen chk (r : route) (rq : Request)
    (db : DB) (s : Session) :
  r <> r_login -> r <> r_logout ->
  session (snd (dispatch gen chk r rq (enter db s))) = s.
Proof.
  intros Hin Hout.
  enough (H : keeps_session (dispatch gen chk r rq)) by apply (H (enter db s)).
  destruct r; try congruence; simpl;
    unfold home, register, dashboard, add_apartment, manage_apartments,
      edit_apartment, delete_apartment, add_tenant, manage_tenants, edit_tenant,
      delete_tenant, login_required, apartment_numbers;
    keep_session.
Qed.

Lemma login_run chk (rq : Request) (db : DB) (s : Session) (u : User)
    (email password : string) :
  form_get (form rq) "loginEmail" = Some email ->
  form_get (form rq) "loginPassword" = Some password ->
  email <> "" -> password <> "" ->
  Sql.select_user_by_email email db = Some u ->
  chk (u_password u) password = true ->
  login chk rq (enter db s) =
    (Val (Redirect ep_dashboard),
     mkWorld db Closed [(Text ("Welcome back, " ++ u_fullName u ++ "!"), "success")]
       (mkSession (Some true) (Some (u_id u)) (Some (u_fullName u)))).
Proof.
  intros He Hp Ne Np Hu Hc. unfold login. rewrite He, Hp.
  apply truthy_some in Ne, Np. rewrite Ne, Np. simpl negb. simpl orb. cbv iota.
  unfold_ops. simpl. rewrite Hu, Hc. reflexivity.
Qed.

(** A login with the email of a stored user and a password his stored hash
    accepts puts his id and name in the session, marks it logged in, greets
    him and redirects to the dashboard; the database is not written. *)
Theorem login_success chk (rq : Request) (db : DB) (s : Session) (u : User)
    (email password : string) :
  form_get (form rq) "loginEmail" = Some email ->
  form_get (form rq) "loginPassword" = Some password ->
  email <> "" -> password <> "" ->
  Sql.select_user_by_email email db = Some u ->
  chk (u_password u) password = true ->
  login chk rq (enter db s) =
    (Val (Redirect ep_dashboard),
     mkWorld db Closed [(Text ("Welcome back, " ++ u_fullName u ++ "!"), "success")]
       (mkSession (Some true) (Some (u_id u)) (Some (u_fullName u)))).
Proof. apply login_run. Qed.

Lemma find_app_fresh {A} (p : A -> bool) (l : list A) (x : A) :
  (forall y, In y l -> p y = false) -> p x = true -> find p (l ++ [x]) = Some x.
Proof.
  induction l as [|y l IH]; simpl; intros Hl Hx.
  - now rewrite Hx.
  - rewrite (Hl y) by now left. apply IH; auto.
Qed.

Lemma existsb_email_false (db : DB) (email : string) :
  (forall u, In u (users db) -> u_email u <> email) ->
  existsb (fun u => String.eqb (u_email u) email) (users db) = false.
Proof.
  intros H. apply not_true_is_false. intros E. apply existsb_email in E.
  destruct E as (u & Hu & E). exact (H u Hu E).
Qed.

Lemma register_run gen (rq : Request) (db : DB) (s : Session)
    (fullName email phone password : string) :
  form_get (form rq) "fullName" = Some fullName ->
  form_get (form rq) "email" = Some email ->
  form_get (form rq) "phone" = Some phone ->
  form_get (form rq) "password" = Some password ->
  fullName <> "" -> email <> "" -> phone <> "" -> password <> "" ->
  (forall u, In u (users db) -> u_email u <> email) ->
  register gen rq (enter db s) =
    (Val (Redirect ep_home),
     mkWorld
       (mkDB (users db ++
                [mkUser (users_seq db + 1) fullName email phone
                        (gen (entropy rq) password)])
             (users_seq db + 1) (apartments db) (apartments_seq db)
             (tenants db) (tenants_seq db))
       Closed [(Text "Registration successful! Please log in.", "success")] s).
Proof.
  intros Hf He Hp Hw Nf Ne Np Nw Hfresh.
  unfold register, form_item, bind, enter. rewrite Hf, He, Hp, Hw. simpl.
  apply truthy_some in Nf, Ne, Np, Nw. simpl in Nf, Ne, Np, Nw.
  rewrite Nf, Ne, Np, Nw. simpl.
  unfold finally, try_except, bind, execute, commit, get_db_connection, Sql.insert_user.
  simpl. rewrite (existsb_email_false db email Hfresh). reflexivity.
Qed.

(** X11.  A registration with four non-empty fields and an email no stored user
    has adds one user, with the next id and the hash of the password (never
    the password itself unless the hash function returns it), answers with
    the success message and touches neither apartments nor tenants. *)
Theorem register_adds_user gen (rq : Request) (db : DB) (s : Session)
    (fullName email phone password : string) :
  form_get (form rq) "fullName" = Some fullName ->
  form_get (form rq) "email" = Some email ->
  form_get (form rq) "phone" = Some phone ->
  form_get (form rq) "password" = Some password ->
  fullName <> "" -> email <> "" -> phone <> "" -> password <> "" ->
  (forall u, In u (users db) -> u_email u <> email) ->
  exists db',
    register gen rq (enter db s) =
      (Val (Redirect ep_home),
       mkWorld db' Closed [(Text "Registration successful! Please log in.", "success")]
         s) /\
    users db' = (users db ++
      [mkUser (users_seq db + 1) fullName email phone (gen (entropy rq) password)])%list /\
    apartments db' = apartments db /\ tenants db' = tenants db.
Proof.
  intros Hf He Hp Hw Nf Ne Np Nw Hfresh.
  eexists. split; [now apply (register_run gen rq db s fullName email phone password)|].
  repeat split.
Qed.

(** X12.  Register, then log in: when the check function accepts the hash that
    was stored, the account just registered can log in with the same email
    and password, and the session gets its new id and name. *)
Theorem register_then_login gen chk (rq rq' : Request) (db : DB) (s s' : Session)
    (fullName email phone password : string) :
  chk (gen (entropy rq) password) password = true ->
  form_get (form rq) "fullName" = Some fullName ->
  form_get (form rq) "email" = Some email ->
  form_get (form rq) "phone" = Some phone ->
  form_get (form rq) "password" = Some password ->
  fullName <> "" -> email <> "" -> phone <> "" -> password <> "" ->
  (forall u, In u (users db) -> u_email u <> email) ->
  form_get (form rq') "loginEmail" = Some email ->
  form_get (form rq') "loginPassword" = Some password ->
  let db' := store (snd (register gen rq (enter db s))) in
  login chk rq' (enter db' s') =
    (Val (Redirect ep_dashboard),
     mkWorld db' Closed [(Text ("Welcome back, " ++ fullName ++ "!"), "success")]
       (mkSession (Some true) (Some (users_seq db + 1)) (Some fullName))).
Proof.
  intros Hchk Hf He Hp Hw Nf Ne Np Nw Hfresh Hle Hlp db'. subst db'.
  rewrite (register_run gen rq db s fullName email phone password) by assumption.
  cbn [snd store].
  apply (login_run chk rq' _ s'
           (mkUser (users_seq db + 1) fullName email phone (gen (entropy rq) password))
           email password); try assumption.
  - unfold Sql.select_user_by_email. cbn [users]. apply find_app_fresh.
    + intros u Hu. apply not_true_is_false. intros E. apply String.eqb_eq in E.
      exact (Hfresh u Hu E).
    + apply String.eqb_refl.
Qed.

(** X10.  Logging out empties the session and leaves the database alone; with the
    session it leaves, every protected route only redirects to the home
    page. *)
Theorem logout_ends_access gen chk (r : route) (rq : Request) (db : DB) (s : Session) :
  protected r = true ->
  logout (enter db s) =
    (Val (Redirect ep_home),
     mkWorld db NoConn [(Text "You have been logged out successfully.", "success")]
       empty_session) /\
  fst (dispatch gen chk r rq (enter db (session (snd (logout (enter db s)))))) =
    Val (Redirect ep_home) /\
  store (snd (dispatch gen chk r rq (enter db (session (snd (logout (enter db s))))))) = db.
Proof.
  intros Hp. split; [reflexivity|]. cbn [logout snd session].
  change (session (snd (logout (enter db s)))) with empty_session.
  rewrite (protected_routes_need_login_aux gen chk r rq db empty_session Hp)
    by discriminate.
  split; reflexivity.
Qed.

(* ================================================================== *)
(** * Adding, editing and listing apartments *)

Lemma int_nonempty (sv : string) (n : Z) : int_of_str sv = Some n -> Py.truthy (Some sv) = true.
Proof.
  intros H. apply truthy_some. intros ->. vm_compute in H. discriminate.
Qed.

Lemma float_nonempty (sv : string) (x : Py.float) :
  float_of_str sv = Some x -> Py.truthy (Some sv) = true.
Proof.
  intros H. apply truthy_some. intros ->. vm_compute in H. discriminate.
Qed.

Lemma numbers_ok_test (b a : Z) (r : Py.float) :
  numbers_ok b a r -> (b <=? 0) || (a <=? 0) || Py.float_le0 r = false.
Proof.
  intros (Hb & Ha & Hr). apply Z.leb_gt in Hb, Ha. now rewrite Hb, Ha, Hr.
Qed.

Lemma apartment_numbers_ok (f : Form) (sb sa sr : string) (b a : Z) (r : Py.float)
    (w : world) :
  form_get f "bedrooms" = Some sb -> form_get f "bathrooms" = Some sa ->
  form_get f "rent" = Some sr ->
  int_of_str sb = Some b -> int_of_str sa = Some a -> float_of_str sr = Some r ->
  numbers_ok b a r ->
  apartment_numbers f w = (Val (b, a, r), w).
Proof.
  intros Hb Ha Hr Eb Ea Er Hok.
  unfold apartment_numbers, form_item, bind, py_int, py_float, ret.
  rewrite Hb, Eb, Ha, Ea, Hr, Er, (numbers_ok_test b a r Hok). reflexivity.
Qed.

Lemma add_apartment_run (rq : Request) (db : DB) (s : Session)
    (name location sb sa sr : string) (b a : Z) (r : Py.float) :
  logged_in s = Some true -> method rq = POST ->
  form_get (form rq) "name" = Some name -> name <> "" ->
  form_get (form rq) "location" = Some location -> location <> "" ->
  form_get (form rq) "bedrooms" = Some sb -> form_get (form rq) "bathrooms" = Some sa ->
  form_get (form rq) "rent" = Some sr ->
  int_of_str sb = Some b -> int_of_str sa = Some a -> float_of_str sr = Some r ->
  numbers_ok b a r ->
  Sql.fits_int64 b = true -> Sql.fits_int64 a = true ->
  add_apartment rq (enter db s) =
    (Val (Redirect ep_manage_apartments),
     mkWorld
       (with_apartment db
          (mkApartment (apartments_seq db + 1) name b a location (Sql.bind_float r)))
       Closed [(Text ("Apartment '" ++ name ++ "' added successfully!"), "success")] s).
Proof.
  intros Hin Hpost Hn Nn Hl Nl Hb Ha Hr Eb Ea Er Hok Fb Fa.
  unfold add_apartment, login_required, bind at 1, get_session, enter. simpl.
  rewrite Hin, Hpost, Hn, Hl, Hb, Ha, Hr.
  apply truthy_some in Nn, Nl.
  simpl forallb. rewrite Nn, Nl, (int_nonempty sb b Eb), (int_nonempty sa a Ea),
    (float_nonempty sr r Er). cbn [negb andb].
  unfold try_except, bind at 1 2.
  rewrite (apartment_numbers_ok (form rq) sb sa sr b a r) by assumption.
  unfold_ops. unfold Sql.insert_apartment, Sql.bind_int. rewrite Fb, Fa. reflexivity.
Qed.

Lemma reachable_fresh_apartment gen chk (db : DB) :
  reachable gen chk db ->
  forall t, In t (tenants db) -> t_apartment_id t <> Some (apartments_seq db + 1).
Proof.
  intros Hr t Ht E.
  destruct (reachable_fk_valid gen chk db Hr t _ Ht E) as (a & Ha & Eid).
  destruct (reachable_invariant primary_keys mutation_primary_keys gen chk db
              empty_primary_keys Hr) as (_ & [_ Hle] & _).
  specialize (Hle a Ha). lia.
Qed.

(** X13.  An accepted new apartment (all five fields given, numbers parsed,
    positive and within 64 bits) is stored under the next id, and on any
    reachable database the public listing shows it straight away. *)
Theorem added_apartment_is_listed gen chk (rq : Request) (db : DB) (s s' : Session)
    (name location sb sa sr : string) (b a : Z) (r : Py.float) :
  reachable gen chk db ->
  logged_in s = Some true -> method rq = POST ->
  form_get (form rq) "name" = Some name -> name <> "" ->
  form_get (form rq) "location" = Some location -> location <> "" ->
  form_get (form rq) "bedrooms" = Some sb -> form_get (form rq) "bathrooms" = Some sa ->
  form_get (form rq) "rent" = Some sr ->
  int_of_str sb = Some b -> int_of_str sa = Some a -> float_of_str sr = Some r ->
  numbers_ok b a r ->
  Sql.fits_int64 b = true -> Sql.fits_int64 a = true ->
  let new := mkApartment (apartments_seq db + 1) name b a location (Sql.bind_float r) in
  exists db' listing,
    add_apartment rq (enter db s) =
      (Val (Redirect ep_manage_apartments),
       mkWorld db' Closed
         [(Text ("Apartment '" ++ name ++ "' added successfully!"), "success")] s) /\
    apartments db' = (apartments db ++ [new])%list /\
    fst (home (enter db' s')) = Val (IndexPage listing) /\
    In new listing.
Proof.
  intros Hreach Hin Hpost Hn Nn Hl Nl Hb Ha Hr Eb Ea Er Hok Fb Fa new.
  exists (with_apartment db new), (Sql.select_available_by_rent (with_apartment db new)).
  split; [now apply (add_apartment_run rq db s name location sb sa sr b a r)|].
  split; [reflexivity|]. split; [reflexivity|].
  apply in_select_available_by_rent. split.
  - simpl. apply in_or_app. right. now left.
  - intros t Ht. simpl in Ht. simpl.
    now apply (reachable_fresh_apartment gen chk db Hreach).
Qed.

Lemma select_apartment_with_tenant_none (db : DB) (id : Z) :
  (forall a, In a (apartments db) -> a_id a <> id) ->
  Sql.select_apartment_with_tenant id db = None.
Proof.
  intros H. unfold Sql.select_apartment_with_tenant.
  destruct (filter _ (Sql.apartments_join_tenants db)) as [|[a ot] l] eqn:E;
    [reflexivity|].
  assert (Hin : In (a, ot) (filter (fun r => a_id (fst r) =? id)
                              (Sql.apartments_join_tenants db)))
    by (rewrite E; now left).
  apply filter_In in Hin. destruct Hin as [Hin Hid].
  apply in_left_join in Hin. destruct Hin as [Ha _].
  apply Z.eqb_eq in Hid. destruct (H a Ha Hid).
Qed.

(** X14.  Editing an apartment id that no row has, by GET or by POST: "Apartment
    not found." is flashed, the answer is a redirect to the apartment list,
    nothing is written and the connection is closed. *)
Theorem edit_apartment_not_found (id : Z) (rq : Request) (db : DB) (s : Session) :
  logged_in s = Some true ->
  Sql.fits_int64 id = true ->
  (forall a, In a (apartments db) -> a_id a <> id) ->
  edit_apartment id rq (enter db s) =
    (Val (Redirect ep_manage_apartments),
     mkWorld db Closed [(Text "Apartment not found.", "error")] s).
Proof.
  intros Hin Hfit Habs.
  unfold edit_apartment, login_required, bind, get_session, enter, query_by_id,
    get_db_connection, Sql.bind_int.
  simpl. rewrite Hin. simpl.
  rewrite Hfit, (select_apartment_with_tenant_none db id Habs). reflexivity.
Qed.

(** X15.  An accepted edit of an existing apartment (name and location given,
    numbers parsed, positive and within 64 bits) rewrites that row and no
    other: the ids keep their order, rows with another id are untouched,
    and users and tenants, hence who occupies what, stay as they were. *)
Theorem edit_apartment_updates_in_place (rq : Request) (db : DB) (s : Session)
    (old : Apartment) (name location sb sa sr : string) (b a : Z) (r : Py.float) :
  logged_in s = Some true -> method rq = POST ->
  In old (apartments db) -> Sql.fits_int64 (a_id old) = true ->
  form_get (form rq) "name" = Some name ->
  form_get (form rq) "location" = Some location ->
  form_get (form rq) "bedrooms" = Some sb -> form_get (form rq) "bathrooms" = Some sa ->
  form_get (form rq) "rent" = Some sr ->
  int_of_str sb = Some b -> int_of_str sa = Some a -> float_of_str sr = Some r ->
  numbers_ok b a r ->
  Sql.fits_int64 b = true -> Sql.fits_int64 a = true ->
  let new := mkApartment (a_id old) name b a location (Sql.bind_float r) in
  exists db',
    edit_apartment (a_id old) rq (enter db s) =
      (Val (Redirect ep_manage_apartments),
       mkWorld db' Closed
         [(Text ("Apartment '" ++ name ++ "' updated successfully!"), "success")] s) /\
    map a_id (apartments db') = map a_id (apartments db) /\
    In new (apartments db') /\
    (forall x, In x (apartments db') -> a_id x = a_id old -> x = new) /\
    (forall x, a_id x <> a_id old -> (In x (apartments db') <-> In x (apartments db))) /\
    tenants db' = tenants db /\ users db' = users db.
Proof.
  intros Hin Hpost Hold Hfit Hn Hl Hb Ha Hr Eb Ea Er Hok Fb Fa new.
  destruct (select_apartment_with_tenant_some db old Hold) as (row & Hrow).
  set (upd := fun x : Apartment =>
                if a_id x =? a_id old
                then mkApartment (a_id x) name b a location (Sql.bind_float r)
                else x).
  assert (Hupd : forall x, a_id x = a_id old -> upd x = new).
  { intros x E. unfold upd, new. rewrite E, Z.eqb_refl. reflexivity. }
  assert (Hkeep : forall x, a_id x <> a_id old -> upd x = x).
  { intros x E. unfold upd. apply Z.eqb_neq in E. now rewrite E. }
  exists (mkDB (users db) (users_seq db) (map upd (apartments db)) (apartments_seq db)
            (tenants db) (tenants_seq db)).
  split.
  - unfold edit_apartment, login_required, bind at 1, get_session, enter. simpl.
    rewrite Hin. unfold bind at 1 2, get_db_connection, query_by_id, Sql.bind_int.
    simpl. rewrite Hfit, Hrow, Hpost. unfold form_item, bind at 1. rewrite Hn.
    unfold ret at 1. unfold bind at 1. rewrite Hl. unfold ret at 1.
    unfold try_except, bind at 1 2.
    rewrite (apartment_numbers_ok (form rq) sb sa sr b a r) by assumption.
    unfold_ops. unfold Sql.update_apartment, Sql.bind_int.
    rewrite Fb, Fa, Hfit. reflexivity.
  - cbn [apartments tenants users]. repeat split.
    + rewrite map_map. apply map_ext. intros x.
      destruct (Z.eq_dec (a_id x) (a_id old)) as [E|E].
      * rewrite (Hupd x E). symmetry. exact E.
      * now rewrite (Hkeep x E).
    + apply in_map_iff. exists old. split; [now apply Hupd | exact Hold].
    + intros x Hx E. apply in_map_iff in Hx. destruct Hx as (y & <- & Hy).
      destruct (Z.eq_dec (a_id y) (a_id old)) as [Ey|Ey]; [now apply Hupd|].
      rewrite (Hkeep y Ey) in E. contradiction.
    + intros Hx. apply in_map_iff in Hx. destruct Hx as (y & <- & Hy).
      destruct (Z.eq_dec (a_id y) (a_id old)) as [Ey|Ey].
      * rewrite (Hupd y Ey) in H. simpl in H. contradiction.
      * now rewrite (Hkeep y Ey).
    + intros Hx. apply in_map_iff. exists x. split; [now apply Hkeep | exact Hx].
Qed.

(* ================================================================== *)
(** * Adding, editing and deleting tenants *)

Lemma required_truthy (a b c : string) :
  a <> "" -> b <> "" -> c <> "" ->
  negb (Py.truthy (Some a) && (Py.truthy (Some b) && (Py.truthy (Some c) && true)))
    = false.
Proof.
  intros Ha Hb Hc. apply truthy_some in Ha, Hb, Hc. now rewrite Ha, Hb, Hc.
Qed.

Lemma int_not_sentinel (sv : string) (n : Z) :
  int_of_str sv = Some n ->
  Py.truthy (Some sv) && negb (String.eqb (the (Some sv)) "None") = true.
Proof.
  intros H. rewrite (int_nonempty sv n H). simpl.
  apply negb_true_iff, not_true_is_false. intros E. apply String.eqb_eq in E.
  subst sv. vm_compute in H. discriminate.
Qed.

Lemma fk_ok_true (db : DB) (a : Apartment) :
  In a (apartments db) -> Sql.fk_ok (Some (a_id a)) db = true.
Proof. intros H. simpl. apply existsb_apartment. eauto. Qed.

Lemma fk_ok_false (db : DB) (n : Z) :
  (forall a, In a (apartments db) -> a_id a <> n) -> Sql.fk_ok (Some n) db = false.
Proof.
  intros H. simpl. apply not_true_is_false. intros E.
  apply existsb_apartment in E. destruct E as (a & Ha & E). exact (H a Ha E).
Qed.

(** The database after an accepted [add_tenant]. *)
Lemma add_tenant_run (rq : Request) (db : DB) (s : Session)
    (fullName phone lease_start sap : string) (n : Z) :
  logged_in s = Some true -> method rq = POST ->
  form_get (form rq) "fullName" = Some fullName -> fullName <> "" ->
  form_get (form rq) "phone" = Some phone -> phone <> "" ->
  form_get (form rq) "lease_start" = Some lease_start -> lease_start <> "" ->
  form_get (form rq) "apartment_id" = Some sap ->
  int_of_str sap = Some n -> Sql.fits_int64 n = true ->
  add_tenant rq (enter db s) =
    if Sql.fk_ok (Some n) db then
      (Val (Redirect ep_manage_tenants),
       mkWorld
         (mkDB (users db) (users_seq db) (apartments db) (apartments_seq db)
               (tenants db ++
                  [mkTenant (tenants_seq db + 1) fullName phone
                     (form_get (form rq) "email") (Some n) lease_start])
               (tenants_seq db + 1))
         Closed [(Text ("Tenant '" ++ fullName ++ "' added successfully!"), "success")] s)
    else
      (Val (AddTenantPage (Sql.select_available_by_name db) None),
       mkWorld db Closed
         [(TextExn "An unexpected database error occurred while adding the tenant: "
             IntegrityError, "error")] s).
Proof.
  intros Hin Hpost Hf Nf Hp Np Hl Nl Ha En Fn.
  unfold add_tenant. unfold_ops. simpl. rewrite Hin. simpl.
  rewrite Hpost, Hf, Hp, Hl, Ha. rewrite (required_truthy _ _ _ Nf Np Nl).
  rewrite (int_not_sentinel sap n En). cbn [the]. rewrite En.
  unfold_ops. simpl.
  unfold Sql.insert_tenant, Sql.bind_opt_int, Sql.bind_int, Sql.fk_ok. rewrite Fn.
  destruct (existsb _ (apartments db)); reflexivity.
Qed.

(** X16.  A tenant added with the id of an existing apartment is stored with that
    reference under the next tenant id, and the apartment is gone from the
    public listing from then on. *)
Theorem assigned_apartment_leaves_listing (rq : Request) (db : DB) (s s' : Session)
    (apt : Apartment) (fullName phone lease_start sap : string) :
  logged_in s = Some true -> method rq = POST ->
  form_get (form rq) "fullName" = Some fullName -> fullName <> "" ->
  form_get (form rq) "phone" = Some phone -> phone <> "" ->
  form_get (form rq) "lease_start" = Some lease_start -> lease_start <> "" ->
  form_get (form rq) "apartment_id" = Some sap ->
  int_of_str sap = Some (a_id apt) -> Sql.fits_int64 (a_id apt) = true ->
  In apt (apartments db) ->
  exists db' listing,
    add_tenant rq (enter db s) =
      (Val (Redirect ep_manage_tenants),
       mkWorld db' Closed
         [(Text ("Tenant '" ++ fullName ++ "' added successfully!"), "success")] s) /\
    tenants db' =
      (tenants db ++
         [mkTenant (tenants_seq db + 1) fullName phone (form_get (form rq) "email")
            (Some (a_id apt)) lease_start])%list /\
    apartments db' = apartments db /\
    fst (home (enter db' s')) = Val (IndexPage listing) /\
    forall x, In x listing -> a_id x <> a_id apt.
Proof.
  intros Hin Hpost Hf Nf Hp Np Hl Nl Ha En Fn Hapt.
  do 2 eexists. split.
  - rewrite (add_tenant_run rq db s fullName phone lease_start sap (a_id apt))
      by assumption.
    rewrite (fk_ok_true db apt Hapt). reflexivity.
  - cbn [tenants apartments]. repeat split.
    intros x Hx E. apply in_select_available_by_rent in Hx.
    destruct Hx as [_ Hav]. unfold available in Hav. cbn [tenants] in Hav.
    apply (Hav (mkTenant (tenants_seq db + 1) fullName phone
                  (form_get (form rq) "email") (Some (a_id apt)) lease_start)).
    + apply in_or_app. right. now left.
    + simpl. now rewrite E.
Qed.

(** X17.  A tenant submitted with a numeric apartment id that no apartment has is
    refused by the foreign key: the error is caught and flashed, nothing is
    stored, the connection is closed, and the form comes back without the
    submitted values. *)
Theorem add_tenant_unknown_apartment (rq : Request) (db : DB) (s : Session)
    (fullName phone lease_start sap : string) (n : Z) :
  logged_in s = Some true -> method rq = POST ->
  form_get (form rq) "fullName" = Some fullName -> fullName <> "" ->
  form_get (form rq) "phone" = Some phone -> phone <> "" ->
  form_get (form rq) "lease_start" = Some lease_start -> lease_start <> "" ->
  form_get (form rq) "apartment_id" = Some sap ->
  int_of_str sap = Some n -> Sql.fits_int64 n = true ->
  (forall a, In a (apartments db) -> a_id a <> n) ->
  add_tenant rq (enter db s) =
    (Val (AddTenantPage (Sql.select_available_by_name db) None),
     mkWorld db Closed
       [(TextExn "An unexpected database error occurred while adding the tenant: "
           IntegrityError, "error")] s).
Proof.
  intros Hin Hpost Hf Nf Hp Np Hl Nl Ha En Fn Habs.
  rewrite (add_tenant_run rq db s fullName phone lease_start sap n) by assumption.
  now rewrite (fk_ok_false db n Habs).
Qed.

(** Editing a tenant id that no row has: "Tenant not found." is flashed, the
    answer is a redirect to the tenant list, nothing is written and the
    connection is closed. *)
Theorem edit_tenant_not_found (id : Z) (rq : Request) (db : DB) (s : Session) :
  logged_in s = Some true ->
  Sql.fits_int64 id = true ->
  (forall t, In t (tenants db) -> t_id t <> id) ->
  edit_tenant id rq (enter db s) =
    (Val (Redirect ep_manage_tenants),
     mkWorld db Closed [(Text "Tenant not found.", "error")] s).
Proof.
  intros Hin Hfit Habs.
  unfold edit_tenant, login_required, bind, get_session, enter, query_by_id,
    get_db_connection, Sql.bind_int, Sql.select_tenant.
  simpl. rewrite Hin. simpl. rewrite Hfit, (find_none_id t_id _ _ Habs). reflexivity.
Qed.

Lemma delete_tenant_run (id : Z) (db : DB) (s : Session) (t : Tenant) :
  logged_in s = Some true ->
  Sql.fits_int64 id = true ->
  Sql.select_tenant id db = Some t ->
  delete_tenant id (enter db s) =
    (Val (Redirect ep_manage_tenants),
     mkWorld
       (mkDB (users db) (users_seq db) (apartments db) (apartments_seq db)
             (filter (fun x => negb (t_id x =? id)) (tenants db)) (tenants_seq db))
       Closed
       [(Text ("Tenant '" ++ t_fullName t ++ "' deleted successfully."), "success")] s).
Proof.
  intros Hin Hfit Hsel.
  unfold delete_tenant. unfold_ops. simpl. rewrite Hin. simpl.
  unfold Sql.bind_int. rewrite Hfit, Hsel. simpl.
  unfold Sql.delete_tenant, Sql.bind_int. rewrite Hfit. reflexivity.
Qed.

(** X18.  Deleting an existing tenant removes the rows with that id and nothing
    else; an apartment that only this tenant occupied is back in the public
    listing. *)
Theorem deleted_tenant_frees_apartment (id : Z) (db : DB) (s s' : Session)
    (t : Tenant) (apt : Apartment) :
  logged_in s = Some true ->
  Sql.fits_int64 id = true ->
  Sql.select_tenant id db = Some t ->
  In apt (apartments db) ->
  (forall x, In x (tenants db) -> t_apartment_id x = Some (a_id apt) -> t_id x = id) ->
  exists db' listing,
    delete_tenant id (enter db s) =
      (Val (Redirect ep_manage_tenants),
       mkWorld db' Closed
         [(Text ("Tenant '" ++ t_fullName t ++ "' deleted successfully."), "success")]
         s) /\
    (forall x, In x (tenants db') <-> In x (tenants db) /\ t_id x <> id) /\
    apartments db' = apartments db /\
    fst (home (enter db' s')) = Val (IndexPage listing) /\
    In apt listing.
Proof.
  intros Hin Hfit Hsel Hapt Honly.
  do 2 eexists. split; [now apply (delete_tenant_run id db s t)|].
  cbn [tenants apartments]. split; [|split; [reflexivity|split; [reflexivity|]]].
  - intros x. rewrite filter_In, negb_true_iff, Z.eqb_neq. reflexivity.
  - apply in_select_available_by_rent. split; [exact Hapt|].
    intros x Hx E. cbn [tenants] in Hx. apply filter_In in Hx.
    destruct Hx as [Hx Hid]. apply negb_true_iff, Z.eqb_neq in Hid.
    exact (Hid (Honly x Hx E)).
Qed.

Lemma join_row_exists (db : DB) (a : Apartment) :
  In a (apartments db) -> exists ot, In (a, ot) (Sql.apartments_join_tenants db).
Proof.
  intros Ha. unfold Sql.apartments_join_tenants.
  destruct (filter (fun t => Sql.id_is (t_apartment_id t) (a_id a)) (tenants db))
    as [|t m] eqn:E.
  - exists None. apply in_left_join. split; [assumption|].
    intros t Ht. destruct (Sql.id_is (t_apartment_id t) (a_id a)) eqn:Et; [|reflexivity].
    assert (In t []) by (rewrite <- E; apply filter_In; auto). contradiction.
  - exists (Some t). apply in_left_join. split; [assumption|].
    apply (filter_In (fun t => Sql.id_is (t_apartment_id t) (a_id a))).
    rewrite E. now left.
Qed.

Lemma in_select_available_or_own (db : DB) (own : option Z) (i : Z) (n : string) :
  In (i, n) (Sql.select_available_or_own own db) <->
  exists a, In a (apartments db) /\ a_id a = i /\ a_name a = n /\
            (available db a \/ own = Some (a_id a)).
Proof.
  unfold Sql.select_available_or_own. rewrite in_map_iff. split.
  - intros ([a ot] & [= <- <-] & H). apply in_order_by, filter_In in H.
    destruct H as [Hin Hp]. simpl in Hp. exists a.
    assert (Ha : In a (apartments db)) by (apply in_left_join in Hin; tauto).
    repeat split; try assumption.
    apply orb_true_iff in Hp. destruct Hp as [Hp|Hp].
    + left. apply (in_available_rows db a). exists ot. apply filter_In. now split.
    + right. now apply id_is_true.
  - intros (a & Ha & <- & <- & [Hav|Hown]).
    + destruct (proj2 (in_available_rows db a) (conj Ha Hav)) as (ot & H).
      exists (a, ot). split; [reflexivity|]. apply in_order_by.
      apply filter_In in H. destruct H as [H Hn]. apply filter_In. split; [exact H|].
      now rewrite Hn.
    + destruct (join_row_exists db a Ha) as (ot & H).
      exists (a, ot). split; [reflexivity|]. apply in_order_by, filter_In.
      split; [exact H|]. simpl. apply orb_true_iff. right. now apply id_is_true.
Qed.

(** X19.  The edit page of an existing tenant offers exactly the apartments that
    are available, plus the one the tenant has now; displaying it writes
    nothing and closes the connection. *)
Theorem edit_tenant_page_offers_own_apartment (id : Z) (rq : Request) (db : DB)
    (s : Session) (t : Tenant) :
  logged_in s = Some true ->
  Sql.fits_int64 id = true ->
  Sql.select_tenant id db = Some t ->
  method rq = GET ->
  exists offered,
    edit_tenant id rq (enter db s) =
      (Val (EditTenantPage t offered), mkWorld db Closed [] s) /\
    forall i n,
      In (i, n) offered <->
      exists a, In a (apartments db) /\ a_id a = i /\ a_name a = n /\
                (available db a \/ t_apartment_id t = Some (a_id a)).
Proof.
  intros Hin Hfit Hsel Hget.
  exists (Sql.select_available_or_own (t_apartment_id t) db). split.
  - unfold edit_tenant. unfold_ops. simpl. rewrite Hin. simpl.
    unfold Sql.bind_int. rewrite Hfit, Hsel. simpl. rewrite Hget. reflexivity.
  - intros i n. apply in_select_available_or_own.
Qed.

Lemma no_apartment_test (o : option string) :
  no_apartment o -> Py.truthy o && negb (String.eqb (the o) "None") = false.
Proof. intros [->|[->| ->]]; reflexivity. Qed.

(** X20.  With the [apartment_id] field absent, empty or set to the sentinel
    ['None'], both tenant forms store a NULL reference: the new tenant is
    appended unassigned, and an existing tenant that is edited ends up
    unassigned with the submitted name, phone, email and lease start. *)
Theorem sentinel_stored_as_null (id : Z) (rq : Request) (db : DB) (s : Session)
    (t : Tenant) (fullName phone lease_start : string) :
  logged_in s = Some true -> method rq = POST ->
  form_get (form rq) "fullName" = Some fullName -> fullName <> "" ->
  form_get (form rq) "phone" = Some phone -> phone <> "" ->
  form_get (form rq) "lease_start" = Some lease_start -> lease_start <> "" ->
  no_apartment (form_get (form rq) "apartment_id") ->
  Sql.select_tenant id db = Some t -> Sql.fits_int64 id = true ->
  (exists db',
     add_tenant rq (enter db s) =
       (Val (Redirect ep_manage_tenants),
        mkWorld db' Closed
          [(Text ("Tenant '" ++ fullName ++ "' added successfully!"), "success")] s) /\
     tenants db' =
       (tenants db ++
          [mkTenant (tenants_seq db + 1) fullName phone (form_get (form rq) "email")
             None lease_start])%list) /\
  (exists db',
     edit_tenant id rq (enter db s) =
       (Val (Redirect ep_manage_tenants),
        mkWorld db' Closed
          [(Text ("Tenant '" ++ fullName ++ "' updated successfully!"), "success")] s) /\
     map t_id (tenants db') = map t_id (tenants db) /\
     (forall x, In x (tenants db') -> t_id x = id ->
        x = mkTenant id fullName phone (form_get (form rq) "email") None lease_start) /\
     (forall x, t_id x <> id -> (In x (tenants db') <-> In x (tenants db)))).
Proof.
  intros Hin Hpost Hf Nf Hp Np Hl Nl Hno Hsel Hfit. split.
  - eexists. split.
    + unfold add_tenant. unfold_ops. simpl. rewrite Hin. simpl.
      rewrite Hpost, Hf, Hp, Hl. rewrite (required_truthy _ _ _ Nf Np Nl).
      rewrite (no_apartment_test _ Hno). cbn [the]. reflexivity.
    + reflexivity.
  - set (upd := fun x : Tenant =>
                  if t_id x =? id
                  then mkTenant (t_id x) fullName phone (form_get (form rq) "email")
                                None lease_start
                  else x).
    exists (mkDB (users db) (users_seq db) (apartments db) (apartments_seq db)
              (map upd (tenants db)) (tenants_seq db)).
    split.
    + unfold edit_tenant. unfold_ops. simpl. rewrite Hin. simpl.
      unfold Sql.bind_int. rewrite Hfit, Hsel. simpl.
      rewrite Hpost, Hf, Hp, Hl. rewrite (required_truthy _ _ _ Nf Np Nl).
      rewrite (no_apartment_test _ Hno). cbn [the].
      unfold Sql.update_tenant, Sql.bind_opt_int, Sql.bind_int. rewrite Hfit.
      simpl. rewrite orb_true_r. reflexivity.
    + cbn [tenants]. repeat split.
      * rewrite map_map. apply map_ext. intros x. unfold upd.
        now destruct (t_id x =? id).
      * intros x Hx E. apply in_map_iff in Hx. destruct Hx as (y & <- & Hy).
        unfold upd in *. destruct (t_id y =? id) eqn:Ey.
        -- apply Z.eqb_eq in Ey. now rewrite Ey.
        -- apply Z.eqb_neq in Ey. contradiction.
      * intros Hx. apply in_map_iff in Hx. destruct Hx as (y & <- & Hy).
        unfold upd in *. destruct (t_id y =? id) eqn:Ey; [|exact Hy].
        simpl in H. apply Z.eqb_eq in Ey. contradiction.
      * intros Hx. apply in_map_iff. exists x. split; [|exact Hx].
        unfold upd. apply Z.eqb_neq in H. now rewrite H.
Qed.

(* ================================================================== *)
(** * The manager's listings and the dashboard *)

Lemma string_compare_trans_le (s1 s2 s3 : string) :
  String.compare s1 s2 <> Gt -> String.compare s2 s3 <> Gt ->
  String.compare s1 s3 <> Gt.
Proof.
  revert s2 s3. induction s1 as [|a s1 IH]; intros [|b s2] [|c s3]; simpl;
    try congruence.
  unfold Ascii.compare.
  destruct (N.compare_spec (N_of_ascii a) (N_of_ascii b)) as [Eab|Lab|Gab];
    destruct (N.compare_spec (N_of_ascii b) (N_of_ascii c)) as [Ebc|Lbc|Gbc];
    destruct (N.compare_spec (N_of_ascii a) (N_of_ascii c)) as [Eac|Lac|Gac];
    try congruence; try (intros; discriminate); try (exfalso; lia).
  apply IH.
Qed.

Lemma string_leb_trans (s1 s2 s3 : string) :
  String.leb s1 s2 = true -> String.leb s2 s3 = true -> String.leb s1 s3 = true.
Proof.
  unfold String.leb. intros H1 H2.
  assert (N1 : String.compare s1 s2 <> Gt) by (intros E; rewrite E in H1; discriminate).
  assert (N2 : String.compare s2 s3 <> Gt) by (intros E; rewrite E in H2; discriminate).
  pose proof (string_compare_trans_le s1 s2 s3 N1 N2) as N3.
  destruct (String.compare s1 s3); congruence.
Qed.

Lemma length_insert_by {A} (le : A -> A -> bool) (x : A) (l : list A) :
  length (Sql.insert_by le x l) = S (length l).
Proof.
  induction l as [|y l IH]; simpl; [reflexivity|].
  destruct (le x y); simpl; congruence.
Qed.

Lemma length_order_by {A} (le : A -> A -> bool) (l : list A) :
  length (Sql.order_by le l) = length l.
Proof.
  induction l as [|x l IH]; simpl; [reflexivity|].
  now rewrite length_insert_by, IH.
Qed.

Lemma tenant_count_zero (db : DB) (a : Apartment) :
  tenant_count db (a_id a) = 0 <-> available db a.
Proof.
  unfold tenant_count, available. split.
  - intros H t Ht. apply id_is_false.
    destruct (Sql.id_is (t_apartment_id t) (a_id a)) eqn:E; [|reflexivity].
    assert (Hin : In t (filter (fun t => Sql.id_is (t_apartment_id t) (a_id a))
                          (tenants db))) by (apply filter_In; auto).
    destruct (filter _ (tenants db)); [contradiction | simpl in H; lia].
  - intros H.
    replace (filter _ (tenants db)) with (@nil Tenant); [reflexivity|].
    symmetry. induction (tenants db) as [|t l IH]; simpl; [reflexivity|].
    rewrite (proj2 (id_is_false _ _) (H t (or_introl eq_refl))).
    apply IH. intros x Hx. apply H. now right.
Qed.

(** X21.  On a reachable database the apartment list of the manager has one row per apartment, in name
    order, each with the number of tenant rows that refer to it; that number
    is zero exactly for the apartments the public listing shows. *)
Theorem manage_apartments_counts_occupancy gen chk (db : DB) (s : Session) :
  reachable gen chk db ->
  logged_in s = Some true ->
  exists rows,
    manage_apartments (enter db s) =
      (Val (ManageApartmentsPage rows), mkWorld db Closed [] s) /\
    (forall a n, In (a, n) rows <->
                 In a (apartments db) /\ n = tenant_count db (a_id a)) /\
    length rows = length (apartments db) /\
    StronglySorted (fun x y => String.leb (a_name (fst x)) (a_name (fst y)) = true)
      rows /\
    (forall a n, In (a, n) rows ->
                 (n = 0 <-> In a (Sql.select_available_by_rent db))).
Proof.
  intros _ Hin. exists (Sql.select_apartments_with_count db).
  assert (Hrows : forall a n, In (a, n) (Sql.select_apartments_with_count db) <->
                    In a (apartments db) /\ n = tenant_count db (a_id a)).
  { intros a n. unfold Sql.select_apartments_with_count.
    rewrite in_order_by, in_map_iff. split.
    - intros (x & [= <- <-] & Hx). split; [exact Hx | reflexivity].
    - intros [Ha ->]. exists a. split; [reflexivity | exact Ha]. }
  split; [|split; [exact Hrows|split; [|split]]].
  - unfold manage_apartments. unfold_ops. simpl. rewrite Hin. reflexivity.
  - unfold Sql.select_apartments_with_count.
    now rewrite length_order_by, length_map.
  - unfold Sql.select_apartments_with_count.
    apply (order_by_sorted (fun r s => Sql.name_asc (fst r) (fst s))).
    + intros x y. apply String.leb_total.
    + intros x y z. apply string_leb_trans.
  - intros a n Hr. apply Hrows in Hr. destruct Hr as [Ha ->].
    rewrite tenant_count_zero, in_select_available_by_rent. tauto.
Qed.

Example manage_apartments_seeded_rows :
  fst (manage_apartments (enter seeded manager)) =
  Val (ManageApartmentsPage
         [(mkApartment 3 "Bole Road Family Home" 4 3 "Bole" (Some (Py.RFin 25000)), 0);
          (mkApartment 1 "Goro Deluxe Apt" 3 2 "Goro" (Some (Py.RFin 15000)), 1);
          (mkApartment 2 "Kazanchis Studio" 1 1 "Kazanchis" (Some (Py.RFin 8000)), 0)]).
Proof. reflexivity. Qed.

Lemma length_left_join {A B} (on : A -> B -> bool) (la : list A) (lb : list B) :
  (forall a, In a la -> (length (filter (on a) lb) <= 1)%nat) ->
  length (Sql.left_join on la lb) = length la.
Proof.
  unfold Sql.left_join. induction la as [|a la IH]; intros H; [reflexivity|].
  cbn [flat_map]. rewrite length_app, IH by (intros x Hx; apply H; now right).
  specialize (H a (or_introl eq_refl)).
  destruct (filter (on a) lb) as [|b [|b' m]]; simpl in *; try reflexivity. lia.
Qed.

Lemma filter_key_unique {A} (key : A -> Z) (o : option Z) (l : list A) :
  NoDup (map key l) ->
  (length (filter (fun x => Sql.id_is o (key x)) l) <= 1)%nat.
Proof.
  induction l as [|x l IH]; simpl; intros H; [lia|].
  inversion H as [|? ? Hnot Hnd]; subst.
  destruct (Sql.id_is o (key x)) eqn:E; [|auto].
  simpl. apply id_is_true in E.
  replace (filter _ l) with (@nil A); [simpl; lia|].
  symmetry. clear IH H Hnd. induction l as [|y l IH]; simpl; [reflexivity|].
  destruct (Sql.id_is o (key y)) eqn:Ey.
  - apply id_is_true in Ey. exfalso. apply Hnot. left. congruence.
  - apply IH. intros Hin. apply Hnot. now right.
Qed.

(** X22.  On a reachable database the tenant list of the manager has exactly one
    row per tenant, in name order; the apartment name of a row is empty
    exactly when the tenant is unassigned, and otherwise is the name of the
    apartment the tenant refers to. *)
Theorem manage_tenants_one_row_each gen chk (db : DB) (s : Session) :
  reachable gen chk db ->
  logged_in s = Some true ->
  exists rows,
    manage_tenants (enter db s) =
      (Val (ManageTenantsPage rows), mkWorld db Closed [] s) /\
    length rows = length (tenants db) /\
    (forall t, In t (tenants db) <-> exists name, In (t, name) rows) /\
    (forall t name, In (t, name) rows ->
       match t_apartment_id t with
       | None => name = None
       | Some i => exists a, In a (apartments db) /\ a_id a = i /\ name = Some (a_name a)
       end) /\
    StronglySorted
      (fun x y => String.leb (t_fullName (fst x)) (t_fullName (fst y)) = true) rows.
Proof.
  intros Hreach Hin.
  pose proof (reachable_fk_valid gen chk db Hreach) as Hfk.
  destruct (reachable_invariant primary_keys mutation_primary_keys gen chk db
              empty_primary_keys Hreach) as (_ & [Hnd _] & _).
  set (on := fun (t : Tenant) (a : Apartment) => Sql.id_is (t_apartment_id t) (a_id a)).
  assert (Hrows : forall t name,
             In (t, name) (Sql.select_tenants_with_apartment db) <->
             exists oa, name = option_map a_name oa /\
                        In (t, oa) (Sql.left_join on (tenants db) (apartments db))).
  { intros t name. unfold Sql.select_tenants_with_apartment.
    rewrite in_order_by, in_map_iff. split.
    - intros ([t' oa] & [= <- <-] & H). eauto.
    - intros (oa & -> & H). exists (t, oa). split; [reflexivity | exact H]. }
  exists (Sql.select_tenants_with_apartment db).
  split; [|split; [|split; [|split]]].
  - unfold manage_tenants. unfold_ops. simpl. rewrite Hin. reflexivity.
  - unfold Sql.select_tenants_with_apartment.
    rewrite length_order_by, length_map. apply length_left_join.
    intros t _. now apply (filter_key_unique a_id).
  - intros t. split.
    + intros Ht.
      destruct (filter (on t) (apartments db)) as [|a m] eqn:E.
      * exists None. apply Hrows. exists None. split; [reflexivity|].
        apply in_left_join. split; [exact Ht|]. intros a Ha.
        destruct (on t a) eqn:Ea; [|reflexivity].
        assert (In a []) by (rewrite <- E; apply filter_In; auto). contradiction.
      * exists (Some (a_name a)). apply Hrows. exists (Some a).
        split; [reflexivity|]. apply in_left_join. split; [exact Ht|].
        apply (filter_In (on t)). rewrite E. now left.
    + intros (name & H). apply Hrows in H. destruct H as (oa & _ & H).
      apply in_left_join in H. tauto.
  - intros t name H. apply Hrows in H. destruct H as (oa & -> & H).
    apply in_left_join in H. destruct H as [Ht H].
    destruct (t_apartment_id t) as [i|] eqn:Ei.
    + destruct oa as [a|].
      * destruct H as [Ha Hon]. unfold on in Hon. rewrite Ei in Hon.
        apply id_is_true in Hon. exists a. repeat split; [exact Ha | congruence].
      * destruct (Hfk t i Ht Ei) as (a & Ha & Ea).
        specialize (H a Ha). unfold on in H. rewrite Ei in H.
        apply id_is_false in H. congruence.
    + destruct oa as [a|]; [|reflexivity].
      destruct H as [_ Hon]. unfold on in Hon. rewrite Ei in Hon. discriminate.
  - unfold Sql.select_tenants_with_apartment.
    apply (order_by_sorted
             (fun r s => String.leb (t_fullName (fst r)) (t_fullName (fst s)))).
    + intros x y. apply String.leb_total.
    + intros x y z. apply string_leb_trans.
Qed.

Lemma occupied_b_true (db : DB) (a : Apartment) :
  occupied_b db a = true <-> referenced db (a_id a).
Proof.
  unfold occupied_b, referenced. rewrite existsb_exists.
  split; intros (t & Ht & H); exists t; (split; [exact Ht|]); now apply id_is_true.
Qed.

Lemma filter_matches_nil (db : DB) (a : Apartment) :
  occupied_b db a = false ->
  filter (fun t => Sql.id_is (t_apartment_id t) (a_id a)) (tenants db) = [].
Proof.
  unfold occupied_b. induction (tenants db) as [|t l IH]; simpl; [reflexivity|].
  intros H. apply orb_false_elim in H. destruct H as [Ht Hl].
  rewrite Ht. now apply IH.
Qed.

Lemma filter_matches_cons (db : DB) (a : Apartment) :
  occupied_b db a = true ->
  exists t m, filter (fun t => Sql.id_is (t_apartment_id t) (a_id a)) (tenants db)
              = t :: m.
Proof.
  intros H. apply existsb_exists in H. destruct H as (t & Ht & E).
  assert (Hin : In t (filter (fun t => Sql.id_is (t_apartment_id t) (a_id a))
                        (tenants db))) by (apply filter_In; auto).
  destruct (filter _ (tenants db)) as [|t0 m]; [contradiction | eauto].
Qed.

Lemma matched_rows_not_null (a : Apartment) (m : list Tenant) :
  Forall (fun t => Sql.id_is (t_apartment_id t) (a_id a) = true) m ->
  filter (fun r => Sql.is_null (Sql.joined_apartment_id r))
    (map (fun t => (a, Some t)) m) = [].
Proof.
  induction 1 as [|t m Ht Hm IH]; simpl; [reflexivity|].
  unfold Sql.joined_apartment_id at 1. simpl.
  apply id_is_true in Ht. rewrite Ht. simpl. exact IH.
Qed.

(** The rows of the public listing, counted: one per unoccupied apartment. *)
Lemma length_available_rows (db : DB) :
  length (filter (fun r => Sql.is_null (Sql.joined_apartment_id r))
            (Sql.apartments_join_tenants db)) =
  length (filter (fun a => negb (occupied_b db a)) (apartments db)).
Proof.
  unfold Sql.apartments_join_tenants, Sql.left_join.
  induction (apartments db) as [|a l IH]; [reflexivity|].
  cbn [flat_map filter]. rewrite filter_app, length_app, IH.
  destruct (occupied_b db a) eqn:E; cbn [negb].
  - destruct (filter_matches_cons db a E) as (t & m & Hm).
    assert (Hall : Forall (fun t => Sql.id_is (t_apartment_id t) (a_id a) = true)
                     (t :: m)).
    { rewrite <- Hm. apply Forall_forall. intros x Hx. now apply filter_In in Hx. }
    rewrite Hm, (matched_rows_not_null a (t :: m) Hall). reflexivity.
  - rewrite (filter_matches_nil db a E). reflexivity.
Qed.

Lemma length_occupied gen chk (db : DB) :
  reachable gen chk db ->
  length (filter (occupied_b db) (apartments db)) =
  length (nodup Z.eq_dec (Sql.assigned_ids (tenants db))).
Proof.
  intros Hreach.
  pose proof (reachable_fk_valid gen chk db Hreach) as Hfk.
  destruct (reachable_invariant primary_keys mutation_primary_keys gen chk db
              empty_primary_keys Hreach) as (_ & [Hnd _] & _).
  rewrite <- (length_map a_id (filter (occupied_b db) (apartments db))).
  assert (Hsame : forall id,
             In id (map a_id (filter (occupied_b db) (apartments db))) <->
             In id (nodup Z.eq_dec (Sql.assigned_ids (tenants db)))).
  { intros id. rewrite nodup_In, in_assigned_ids, in_map_iff. split.
    - intros (a & <- & Ha). apply filter_In in Ha. now apply occupied_b_true.
    - intros (t & Ht & E). destruct (Hfk t id Ht E) as (a & Ha & <-).
      exists a. split; [reflexivity|]. apply filter_In. split; [exact Ha|].
      apply occupied_b_true. exists t. auto. }
  apply Nat.le_antisymm; apply NoDup_incl_length.
  - now apply NoDup_map_filter.
  - intros id. apply Hsame.
  - apply NoDup_nodup.
  - intros id. apply Hsame.
Qed.

(** X23.  On a reachable database the dashboard and the public page agree: the
    available count a logged-in manager is shown is the number of
    apartments in the public listing. *)
Theorem dashboard_agrees_with_listing gen chk (db : DB) (s s' : Session)
    (name : string) :
  reachable gen chk db ->
  logged_in s = Some true -> user_name s = Some name ->
  exists total available tenants_n listing,
    fst (dashboard (enter db s)) = Val (DashboardPage name total available tenants_n) /\
    fst (home (enter db s')) = Val (IndexPage listing) /\
    available = Z.of_nat (length listing).
Proof.
  intros Hreach Hin Hname.
  rewrite (dashboard_run db s name Hin Hname).
  do 4 eexists. split; [reflexivity|]. split; [reflexivity|].
  unfold Sql.select_available_by_rent.
  rewrite length_map, length_order_by, length_available_rows.
  unfold Sql.count_apartments, Sql.count_occupied.
  rewrite <- (length_occupied gen chk db Hreach).
  pose proof (filter_length (occupied_b db) (apartments db)) as H.
  cbn [enter store]. lia.
Qed.

(** Without the foreign key the two pages can disagree: a tenant row with a
    dangling reference counts as an occupied unit on the dashboard while
    the listing still shows every apartment. *)
Example dangling_reference_breaks_agreement :
  let db := mkDB [] 0 [mkApartment 1 "A" 1 1 "L" None] 1
                 [mkTenant 1 "T" "0" None (Some 7) "2024-01-01"] 1 in
  fst (dashboard (enter db manager)) = Val (DashboardPage "Marta" 1 0 1) /\
  fst (home (enter db manager)) = Val (IndexPage [mkApartment 1 "A" 1 1 "L" None]).
Proof. split; reflexivity. Qed.

(* ================================================================== *)
(** * Start-up *)

(** X24.  [init_db] seeds only an empty apartments table: on a database that has
    an apartment it writes nothing, so running it again after the first
    start changes nothing. *)
Theorem init_db_seeds_once (db : DB) (s : Session) :
  apartments db <> [] ->
  init_db (enter db s) = (Val tt, mkWorld db Closed [] s).
Proof.
  intros H. unfold init_db. unfold_ops. simpl.
  unfold Sql.count_apartments.
  destruct (apartments db) as [|a l]; [contradiction|].
  reflexivity.
Qed.

(** The first start, on the empty database: three apartments with ids 1 to
    3, one tenant in apartment 1. *)
Example init_db_first_start :
  init_db (enter empty_db empty_session) =
  (Val tt,
   mkWorld
     (mkDB [] 0
        [mkApartment 1 "Goro Deluxe Apt" 3 2 "Goro" (Some (Py.RFin 15000));
         mkApartment 2 "Kazanchis Studio" 1 1 "Kazanchis" (Some (Py.RFin 8000));
         mkApartment 3 "Bole Road Family Home" 4 3 "Bole" (Some (Py.RFin 25000))] 3
        [mkTenant 1 "Abebe Kebede" "0911223344" (Some "abebek@example.com") (Some 1)
           "2024-01-01"] 1)
     Closed [] empty_session).
Proof. reflexivity. Qed.

Lemma init_db_refused (db : DB) (s : Session) :
  apartments db = [] ->
  1 <= apartments_seq db ->
  fst (init_db (enter db s)) = Exc IntegrityError /\
  store (snd (init_db (enter db s))) = db.
Proof.
  intros Hempty Hseq. unfold init_db. unfold_ops. simpl.
  unfold Sql.count_apartments. rewrite Hempty. simpl.
  unfold Sql.insert_tenant, Sql.fk_ok. simpl. rewrite Hempty. simpl.
  replace (apartments_seq db + 1 =? 1) with false by (symmetry; apply Z.eqb_neq; lia).
  replace (apartments_seq db + 1 + 1 =? 1) with false
    by (symmetry; apply Z.eqb_neq; lia).
  replace (apartments_seq db + 1 + 1 + 1 =? 1) with false
    by (symmetry; apply Z.eqb_neq; lia).
  simpl. split; reflexivity.
Qed.

Lemma mutation_apartments_seq (db db' : DB) :
  mutation db db' -> apartments_seq db <= apartments_seq db'.
Proof.
  intros Hm. destruct Hm as
    [f e p h db db' _ _ _ E | n l b ba r db db' _ E | n l b ba r id db db' _ E
    | id db db' E | f p e o ls db db' _ _ _ E | f p e o ls id db db' _ _ _ E
    | id db db' E].
  - unfold Sql.insert_user in E. destruct (existsb _ _); [discriminate|].
    injection E as <-. simpl. lia.
  - unfold Sql.insert_apartment in E.
    destruct (Sql.bind_int b), (Sql.bind_int ba); try discriminate.
    injection E as <-. simpl. lia.
  - unfold Sql.update_apartment in E.
    destruct (Sql.bind_int b), (Sql.bind_int ba), (Sql.bind_int id); try discriminate.
    injection E as <-. simpl. lia.
  - unfold Sql.delete_apartment in E. destruct (Sql.bind_int id); [discriminate|].
    injection E as <-. simpl. lia.
  - unfold Sql.insert_tenant in E. destruct (Sql.bind_opt_int o); [discriminate|].
    destruct (Sql.fk_ok o db); [|discriminate]. injection E as <-. simpl. lia.
  - unfold Sql.update_tenant in E.
    destruct (Sql.bind_opt_int o), (Sql.bind_int id); try discriminate.
    destruct (_ || _); [|discriminate]. injection E as <-. simpl. lia.
  - unfold Sql.delete_tenant in E. destruct (Sql.bind_int id); [discriminate|].
    injection E as <-. simpl. lia.
Qed.

Lemma reachable_apartments_seq gen chk (db : DB) :
  reachable gen chk db -> 3 <= apartments_seq db.
Proof.
  assert (Hstep : forall d d', 3 <= apartments_seq d -> mutation d d' ->
                               3 <= apartments_seq d').
  { intros d d' H Hm. apply mutation_apartments_seq in Hm. lia. }
  induction 1 as [|db Hr IH|db r rq s Hr IH].
  - vm_compute. discriminate.
  - now apply (init_db_invariant (fun d => 3 <= apartments_seq d) Hstep).
  - eapply (writes_invariant (fun d => 3 <= apartments_seq d) Hstep);
      [exact IH | apply serve_writes].
Qed.

(** X25.  Once every apartment has been deleted the application cannot start
    again.  [init_db] finds the table empty and seeds again, the sample
    apartments get new ids, the sample tenant still refers to apartment 1,
    the foreign key refuses it, and [init_db] ends with an [IntegrityError]
    with nothing committed. *)
Theorem restart_fails_after_all_deleted gen chk (db : DB) (s : Session) :
  reachable gen chk db ->
  apartments db = [] ->
  fst (init_db (enter db s)) = Exc IntegrityError /\
  store (snd (init_db (enter db s))) = db.
Proof.
  intros Hreach Hempty. apply init_db_refused; [exact Hempty|].
  pose proof (reachable_apartments_seq gen chk db Hreach). lia.
Qed.

Lemma emptied_reachable : reachable toy_hash toy_check emptied.
Proof.
  unfold emptied.
  apply (reach_serve toy_hash toy_check _ (r_delete_apartment 3) zero_bedrooms manager).
  apply (reach_serve toy_hash toy_check _ (r_delete_apartment 2) zero_bedrooms manager).
  apply (reach_serve toy_hash toy_check _ (r_delete_apartment 1) zero_bedrooms manager).
  apply reach_start.
Qed.

(* ================================================================== *)
(** * Incomplete forms *)

(** X26.  An apartment submitted with any of its five fields missing or empty is
    not looked at further: "All fields are required." is flashed, the form
    is rendered again with what was submitted, no connection is opened and
    nothing is written. *)
Theorem add_apartment_requires_all_fields (rq : Request) (db : DB) (s : Session)
    (k : string) :
  logged_in s = Some true -> method rq = POST ->
  In k ["name"; "location"; "bedrooms"; "bathrooms"; "rent"] ->
  Py.truthy (form_get (form rq) k) = false ->
  add_apartment rq (enter db s) =
    (Val (AddApartmentPage (Some (form rq))),
     mkWorld db NoConn [(Text "All fields are required.", "error")] s).
Proof.
  intros Hin Hpost Hk Hempty.
  unfold add_apartment, login_required, bind at 1, get_session, enter. simpl.
  rewrite Hin, Hpost.
  replace (Py.truthy (form_get (form rq) "name") && _) with false; [reflexivity|].
  symmetry. simpl in Hk.
  destruct Hk as [<-|[<-|[<-|[<-|[<-|[]]]]]]; rewrite Hempty;
    rewrite ?andb_false_r; reflexivity.
Qed.

(** X27.  A tenant submitted without a name, a phone or a lease start is not
    stored.  The create form comes back with what was submitted and the
    list of available apartments; the edit form redirects to its own page,
    where the stored values show again.  Both close the connection. *)
Theorem tenant_forms_require_fields (id : Z) (rq : Request) (db : DB) (s : Session)
    (t : Tenant) (k : string) :
  logged_in s = Some true -> method rq = POST ->
  In k ["fullName"; "phone"; "lease_start"] ->
  Py.truthy (form_get (form rq) k) = false ->
  Sql.select_tenant id db = Some t -> Sql.fits_int64 id = true ->
  add_tenant rq (enter db s) =
    (Val (AddTenantPage (Sql.select_available_by_name db) (Some (form rq))),
     mkWorld db Closed
       [(Text "Tenant's Full Name, Phone, and Lease Start Date are required.", "error")]
       s) /\
  edit_tenant id rq (enter db s) =
    (Val (Redirect (ep_edit_tenant id)),
     mkWorld db Closed
       [(Text "Tenant's Full Name, Phone, and Lease Start Date are required.",
         "error")] s).
Proof.
  intros Hin Hpost Hk Hempty Hsel Hfit.
  assert (Hreq : negb (Py.truthy (form_get (form rq) "fullName") &&
                         (Py.truthy (form_get (form rq) "phone") &&
                            (Py.truthy (form_get (form rq) "lease_start") && true)))
                 = true).
  { apply negb_true_iff. simpl in Hk.
    destruct Hk as [<-|[<-|[<-|[]]]]; rewrite Hempty; rewrite ?andb_false_r;
      reflexivity. }
  split.
  - unfold add_tenant, login_required, bind at 1, get_session, enter. simpl.
    rewrite Hin. unfold bind at 1 2, get_db_connection, query. simpl.
    rewrite Hpost, Hreq. reflexivity.
  - unfold edit_tenant, login_required, bind at 1, get_session, enter. simpl.
    rewrite Hin. unfold bind at 1 2, get_db_connection, query_by_id, Sql.bind_int.
    simpl. rewrite Hfit, Hsel. unfold bind at 1 2, query. simpl.
    rewrite Hpost, Hreq. reflexivity.
Qed.

(** X28.  A registration with its four fields submitted and one of them empty
    flashes that all fields are required and redirects home, without
    opening a connection or writing anything. *)
Theorem register_requires_all_fields gen (rq : Request) (db : DB) (s : Session)
    (fullName email phone password : string) :
  form_get (form rq) "fullName" = Some fullName ->
  form_get (form rq) "email" = Some email ->
  form_get (form rq) "phone" = Some phone ->
  form_get (form rq) "password" = Some password ->
  fullName = "" \/ email = "" \/ phone = "" \/ password = "" ->
  register gen rq (enter db s) =
    (Val (Redirect ep_home),
     mkWorld db NoConn [(Text "All fields are required for registration.", "error")] s).
Proof.
  intros Hf He Hp Hw Hempty.
  unfold register, form_item, bind, enter. rewrite Hf, He, Hp, Hw. simpl.
  replace (negb _) with true; [reflexivity|].
  symmetry. apply negb_true_iff.
  destruct Hempty as [->|[->|[->| ->]]]; simpl; rewrite ?andb_false_r; reflexivity.
Qed.

(** A registration request that lacks one of the four fields altogether is
    not answered with a message: the lookup [request.form[...]] raises
    for the first missing key, before anything is flashed or opened. *)
Theorem register_missing_key_raises gen (rq : Request) (db : DB) (s : Session)
    (k : string) :
  In k ["fullName"; "email"; "phone"; "password"] ->
  form_get (form rq) k = None ->
  exists missing,
    In missing ["fullName"; "email"; "phone"; "password"] /\
    form_get (form rq) missing = None /\
    register gen rq (enter db s) =
      (Exc (BadRequestKeyError missing), mkWorld db NoConn [] s).
Proof.
  intros Hk Hnone. unfold register, form_item, bind, enter.
  destruct (form_get (form rq) "fullName") eqn:Ef;
    [|exists "fullName"; simpl; auto].
  destruct (form_get (form rq) "email") eqn:Ee;
    [|exists "email"; simpl; auto].
  destruct (form_get (form rq) "phone") eqn:Ep;
    [|exists "phone"; simpl; auto].
  destruct (form_get (form rq) "password") eqn:Ew;
    [|exists "password"; simpl; auto 6].
  simpl in Hk. destruct Hk as [<-|[<-|[<-|[<-|[]]]]]; congruence.
Qed.

(* ================================================================== *)
(** * The edit page of an apartment *)

Lemma NoDup_map_inj {A} (key : A -> Z) (l : list A) (x y : A) :
  NoDup (map key l) -> In x l -> In y l -> key x = key y -> x = y.
Proof.
  induction l as [|z l IH]; simpl; intros Hnd Hx Hy E; [contradiction|].
  inversion Hnd as [|? ? Hnot Hnd']; subst.
  destruct Hx as [<-|Hx], Hy as [<-|Hy]; auto.
  - exfalso. apply Hnot. rewrite E. now apply in_map.
  - exfalso. apply Hnot. rewrite <- E. now apply in_map.
Qed.

(** X29.  On a reachable database, opening the edit page of an existing
    apartment shows that apartment together with a tenant who refers to it,
    or with no tenant exactly when the apartment is available; nothing is
    written and the connection is closed. *)
Theorem edit_apartment_page_shows_tenant gen chk (rq : Request) (db : DB)
    (s : Session) (apt : Apartment) :
  reachable gen chk db ->
  logged_in s = Some true -> method rq = GET ->
  In apt (apartments db) -> Sql.fits_int64 (a_id apt) = true ->
  exists occupant,
    edit_apartment (a_id apt) rq (enter db s) =
      (Val (EditApartmentPage (apt, occupant)), mkWorld db Closed [] s) /\
    (occupant = None <-> available db apt) /\
    (forall n i, occupant = Some (n, i) ->
       exists t, In t (tenants db) /\ t_fullName t = n /\ t_id t = i /\
                 t_apartment_id t = Some (a_id apt)).
Proof.
  intros Hreach Hin Hget Hapt Hfit.
  destruct (reachable_invariant primary_keys mutation_primary_keys gen chk db
              empty_primary_keys Hreach) as (_ & [Hnd _] & _).
  destruct (filter (fun r => a_id (fst r) =? a_id apt) (Sql.apartments_join_tenants db))
    as [|[a ot] rest] eqn:E.
  { destruct (join_row_exists db apt Hapt) as (ot & Hrow).
    assert (In (apt, ot) []) by (rewrite <- E; apply filter_In; split;
                                 [exact Hrow | apply Z.eqb_refl]).
    contradiction. }
  assert (Hrow : In (a, ot) (Sql.apartments_join_tenants db) /\ a_id a = a_id apt).
  { assert (H : In (a, ot) (filter (fun r => a_id (fst r) =? a_id apt)
                              (Sql.apartments_join_tenants db)))
      by (rewrite E; now left).
    apply filter_In in H. destruct H as [H Hid]. now apply Z.eqb_eq in Hid. }
  destruct Hrow as [Hrow Hid]. unfold Sql.apartments_join_tenants in Hrow.
  apply in_left_join in Hrow. destruct Hrow as [Ha Hot].
  assert (a = apt) by (apply (NoDup_map_inj a_id (apartments db)); assumption).
  subst a.
  exists (option_map (fun t => (t_fullName t, t_id t)) ot). split; [|split].
  - unfold edit_apartment, login_required, bind, get_session, enter, query_by_id,
      get_db_connection, Sql.bind_int, Sql.select_apartment_with_tenant.
    simpl. rewrite Hin. simpl. rewrite Hfit, E, Hget. reflexivity.
  - destruct ot as [t|]; simpl.
    + split; [discriminate|]. intros Hav. destruct Hot as [Ht Hon].
      apply id_is_true in Hon. destruct (Hav t Ht Hon).
    + split; [|reflexivity]. intros _ t Ht. apply id_is_false. auto.
  - intros n i Hocc. destruct ot as [t|]; [|discriminate].
    simpl in Hocc. injection Hocc as <- <-. destruct Hot as [Ht Hon].
    apply id_is_true in Hon. exists t. auto.
Qed.

(* ================================================================== *)
(** * The new-tenant page *)

Lemma in_select_available_by_name (db : DB) (i : Z) (n : string) :
  In (i, n) (Sql.select_available_by_name db) <->
  exists a, In a (apartments db) /\ a_id a = i /\ a_name a = n /\ available db a.
Proof.
  unfold Sql.select_available_by_name. rewrite in_map_iff. split.
  - intros ([a ot] & [= <- <-] & H). apply in_order_by in H.
    exists a. destruct (proj1 (in_available_rows db a) (ex_intro _ ot H)) as [Ha Hav].
    auto.
  - intros (a & Ha & <- & <- & Hav).
    destruct (proj2 (in_available_rows db a) (conj Ha Hav)) as (ot & H).
    exists (a, ot). split; [reflexivity|]. now apply in_order_by.
Qed.

(** X30.  Opening the new-tenant page offers exactly the available apartments,
    by name, and writes nothing; but this path never calls
    [conn.close()], so the connection it opened is still open when the
    handler returns. *)
Theorem add_tenant_page_leaves_connection_open (rq : Request) (db : DB) (s : Session) :
  logged_in s = Some true -> method rq = GET ->
  exists offered,
    add_tenant rq (enter db s) =
      (Val (AddTenantPage offered None), mkWorld db (Open db) [] s) /\
    (forall i n,
       In (i, n) offered <->
       exists a, In a (apartments db) /\ a_id a = i /\ a_name a = n /\ available db a) /\
    StronglySorted (fun x y => String.leb (snd x) (snd y) = true) offered.
Proof.
  intros Hin Hget. exists (Sql.select_available_by_name db). split; [|split].
  - unfold add_tenant. unfold_ops. simpl. rewrite Hin. simpl. rewrite Hget. reflexivity.
  - intros i n. apply in_select_available_by_name.
  - unfold Sql.select_available_by_name.
    apply (StronglySorted_map (fun r : Apartment * option Tenant =>
                                 (a_id (fst r), a_name (fst r)))
             (fun x y => String.leb (snd x) (snd y) = true)).
    apply (order_by_sorted (fun r s => Sql.name_asc (fst r) (fst s))).
    + intros x y. apply String.leb_total.
    + intros x y z. apply string_leb_trans.
Qed.

End Interpreter.

(* ================================================================== *)
(** * The properties on sample data

    The statements above, applied to the seeded database and to sample
    requests.  The requests are ASCII text, so what the interpreter makes
    of other text plays no part: the handlers are run with [refuse_int]
    and [refuse_float]. *)

Lemma dashboard_counts_add_up_seeded :
  exists total_apartments available_apartments total_tenants occupied,
    fst (dashboard (enter seeded manager)) =
      Val (DashboardPage "Marta" total_apartments available_apartments total_tenants) /\
    NoDup occupied /\
    (forall id, In id occupied <-> referenced seeded id) /\
    Z.of_nat (length occupied) + available_apartments = total_apartments /\
    total_apartments = Z.of_nat (length (apartments seeded)) /\
    total_tenants = Z.of_nat (length (tenants seeded)).
Proof.
  apply (dashboard_counts_add_up seeded manager "Marta"); reflexivity.
Defined.

Lemma delete_apartment_unassigns_seeded :
  let db' := store (snd (delete_apartment 1 (enter seeded manager))) in
  map t_id (tenants db') = map t_id (tenants seeded) /\
  (forall t, In t (tenants seeded) -> t_apartment_id t = Some 1 ->
     In (unassigned t) (tenants db')) /\
  (forall t, In t (tenants db') -> t_apartment_id t <> Some 1) /\
  (forall x, In x (apartments db') -> a_id x <> 1).
Proof.
  apply (delete_apartment_unassigns_tenants seeded manager
           (mkApartment 1 "Goro Deluxe Apt" 3 2 "Goro" (Some (Py.RFin 15000)))).
  - reflexivity.
  - reflexivity.
  - simpl. left. reflexivity.
Defined.

Lemma delete_absent_seeded :
  delete_tenant 7 (enter seeded manager) =
    (Val (Redirect ep_manage_tenants),
     mkWorld seeded (Open seeded) [(Text "Tenant not found.", "error")] manager) /\
  delete_apartment 7 (enter seeded manager) =
    (Val (Redirect ep_manage_apartments),
     mkWorld seeded Closed [(Text "Apartment deleted successfully.", "success")]
         manager).
Proof.
  destruct (delete_absent_tenant_vs_apartment seeded manager 7) as [Ht Ha];
    [reflexivity | reflexivity |].
  split; [apply Ht | apply Ha]; simpl; intros x H;
    repeat (destruct H as [<-|H]; [simpl; lia|]); contradiction.
Defined.

Lemma register_duplicate_email_marta :
  let rq := mkRequest POST
       [("fullName", "Someone Else"); ("email", "marta@example.com");
        ("phone", "0922"); ("password", "pw")] "pepper" in
  store (snd (register toy_hash rq (enter with_marta empty_session))) = with_marta /\
  register toy_hash rq (enter with_marta empty_session) =
    (Val (Redirect ep_home),
     mkWorld with_marta Closed
       [(Text "Registration failed. That email is already in use.", "error")]
       empty_session).
Proof.
  intros rq.
  destruct (register_duplicate_email toy_hash rq with_marta empty_session
              (mkUser 1 "Marta T" "marta@example.com" "0911000000" "salt$s3cret"))
    as [Hkeep Hmsg].
  - simpl. left. reflexivity.
  - reflexivity.
  - split; [exact Hkeep|].
    apply (Hmsg "Someone Else" "0922" "pw"); try reflexivity; discriminate.
Defined.

Lemma login_failure_marta :
  exists msg c,
    login toy_check
      (mkRequest POST [("loginEmail", "marta@example.com"); ("loginPassword",
          "guess")] "")
      (enter with_marta empty_session) =
      (Val (Redirect ep_home), mkWorld with_marta c [(Text msg, "error")]
          empty_session) /\
    c <> Open with_marta /\
    (msg = "Invalid email or password" \/
     msg = "Please provide both email and password.").
Proof.
  apply (login_failure_changes_nothing toy_check).
  intros u email password Hin He Hp Hmail.
  injection He as <-. injection Hp as <-.
  simpl in Hin. destruct Hin as [<-|[]]. reflexivity.
Defined.

Lemma apartment_forms_reject_zero_bedrooms :
  (forall a name location,
     In a (apartments seeded) -> Sql.fits_int64 (a_id a) = true ->
     form_get (form zero_bedrooms) "name" = Some name ->
     form_get (form zero_bedrooms) "location" = Some location ->
     exists v,
       edit_apartment refuse_int refuse_float (a_id a) zero_bedrooms (enter seeded
           manager) =
         (Val (Redirect (ep_edit_apartment (a_id a))),
          mkWorld seeded Closed [(TextExn "Data error: " (ValueError v), "error")]
            manager)) /\
  (exists m,
     add_apartment refuse_int refuse_float zero_bedrooms (enter seeded manager) =
       (Val (AddApartmentPage (Some (form zero_bedrooms))),
        mkWorld seeded NoConn [(m, "error")] manager)).
Proof.
  apply (apartment_forms_reject_bad_numbers refuse_int refuse_float zero_bedrooms
      seeded manager "0" "2" "15000");
    try reflexivity.
  left. vm_compute. discriminate.
Defined.

(** C6, as the specification has it, fails: the update of apartment 1 with
    zero bedrooms is answered by a redirect, which carries no form data,
    where the create form is rendered again with the submitted input. *)
Lemma edit_apartment_drops_submitted_input :
  int_refused refuse_int "0" /\
  edit_apartment refuse_int refuse_float 1 zero_bedrooms (enter seeded manager) =
    (Val (Redirect (ep_edit_apartment 1)),
     mkWorld seeded Closed
       [(TextExn "Data error: "
           (ValueError (Raised "Bedrooms, Bathrooms, and Rent must be positive numbers.")),
         "error")] manager) /\
  form_data_of (Redirect (ep_edit_apartment 1)) <> Some (form zero_bedrooms) /\
  fst (add_apartment refuse_int refuse_float zero_bedrooms (enter seeded manager)) =
    Val (AddApartmentPage (Some (form zero_bedrooms))).
Proof.
  split; [vm_compute; discriminate|].
  split; [reflexivity|]. split; [discriminate | reflexivity].
Qed.

Lemma reachable_available_nonnegative_seeded :
  Sql.count_occupied seeded <= Sql.count_apartments seeded /\
  exists total_apartments available_apartments total_tenants,
    fst (dashboard (enter seeded manager)) =
      Val (DashboardPage "Marta" total_apartments available_apartments total_tenants) /\
    available_apartments = total_apartments - Sql.count_occupied seeded /\
    0 <= available_apartments.
Proof.
  apply (reachable_available_nonnegative refuse_int refuse_float toy_hash toy_check
      seeded manager "Marta").
  - apply (reach_start refuse_int refuse_float).
  - reflexivity.
  - reflexivity.
Defined.

Lemma reachable_primary_keys_seeded : primary_keys seeded.
Proof. apply (reachable_primary_keys refuse_int refuse_float toy_hash toy_check).
    apply (reach_start refuse_int refuse_float). Defined.

Lemma reachable_emails_unique_two_users :
  map u_email (users (two_users refuse_int refuse_float)) = ["marta@example.com";
      "abel@example.com"] /\
  emails_unique (two_users refuse_int refuse_float).
Proof.
  split; [vm_compute; reflexivity|].
  apply (reachable_emails_unique refuse_int refuse_float toy_hash toy_check).
  unfold two_users. apply reach_serve. apply reach_serve. apply (reach_start
      refuse_int refuse_float).
Defined.

Lemma reachable_apartments_positive_seeded :
  Forall apartment_positive (apartments seeded).
Proof.
  apply (reachable_apartments_positive refuse_int refuse_float toy_hash toy_check).
      apply (reach_start refuse_int refuse_float).
Defined.

Lemma reachable_required_filled_seeded : required_filled seeded.
Proof.
  apply (reachable_required_filled refuse_int refuse_float toy_hash toy_check). apply
      (reach_start refuse_int refuse_float).
Defined.

Lemma protected_routes_need_login_delete :
  dispatch refuse_int refuse_float toy_hash toy_check (r_delete_apartment 1)
      zero_bedrooms
    (enter seeded empty_session) =
    (Val (Redirect ep_home),
     mkWorld seeded NoConn [(Text "You must be logged in to view this page.", "error")]
       empty_session).
Proof.
  apply (protected_routes_need_login refuse_int refuse_float); [reflexivity |
      discriminate].
Defined.

Lemma reading_requests_keep_db_edit_form :
  serve refuse_int refuse_float toy_hash toy_check (r_edit_tenant 1) (mkRequest GET []
      "") manager seeded
    = seeded.
Proof.
  apply (reading_requests_keep_db refuse_int refuse_float). right. split; reflexivity.
Defined.

Lemma session_changed_only_by_login_logout_register :
  session (snd (dispatch refuse_int refuse_float toy_hash toy_check r_register
                  (mkRequest POST marta_form "salt") (enter seeded empty_session)))
    = empty_session.
Proof.
  apply (session_changed_only_by_login_logout refuse_int refuse_float); discriminate.
Defined.

Lemma login_success_marta_witness :
  login toy_check
    (mkRequest POST [("loginEmail", "marta@example.com"); ("loginPassword", "s3cret")]
        "")
    (enter with_marta empty_session) =
    (Val (Redirect ep_dashboard),
     mkWorld with_marta Closed
       [(Text ("Welcome back, " ++
               u_fullName (mkUser 1 "Marta T" "marta@example.com" "0911000000"
                             "salt$s3cret") ++ "!"), "success")]
       (mkSession (Some true) (Some 1) (Some "Marta T"))).
Proof.
  apply (login_success toy_check _ with_marta empty_session
           (mkUser 1 "Marta T" "marta@example.com" "0911000000" "salt$s3cret")
           "marta@example.com" "s3cret"); try reflexivity; discriminate.
Defined.

Lemma register_adds_user_marta :
  exists db',
    register toy_hash (mkRequest POST marta_form "salt") (enter seeded empty_session) =
      (Val (Redirect ep_home),
       mkWorld db' Closed [(Text "Registration successful! Please log in.", "success")]
         empty_session) /\
    users db' = (users seeded ++
      [mkUser (users_seq seeded + 1) "Marta T" "marta@example.com" "0911000000"
         (toy_hash "salt" "s3cret")])%list /\
    apartments db' = apartments seeded /\ tenants db' = tenants seeded.
Proof.
  apply (register_adds_user toy_hash (mkRequest POST marta_form "salt") seeded
           empty_session "Marta T" "marta@example.com" "0911000000" "s3cret");
    try reflexivity; try discriminate.
  intros u [].
Defined.

Lemma register_then_login_marta :
  let db' := store (snd (register toy_hash (mkRequest POST marta_form "salt")
                           (enter seeded empty_session))) in
  login toy_check
    (mkRequest POST [("loginEmail", "marta@example.com"); ("loginPassword", "s3cret")]
        "")
    (enter db' empty_session) =
    (Val (Redirect ep_dashboard),
     mkWorld db' Closed [(Text ("Welcome back, " ++ "Marta T" ++ "!"), "success")]
       (mkSession (Some true) (Some (users_seq seeded + 1)) (Some "Marta T"))).
Proof.
  apply (register_then_login toy_hash toy_check (mkRequest POST marta_form "salt") _
           seeded empty_session empty_session
           "Marta T" "marta@example.com" "0911000000" "s3cret");
    try reflexivity; try discriminate.
  intros u [].
Defined.

Lemma logout_ends_access_dashboard :
  logout (enter seeded manager) =
    (Val (Redirect ep_home),
     mkWorld seeded NoConn [(Text "You have been logged out successfully.", "success")]
       empty_session) /\
  fst (dispatch refuse_int refuse_float toy_hash toy_check r_dashboard zero_bedrooms
         (enter seeded (session (snd (logout (enter seeded manager)))))) =
    Val (Redirect ep_home) /\
  store (snd (dispatch refuse_int refuse_float toy_hash toy_check r_dashboard
      zero_bedrooms
                (enter seeded (session (snd (logout (enter seeded manager))))))) =
                    seeded.
Proof.
  apply (logout_ends_access refuse_int refuse_float toy_hash toy_check r_dashboard
      zero_bedrooms seeded manager).
  reflexivity.
Defined.

Lemma added_apartment_is_listed_piassa :
  let rq := mkRequest POST
       [("name", "Piassa Flat"); ("location", "Piassa"); ("bedrooms", "1");
        ("bathrooms", "1"); ("rent", "9500")] "" in
  let new := mkApartment (apartments_seq seeded + 1) "Piassa Flat" 1 1 "Piassa"
               (Sql.bind_float (Py.FReal (Py.RFin 9500))) in
  exists db' listing,
    add_apartment refuse_int refuse_float rq (enter seeded manager) =
      (Val (Redirect ep_manage_apartments),
       mkWorld db' Closed
         [(Text ("Apartment '" ++ "Piassa Flat" ++ "' added successfully!"), "success")]
         manager) /\
    apartments db' = (apartments seeded ++ [new])%list /\
    fst (home (enter db' empty_session)) = Val (IndexPage listing) /\
    In new listing.
Proof.
  apply (added_apartment_is_listed refuse_int refuse_float toy_hash toy_check _ seeded
      manager empty_session
           "Piassa Flat" "Piassa" "1" "1" "9500" 1 1 (Py.FReal (Py.RFin 9500)));
    try reflexivity; try discriminate.
  - apply (reach_start refuse_int refuse_float).
  - repeat split; reflexivity.
Defined.

Lemma edit_apartment_not_found_seeded :
  edit_apartment refuse_int refuse_float 9 zero_bedrooms (enter seeded manager) =
    (Val (Redirect ep_manage_apartments),
     mkWorld seeded Closed [(Text "Apartment not found.", "error")] manager).
Proof.
  apply (edit_apartment_not_found refuse_int refuse_float); try reflexivity.
  simpl. intros a H. repeat (destruct H as [<-|H]; [simpl; lia|]). contradiction.
Defined.

Lemma edit_apartment_updates_kazanchis :
  let rq := mkRequest POST
       [("name", "Kazanchis Loft"); ("location", "Kazanchis"); ("bedrooms", "2");
        ("bathrooms", "1"); ("rent", "9500")] "" in
  let old := mkApartment 2 "Kazanchis Studio" 1 1 "Kazanchis" (Some (Py.RFin 8000)) in
  let new := mkApartment (a_id old) "Kazanchis Loft" 2 1 "Kazanchis"
               (Sql.bind_float (Py.FReal (Py.RFin 9500))) in
  exists db',
    edit_apartment refuse_int refuse_float (a_id old) rq (enter seeded manager) =
      (Val (Redirect ep_manage_apartments),
       mkWorld db' Closed
         [(Text ("Apartment '" ++ "Kazanchis Loft" ++ "' updated successfully!"),
           "success")] manager) /\
    map a_id (apartments db') = map a_id (apartments seeded) /\
    In new (apartments db') /\
    (forall x, In x (apartments db') -> a_id x = a_id old -> x = new) /\
    (forall x, a_id x <> a_id old -> (In x (apartments db') <-> In x (apartments
        seeded))) /\
    tenants db' = tenants seeded /\ users db' = users seeded.
Proof.
  apply (edit_apartment_updates_in_place refuse_int refuse_float _ seeded manager
           (mkApartment 2 "Kazanchis Studio" 1 1 "Kazanchis" (Some (Py.RFin 8000)))
           "Kazanchis Loft" "Kazanchis" "2" "1" "9500" 2 1 (Py.FReal (Py.RFin 9500)));
    try reflexivity.
  - simpl. right. left. reflexivity.
  - repeat split; reflexivity.
Defined.

Lemma assigned_apartment_leaves_listing_bole :
  let rq := mkRequest POST
       [("fullName", "Sara"); ("phone", "0911"); ("lease_start", "2024-05-01");
        ("apartment_id", "3")] "" in
  let apt := mkApartment 3 "Bole Road Family Home" 4 3 "Bole" (Some (Py.RFin 25000)) in
  exists db' listing,
    add_tenant refuse_int rq (enter seeded manager) =
      (Val (Redirect ep_manage_tenants),
       mkWorld db' Closed
         [(Text ("Tenant '" ++ "Sara" ++ "' added successfully!"), "success")]
             manager) /\
    tenants db' =
      (tenants seeded ++
         [mkTenant (tenants_seq seeded + 1) "Sara" "0911" (form_get (form rq) "email")
            (Some (a_id apt)) "2024-05-01"])%list /\
    apartments db' = apartments seeded /\
    fst (home (enter db' empty_session)) = Val (IndexPage listing) /\
    forall x, In x listing -> a_id x <> a_id apt.
Proof.
  apply (assigned_apartment_leaves_listing refuse_int _ seeded manager empty_session
           (mkApartment 3 "Bole Road Family Home" 4 3 "Bole" (Some (Py.RFin 25000)))
           "Sara" "0911" "2024-05-01" "3");
    try reflexivity; try discriminate.
  simpl. right. right. left. reflexivity.
Defined.

Lemma add_tenant_unknown_apartment_seeded :
  let rq := mkRequest POST
       [("fullName", "Sara"); ("phone", "0911"); ("lease_start", "2024-05-01");
        ("apartment_id", "42")] "" in
  add_tenant refuse_int rq (enter seeded manager) =
    (Val (AddTenantPage (Sql.select_available_by_name seeded) None),
     mkWorld seeded Closed
       [(TextExn "An unexpected database error occurred while adding the tenant: "
           IntegrityError, "error")] manager).
Proof.
  apply (add_tenant_unknown_apartment refuse_int _ seeded manager "Sara" "0911"
      "2024-05-01"
           "42" 42); try reflexivity; try discriminate.
  simpl. intros a H. repeat (destruct H as [<-|H]; [simpl; lia|]). contradiction.
Defined.

Lemma edit_tenant_not_found_seeded :
  edit_tenant refuse_int 5 bad_apartment_id (enter seeded manager) =
    (Val (Redirect ep_manage_tenants),
     mkWorld seeded Closed [(Text "Tenant not found.", "error")] manager).
Proof.
  apply (edit_tenant_not_found refuse_int); try reflexivity.
  simpl. intros t H. repeat (destruct H as [<-|H]; [simpl; lia|]). contradiction.
Defined.

Lemma deleted_tenant_frees_goro :
  let apt := mkApartment 1 "Goro Deluxe Apt" 3 2 "Goro" (Some (Py.RFin 15000)) in
  let t := mkTenant 1 "Abebe Kebede" "0911223344" (Some "abebek@example.com") (Some 1)
             "2024-01-01" in
  exists db' listing,
    delete_tenant 1 (enter seeded manager) =
      (Val (Redirect ep_manage_tenants),
       mkWorld db' Closed
         [(Text ("Tenant '" ++ t_fullName t ++ "' deleted successfully."), "success")]
         manager) /\
    (forall x, In x (tenants db') <-> In x (tenants seeded) /\ t_id x <> 1) /\
    apartments db' = apartments seeded /\
    fst (home (enter db' empty_session)) = Val (IndexPage listing) /\
    In apt listing.
Proof.
  apply (deleted_tenant_frees_apartment 1 seeded manager empty_session); try
      reflexivity.
  - simpl. left. reflexivity.
  - simpl. intros x [<-|[]] _. reflexivity.
Defined.

Lemma edit_tenant_page_seeded :
  exists offered,
    edit_tenant refuse_int 1 (mkRequest GET [] "") (enter seeded manager) =
      (Val (EditTenantPage
              (mkTenant 1 "Abebe Kebede" "0911223344" (Some "abebek@example.com")
                 (Some 1) "2024-01-01") offered),
       mkWorld seeded Closed [] manager) /\
    forall i n,
      In (i, n) offered <->
      exists a, In a (apartments seeded) /\ a_id a = i /\ a_name a = n /\
                (available seeded a \/
                 t_apartment_id
                   (mkTenant 1 "Abebe Kebede" "0911223344" (Some "abebek@example.com")
                      (Some 1) "2024-01-01") = Some (a_id a)).
Proof.
  apply (edit_tenant_page_offers_own_apartment refuse_int); reflexivity.
Defined.

Lemma sentinel_stored_as_null_seeded :
  let rq := mkRequest POST
       [("fullName", "Sara"); ("phone", "0911"); ("lease_start", "2024-05-01");
        ("apartment_id", "None")] "" in
  (exists db',
     add_tenant refuse_int rq (enter seeded manager) =
       (Val (Redirect ep_manage_tenants),
        mkWorld db' Closed
          [(Text ("Tenant '" ++ "Sara" ++ "' added successfully!"), "success")]
              manager) /\
     tenants db' =
       (tenants seeded ++
          [mkTenant (tenants_seq seeded + 1) "Sara" "0911" (form_get (form rq) "email")
             None "2024-05-01"])%list) /\
  (exists db',
     edit_tenant refuse_int 1 rq (enter seeded manager) =
       (Val (Redirect ep_manage_tenants),
        mkWorld db' Closed
          [(Text ("Tenant '" ++ "Sara" ++ "' updated successfully!"), "success")]
          manager) /\
     map t_id (tenants db') = map t_id (tenants seeded) /\
     (forall x, In x (tenants db') -> t_id x = 1 ->
        x = mkTenant 1 "Sara" "0911" (form_get (form rq) "email") None "2024-05-01") /\
     (forall x, t_id x <> 1 -> (In x (tenants db') <-> In x (tenants seeded)))).
Proof.
  apply (sentinel_stored_as_null refuse_int 1 _ seeded manager
           (mkTenant 1 "Abebe Kebede" "0911223344" (Some "abebek@example.com") (Some 1)
              "2024-01-01") "Sara" "0911" "2024-05-01");
    try reflexivity; try discriminate.
  right. right. reflexivity.
Defined.

Lemma manage_apartments_counts_seeded :
  exists rows,
    manage_apartments (enter seeded manager) =
      (Val (ManageApartmentsPage rows), mkWorld seeded Closed [] manager) /\
    (forall a n, In (a, n) rows <->
                 In a (apartments seeded) /\ n = tenant_count seeded (a_id a)) /\
    length rows = length (apartments seeded) /\
    StronglySorted (fun x y => String.leb (a_name (fst x)) (a_name (fst y)) = true)
      rows /\
    (forall a n, In (a, n) rows ->
                 (n = 0 <-> In a (Sql.select_available_by_rent seeded))).
Proof.
  apply (manage_apartments_counts_occupancy refuse_int refuse_float toy_hash toy_check);
    [apply (reach_start refuse_int refuse_float) | reflexivity].
Defined.

Lemma manage_tenants_one_row_each_seeded :
  exists rows,
    manage_tenants (enter seeded manager) =
      (Val (ManageTenantsPage rows), mkWorld seeded Closed [] manager) /\
    length rows = length (tenants seeded) /\
    (forall t, In t (tenants seeded) <-> exists name, In (t, name) rows) /\
    (forall t name, In (t, name) rows ->
       match t_apartment_id t with
       | None => name = None
       | Some i =>
           exists a, In a (apartments seeded) /\ a_id a = i /\ name = Some (a_name a)
       end) /\
    StronglySorted
      (fun x y => String.leb (t_fullName (fst x)) (t_fullName (fst y)) = true) rows.
Proof.
  apply (manage_tenants_one_row_each refuse_int refuse_float toy_hash toy_check);
      [apply (reach_start refuse_int refuse_float) | reflexivity].
Defined.

Lemma dashboard_agrees_with_listing_seeded :
  exists total available tenants_n listing,
    fst (dashboard (enter seeded manager)) =
      Val (DashboardPage "Marta" total available tenants_n) /\
    fst (home (enter seeded empty_session)) = Val (IndexPage listing) /\
    available = Z.of_nat (length listing).
Proof.
  apply (dashboard_agrees_with_listing refuse_int refuse_float toy_hash toy_check
      seeded manager empty_session);
    [apply (reach_start refuse_int refuse_float) | reflexivity | reflexivity].
Defined.

Lemma init_db_seeds_once_seeded :
  init_db (enter seeded empty_session) = (Val tt, mkWorld seeded Closed []
      empty_session).
Proof. apply init_db_seeds_once. discriminate. Defined.

Lemma restart_fails_after_all_deleted_emptied :
  fst (init_db (enter (emptied refuse_int refuse_float) empty_session)) = Exc
      IntegrityError /\
  store (snd (init_db (enter (emptied refuse_int refuse_float) empty_session))) =
      (emptied refuse_int refuse_float).
Proof.
  apply (restart_fails_after_all_deleted refuse_int refuse_float toy_hash toy_check).
  - exact (emptied_reachable refuse_int refuse_float).
  - reflexivity.
Defined.

Lemma add_apartment_requires_all_fields_rent :
  let rq := mkRequest POST
       [("name", "Piassa Flat"); ("location", "Piassa"); ("bedrooms", "1");
        ("bathrooms", "1"); ("rent", "")] "" in
  add_apartment refuse_int refuse_float rq (enter seeded manager) =
    (Val (AddApartmentPage (Some (form rq))),
     mkWorld seeded NoConn [(Text "All fields are required.", "error")] manager).
Proof.
  apply (add_apartment_requires_all_fields refuse_int refuse_float _ seeded manager
      "rent"); try reflexivity.
  simpl. tauto.
Defined.

Lemma tenant_forms_require_fields_phone :
  let rq := mkRequest POST
       [("fullName", "Sara"); ("phone", ""); ("lease_start", "2024-05-01")] "" in
  add_tenant refuse_int rq (enter seeded manager) =
    (Val (AddTenantPage (Sql.select_available_by_name seeded) (Some (form rq))),
     mkWorld seeded Closed
       [(Text "Tenant's Full Name, Phone, and Lease Start Date are required.", "error")]
       manager) /\
  edit_tenant refuse_int 1 rq (enter seeded manager) =
    (Val (Redirect (ep_edit_tenant 1)),
     mkWorld seeded Closed
       [(Text "Tenant's Full Name, Phone, and Lease Start Date are required.",
         "error")] manager).
Proof.
  apply (tenant_forms_require_fields refuse_int 1 _ seeded manager
           (mkTenant 1 "Abebe Kebede" "0911223344" (Some "abebek@example.com") (Some 1)
              "2024-01-01") "phone"); try reflexivity.
  simpl. tauto.
Defined.

Lemma register_requires_all_fields_phone :
  register toy_hash
    (mkRequest POST
       [("fullName", "Marta T"); ("email", "marta@example.com"); ("phone", "");
        ("password", "s3cret")] "salt")
    (enter seeded empty_session) =
    (Val (Redirect ep_home),
     mkWorld seeded NoConn [(Text "All fields are required for registration.", "error")]
       empty_session).
Proof.
  apply (register_requires_all_fields toy_hash _ seeded empty_session
           "Marta T" "marta@example.com" "" "s3cret"); try reflexivity.
  right. right. left. reflexivity.
Defined.

Lemma register_missing_key_raises_email :
  exists missing,
    In missing ["fullName"; "email"; "phone"; "password"] /\
    form_get (form (mkRequest POST [("fullName", "Marta T")] "salt")) missing = None /\
    register toy_hash (mkRequest POST [("fullName", "Marta T")] "salt")
      (enter seeded empty_session) =
      (Exc (BadRequestKeyError missing), mkWorld seeded NoConn [] empty_session).
Proof.
  apply (register_missing_key_raises toy_hash _ seeded empty_session "email").
  - simpl. tauto.
  - reflexivity.
Defined.

Lemma edit_apartment_page_shows_tenant_goro :
  exists occupant,
    edit_apartment refuse_int refuse_float 1 (mkRequest GET [] "") (enter seeded
        manager) =
      (Val (EditApartmentPage
              (mkApartment 1 "Goro Deluxe Apt" 3 2 "Goro" (Some (Py.RFin 15000)),
               occupant)),
       mkWorld seeded Closed [] manager) /\
    (occupant = None <->
     available seeded (mkApartment 1 "Goro Deluxe Apt" 3 2 "Goro" (Some (Py.RFin
         15000)))) /\
    (forall n i, occupant = Some (n, i) ->
       exists t, In t (tenants seeded) /\ t_fullName t = n /\ t_id t = i /\
                 t_apartment_id t = Some 1).
Proof.
  apply (edit_apartment_page_shows_tenant refuse_int refuse_float toy_hash toy_check
      (mkRequest GET [] "")
           seeded manager
           (mkApartment 1 "Goro Deluxe Apt" 3 2 "Goro" (Some (Py.RFin 15000))));
    try reflexivity.
  - apply (reach_start refuse_int refuse_float).
  - simpl. left. reflexivity.
Defined.

Lemma add_tenant_page_seeded :
  exists offered,
    add_tenant refuse_int (mkRequest GET [] "") (enter seeded manager) =
      (Val (AddTenantPage offered None), mkWorld seeded (Open seeded) [] manager) /\
    (forall i n,
       In (i, n) offered <->
       exists a, In a (apartments seeded) /\ a_id a = i /\ a_name a = n /\
                 available seeded a) /\
    StronglySorted (fun x y => String.leb (snd x) (snd y) = true) offered.
Proof. apply (add_tenant_page_leaves_connection_open refuse_int); reflexivity. Defined.
